(** * UpNote MCP stdio transport: dual framing, dispatch loop and debug proxy

    A shallow embedding of [upnote_mcp_server.py] and [upnote_mcp_debugger.py],
    and of the parts of [upnote_python_client] that build the URLs the
    server's tools end in.

    Python [bytes] and [bytearray] values are lists of 8-bit characters.
    Python [str] values are Rocq strings holding the UTF-8 encoding of the
    text, so [s.encode("utf-8")] is the identity on the underlying bytes and
    [b.decode("utf-8")] is a validity check.  Integers are unbounded ([Z]).
    Floating-point JSON numbers are outside the embedding: the decoder
    model rejects them and the value type has no constructor for them. *)

From Stdlib Require Import List String Ascii Bool Arith ZArith Lia.
From Stdlib Require Decimal DecimalString DecimalFacts DecimalPos DecimalN DecimalZ.
Import ListNotations.

Local Open Scope char_scope.
Local Open Scope list_scope.

(** ** Python byte strings *)

Definition bytes := list ascii.

(** [B "..."] is the bytes literal [b"..."]. *)
Definition B (s : string) : bytes := list_ascii_of_string s.

Definition CR : ascii := ascii_of_N 13.
Definition LF : ascii := ascii_of_N 10.
Definition TAB : ascii := ascii_of_N 9.
Definition VT : ascii := ascii_of_N 11.
Definition FF : ascii := ascii_of_N 12.
Definition BS : ascii := ascii_of_N 8.
Definition DQUOTE : ascii := ascii_of_N 34.
Definition SQUOTE : ascii := ascii_of_N 39.
Definition BACKSLASH : ascii := ascii_of_N 92.

Definition CRLF : bytes := [CR; LF].
Definition CRLFCRLF : bytes := [CR; LF; CR; LF].

Definition code (c : ascii) : N := N_of_ascii c.

Definition bytes_eqb (a b : bytes) : bool :=
  if list_eq_dec ascii_dec a b then true else false.

(** [b.startswith(p)] *)
Fixpoint startswith (p b : bytes) : bool :=
  match p, b with
  | [], _ => true
  | _ :: _, [] => false
  | x :: p', y :: b' => Ascii.eqb x y && startswith p' b'
  end.

(** [b.find(sub)]: the lowest index at which [sub] occurs, [None] for -1. *)
Fixpoint find (sub b : bytes) : option nat :=
  if startswith sub b then Some 0
  else match b with
       | [] => None
       | _ :: b' => option_map S (find sub b')
       end.

(** [sub in b] *)
Definition contains (sub b : bytes) : bool :=
  match find sub b with Some _ => true | None => false end.

(** [b[i:j]] for [0 <= i], [0 <= j]. *)
Definition slice (b : bytes) (i j : nat) : bytes := firstn (j - i) (skipn i b).

(** ASCII whitespace as used by [bytes.strip], [bytes.lstrip]:
    space, TAB, LF, VT, FF, CR. *)
Definition is_space (c : ascii) : bool :=
  let n := code c in ((n =? 32) || ((9 <=? n) && (n <=? 13)))%N.

Fixpoint lstrip_by (p : ascii -> bool) (b : bytes) : bytes :=
  match b with
  | c :: b' => if p c then lstrip_by p b' else b
  | [] => []
  end.

Definition rstrip_by (p : ascii -> bool) (b : bytes) : bytes :=
  rev (lstrip_by p (rev b)).

Definition lstrip (b : bytes) : bytes := lstrip_by is_space b.
Definition rstrip (b : bytes) : bytes := rstrip_by is_space b.
Definition strip (b : bytes) : bytes := rstrip (lstrip b).

Definition is_crlf (c : ascii) : bool := Ascii.eqb c CR || Ascii.eqb c LF.

(** [b.rstrip(b"\r\n")]: drops trailing bytes drawn from the set {CR, LF}. *)
Definition rstrip_crlf (b : bytes) : bytes := rstrip_by is_crlf b.

(** [b.lower()] *)
Definition lower_char (c : ascii) : ascii :=
  let n := code c in
  if ((65 <=? n) && (n <=? 90))%N then ascii_of_N (n + 32) else c.

Definition lower (b : bytes) : bytes := map lower_char b.

(** [b.split(b"\r\n")] *)
Fixpoint split_crlf_acc (cur : bytes) (b : bytes) : list bytes :=
  match b with
  | [] => [rev cur]
  | c :: b' =>
      match b' with
      | d :: b'' =>
          if Ascii.eqb c CR && Ascii.eqb d LF
          then rev cur :: split_crlf_acc [] b''
          else split_crlf_acc (c :: cur) b'
      | [] => [rev (c :: cur)]
      end
  end.

Definition split_crlf (b : bytes) : list bytes := split_crlf_acc [] b.

(** [b.split(sep, 1)] for a one-byte separator: [None] when [sep] does not
    occur (the result then has one element, and unpacking into two names
    raises [ValueError]). *)
Fixpoint split_once (sep : ascii) (b : bytes) : option (bytes * bytes) :=
  match b with
  | [] => None
  | c :: b' =>
      if Ascii.eqb c sep then Some ([], b')
      else match split_once sep b' with
           | Some (k, v) => Some (c :: k, v)
           | None => None
           end
  end.

(** ** Decimal integers: [str(n)] and [int(text)] *)

Definition is_digit (c : ascii) : bool :=
  let n := code c in ((48 <=? n) && (n <=? 57))%N.

Definition digits_of_uint (d : Decimal.uint) : bytes :=
  list_ascii_of_string (DecimalString.NilEmpty.string_of_uint d).

(** [str(z)] for an [int]. *)
Definition str_int (z : Z) : bytes :=
  match Z.to_int z with
  | Decimal.Pos d => digits_of_uint d
  | Decimal.Neg d => "-" :: digits_of_uint d
  end.

Definition str_nat (n : nat) : bytes := str_int (Z.of_nat n).

(** The digits of an integer literal, with the single underscores Python
    allows between digits removed; [None] when the text is not of that
    shape. *)
Fixpoint int_digits (after_digit : bool) (b : bytes) : option bytes :=
  match b with
  | [] => if after_digit then Some [] else None
  | c :: b' =>
      if is_digit c then option_map (cons c) (int_digits true b')
      else if Ascii.eqb c "_" && after_digit then
        match b' with
        | d :: _ => if is_digit d then int_digits false b' else None
        | [] => None
        end
      else None
  end.

Definition Z_of_digits (ds : bytes) : option Z :=
  match DecimalString.NilEmpty.uint_of_string (string_of_list_ascii ds) with
  | Some d => Some (Z.of_uint d)
  | None => None
  end.

(** [int(b)] in base 10; [None] stands for [ValueError]. *)
Definition py_int (b : bytes) : option Z :=
  let s := strip b in
  let '(neg, body) :=
    match s with
    | c :: r =>
        if Ascii.eqb c "-" then (true, r)
        else if Ascii.eqb c "+" then (false, r)
        else (false, s)
    | [] => (false, s)
    end in
  match int_digits false body with
  | Some ds =>
      match Z_of_digits ds with
      | Some z => Some (if neg then (- z)%Z else z)
      | None => None
      end
  | None => None
  end.

(** ** Python text

    A [str] is held as its UTF-8 encoding.  [utf8_valid] is the check that
    [bytes.decode("utf-8")] performs (strict mode: no overlong forms, no
    surrogates, nothing above U+10FFFF). *)

Definition in_range (lo hi : N) (c : ascii) : bool :=
  let n := code c in ((lo <=? n) && (n <=? hi))%N.

(** Where the decoder stands inside a character: at a boundary ([U0]),
    before the last one, two or three continuation bytes ([U1], [U2],
    [U3]), or just after a lead byte that restricts the next byte (E0: no
    overlong form; ED: no surrogate; F0: no overlong form; F4: nothing
    above U+10FFFF). *)
Inductive utf8_state : Type := U0 | U1 | U2 | U3 | UE0 | UED | UF0 | UF4.

Definition utf8_step (st : utf8_state) (c : ascii) : option utf8_state :=
  match st with
  | U0 =>
      if in_range 0 127 c then Some U0
      else if in_range 194 223 c then Some U1
      else if in_range 224 224 c then Some UE0
      else if in_range 237 237 c then Some UED
      else if in_range 225 239 c then Some U2
      else if in_range 240 240 c then Some UF0
      else if in_range 241 243 c then Some U3
      else if in_range 244 244 c then Some UF4
      else None
  | U1 => if in_range 128 191 c then Some U0 else None
  | U2 => if in_range 128 191 c then Some U1 else None
  | U3 => if in_range 128 191 c then Some U2 else None
  | UE0 => if in_range 160 191 c then Some U1 else None
  | UED => if in_range 128 159 c then Some U1 else None
  | UF0 => if in_range 144 191 c then Some U2 else None
  | UF4 => if in_range 128 143 c then Some U2 else None
  end.

Fixpoint utf8_run (st : utf8_state) (b : bytes) : option utf8_state :=
  match b with
  | [] => Some st
  | c :: r =>
      match utf8_step st c with
      | Some st' => utf8_run st' r
      | None => None
      end
  end.

Definition utf8_valid (b : bytes) : bool :=
  match utf8_run U0 b with
  | Some U0 => true
  | _ => false
  end.

(** [chr(cp).encode("utf-8")] for a code point that is not a surrogate. *)
Definition utf8_encode (cp : N) : bytes :=
  if (cp <? 128)%N then [ascii_of_N cp]
  else if (cp <? 2048)%N then
    [ascii_of_N (192 + cp / 64); ascii_of_N (128 + cp mod 64)]
  else if (cp <? 65536)%N then
    [ascii_of_N (224 + cp / 4096); ascii_of_N (128 + (cp / 64) mod 64);
     ascii_of_N (128 + cp mod 64)]
  else
    [ascii_of_N (240 + cp / 262144); ascii_of_N (128 + (cp / 4096) mod 64);
     ascii_of_N (128 + (cp / 64) mod 64); ascii_of_N (128 + cp mod 64)].

Definition hex_digit (n : N) : ascii :=
  if (n <? 10)%N then ascii_of_N (48 + n) else ascii_of_N (87 + n).

(** ['{0:04x}'.format(n)] for [n < 65536]. *)
Definition hex4 (n : N) : bytes :=
  [hex_digit (n / 4096); hex_digit ((n / 256) mod 16);
   hex_digit ((n / 16) mod 16); hex_digit (n mod 16)].

Definition hex_val (c : ascii) : option N :=
  let n := code c in
  if ((48 <=? n) && (n <=? 57))%N then Some (n - 48)%N
  else if ((97 <=? n) && (n <=? 102))%N then Some (n - 87)%N
  else if ((65 <=? n) && (n <=? 70))%N then Some (n - 55)%N
  else None.

Definition hex4_val (a b c d : ascii) : option N :=
  match hex_val a, hex_val b, hex_val c, hex_val d with
  | Some x, Some y, Some z, Some w => Some (((x * 16 + y) * 16 + z) * 16 + w)%N
  | _, _, _, _ => None
  end.

Fixpoint prepend (l : bytes) (s : string) : string :=
  match l with
  | [] => s
  | c :: l' => String c (prepend l' s)
  end.

(** Whitespace in the sense of [str.isspace], on the UTF-8 encoding; the
    number of bytes of the whitespace character at the head, 0 if none. *)
Definition str_space_prefix (b : bytes) : nat :=
  match b with
  | [] => 0
  | c :: r =>
      let n := code c in
      if ((n =? 32) || ((9 <=? n) && (n <=? 13)) || ((28 <=? n) && (n <=? 31)))%N
      then 1
      else if (n =? 194)%N then
        match r with
        | c2 :: _ => if ((code c2 =? 133) || (code c2 =? 160))%N then 2 else 0
        | [] => 0
        end
      else if (n =? 225)%N then
        match r with
        | c2 :: c3 :: _ =>
            if ((code c2 =? 154) && (code c3 =? 128))%N then 3 else 0
        | _ => 0
        end
      else if (n =? 226)%N then
        match r with
        | c2 :: c3 :: _ =>
            if ((code c2 =? 128) &&
                (((128 <=? code c3) && (code c3 <=? 138)) || (code c3 =? 168)
                 || (code c3 =? 169) || (code c3 =? 175)))%N then 3
            else if ((code c2 =? 129) && (code c3 =? 159))%N then 3
            else 0
        | _ => 0
        end
      else if (n =? 227)%N then
        match r with
        | c2 :: c3 :: _ =>
            if ((code c2 =? 128) && (code c3 =? 128))%N then 3 else 0
        | _ => 0
        end
      else 0
  end.

Fixpoint str_lstrip_fuel (fuel : nat) (b : bytes) : bytes :=
  match fuel with
  | 0 => b
  | S fuel' =>
      match str_space_prefix b with
      | 0 => b
      | k => str_lstrip_fuel fuel' (skipn k b)
      end
  end.

(** [s.lstrip()] on text. *)
Definition str_lstrip (b : bytes) : bytes := str_lstrip_fuel (List.length b) b.

(** The same test read from the end of the text: the whitespace characters
    are those above with their bytes in reverse order. *)
Definition str_space_suffix (rb : bytes) : nat :=
  match rb with
  | [] => 0
  | c :: r =>
      let n := code c in
      if ((n =? 32) || ((9 <=? n) && (n <=? 13)) || ((28 <=? n) && (n <=? 31)))%N
      then 1
      else
        match r with
        | c2 :: r2 =>
            if ((code c2 =? 194) && ((n =? 133) || (n =? 160)))%N then 2
            else
              match r2 with
              | c3 :: _ => if Nat.eqb (str_space_prefix [c3; c2; c]) 3 then 3 else 0
              | [] => 0
              end
        | [] => 0
        end
  end.

Fixpoint str_rstrip_fuel (fuel : nat) (rb : bytes) : bytes :=
  match fuel with
  | 0 => rb
  | S fuel' =>
      match str_space_suffix rb with
      | 0 => rb
      | k => str_rstrip_fuel fuel' (skipn k rb)
      end
  end.

(** [s.strip()] on text. *)
Definition str_strip (b : bytes) : bytes :=
  let l := str_lstrip b in
  rev (str_rstrip_fuel (List.length l) (rev l)).

(** ** JSON values

    The values [json.loads] returns and [json.dumps] accepts: [None], [bool],
    [int], [str], [list] and [dict] with [str] keys.  A [dict] keeps its
    insertion order, so it is an association list; a well-formed one has no
    repeated key. *)

#[local] Unset Elimination Schemes.
Inductive json : Type :=
| JNull
| JBool (b : bool)
| JInt (z : Z)
| JStr (s : string)
| JArr (items : list json)
| JObj (members : list (string * json)).
#[local] Set Elimination Schemes.

(** Structural induction that reaches the values nested in lists and dicts. *)
Definition json_ind (P : json -> Prop)
  (Hnull : P JNull) (Hbool : forall b, P (JBool b)) (Hint : forall z, P (JInt z))
  (Hstr : forall s, P (JStr s))
  (Harr : forall items, Forall P items -> P (JArr items))
  (Hobj : forall members, Forall (fun kv => P (snd kv)) members -> P (JObj members))
  : forall v, P v :=
  fix go (v : json) : P v :=
    match v with
    | JNull => Hnull
    | JBool b => Hbool b
    | JInt z => Hint z
    | JStr s => Hstr s
    | JArr items =>
        Harr items
          ((fix all (l : list json) : Forall P l :=
              match l with
              | [] => Forall_nil P
              | x :: l' => Forall_cons x (go x) (all l')
              end) items)
    | JObj members =>
        Hobj members
          ((fix all (l : list (string * json)) : Forall (fun kv => P (snd kv)) l :=
              match l with
              | [] => Forall_nil _
              | x :: l' => Forall_cons x (go (snd x)) (all l')
              end) members)
    end.

(** [d.get(k)]: [None] when the key is absent. *)
Fixpoint dict_get (k : string) (d : list (string * json)) : option json :=
  match d with
  | [] => None
  | (k', v) :: d' => if String.eqb k k' then Some v else dict_get k d'
  end.

(** [d[k] = v]: a present key keeps its position. *)
Fixpoint dict_set (k : string) (v : json) (d : list (string * json))
  : list (string * json) :=
  match d with
  | [] => [(k, v)]
  | (k', v') :: d' =>
      if String.eqb k k' then (k', v) :: d' else (k', v') :: dict_set k v d'
  end.

(** [dict(pairs)] *)
Definition dict_of_pairs (pairs : list (string * json)) : list (string * json) :=
  fold_left (fun d kv => dict_set (fst kv) (snd kv) d) pairs [].

Fixpoint mem_string (k : string) (l : list string) : bool :=
  match l with
  | [] => false
  | k' :: l' => String.eqb k k' || mem_string k l'
  end.

Fixpoint nodup_strings (l : list string) : bool :=
  match l with
  | [] => true
  | k :: l' => negb (mem_string k l') && nodup_strings l'
  end.

Definition valid_str (s : string) : bool := utf8_valid (list_ascii_of_string s).

(** Values that exist in Python: every string is valid text and no dict
    repeats a key. *)
Fixpoint wf_json (v : json) : bool :=
  match v with
  | JNull | JBool _ | JInt _ => true
  | JStr s => valid_str s
  | JArr items => forallb wf_json items
  | JObj members =>
      nodup_strings (map fst members)
      && forallb (fun kv => valid_str (fst kv) && wf_json (snd kv)) members
  end.

(** Truth value of a JSON value in a Python condition ([x or {}]). *)
Definition truthy (v : json) : bool :=
  match v with
  | JNull => false
  | JBool b => b
  | JInt z => negb (Z.eqb z 0)
  | JStr s => negb (String.eqb s EmptyString)
  | JArr items => match items with [] => false | _ => true end
  | JObj members => match members with [] => false | _ => true end
  end.

(** ** [json.dumps] *)

Fixpoint join (sep : bytes) (parts : list bytes) : bytes :=
  match parts with
  | [] => []
  | [p] => p
  | p :: rest => p ++ sep ++ join sep rest
  end.

(** The replacement of one character below U+0080 inside a JSON string. *)
Definition escape_char (c : ascii) : bytes :=
  if Ascii.eqb c DQUOTE then [BACKSLASH; DQUOTE]
  else if Ascii.eqb c BACKSLASH then [BACKSLASH; BACKSLASH]
  else if Ascii.eqb c LF then [BACKSLASH; "n"]
  else if Ascii.eqb c CR then [BACKSLASH; "r"]
  else if Ascii.eqb c TAB then [BACKSLASH; "t"]
  else if Ascii.eqb c BS then [BACKSLASH; "b"]
  else if Ascii.eqb c FF then [BACKSLASH; "f"]
  else if (code c <? 32)%N then BACKSLASH :: "u" :: hex4 (code c)
  else [c].

(** [ensure_ascii=False]: characters from U+0080 on are written as they are. *)
Fixpoint escape_body (s : string) : bytes :=
  match s with
  | EmptyString => []
  | String c s' => escape_char c ++ escape_body s'
  end.

Definition u_escape (cp : N) : bytes :=
  if (cp <? 65536)%N then BACKSLASH :: "u" :: hex4 cp
  else
    let v := (cp - 65536)%N in
    (BACKSLASH :: "u" :: hex4 (55296 + v / 1024))
    ++ (BACKSLASH :: "u" :: hex4 (56320 + v mod 1024)).

(** [ensure_ascii=True]: characters from U+0080 on become [\uXXXX]
    escapes, a surrogate pair above U+FFFF. *)
Fixpoint escape_body_ascii (b : bytes) : bytes :=
  match b with
  | [] => []
  | c :: r =>
      if (code c <? 128)%N then escape_char c ++ escape_body_ascii r
      else if (code c <? 224)%N then
        match r with
        | c2 :: r2 =>
            u_escape ((code c - 192) * 64 + (code c2 - 128)) ++ escape_body_ascii r2
        | _ => []
        end
      else if (code c <? 240)%N then
        match r with
        | c2 :: c3 :: r3 =>
            u_escape ((code c - 224) * 4096 + (code c2 - 128) * 64 + (code c3 - 128))
            ++ escape_body_ascii r3
        | _ => []
        end
      else
        match r with
        | c2 :: c3 :: c4 :: r4 =>
            u_escape ((code c - 240) * 262144 + (code c2 - 128) * 4096
                      + (code c3 - 128) * 64 + (code c4 - 128))
            ++ escape_body_ascii r4
        | _ => []
        end
  end.

Section Dumps.
Variable ensure_ascii : bool.
Variables item_separator key_separator : bytes.

Definition encode_string (s : string) : bytes :=
  DQUOTE ::
    (if ensure_ascii then escape_body_ascii (list_ascii_of_string s)
     else escape_body s)
    ++ [DQUOTE].

Fixpoint dumps_with (v : json) : bytes :=
  match v with
  | JNull => B "null"
  | JBool true => B "true"
  | JBool false => B "false"
  | JInt z => str_int z
  | JStr s => encode_string s
  | JArr items => "[" :: join item_separator (map dumps_with items) ++ ["]"]
  | JObj members =>
      "{" :: join item_separator
               (map (fun kv => encode_string (fst kv) ++ key_separator
                                 ++ dumps_with (snd kv)) members)
          ++ ["}"]
  end.
End Dumps.

(** [json.dumps(v, ensure_ascii=False, separators=(",", ":")).encode("utf-8")] *)
Definition dumps (v : json) : bytes := dumps_with false [","] [":"] v.

(** [json.dumps(v)] with the defaults, as text. *)
Definition dumps_default (v : json) : string :=
  string_of_list_ascii (dumps_with true [","; " "] [":"; " "] v).

(** ** [str()] and [repr()] of JSON values, as f-strings format them *)

Definition hex2 (n : N) : bytes := [hex_digit (n / 16); hex_digit (n mod 16)].

Definition repr_char (quote : ascii) (c : ascii) : bytes :=
  if Ascii.eqb c BACKSLASH then [BACKSLASH; BACKSLASH]
  else if Ascii.eqb c quote then [BACKSLASH; quote]
  else if Ascii.eqb c TAB then [BACKSLASH; "t"]
  else if Ascii.eqb c LF then [BACKSLASH; "n"]
  else if Ascii.eqb c CR then [BACKSLASH; "r"]
  else if ((code c <? 32) || (code c =? 127))%N then BACKSLASH :: "x" :: hex2 (code c)
  else [c].

(** [repr(s)]: single quotes unless the text has a single quote and no
    double quote.  Characters from U+0080 on are taken to be printable. *)
Definition repr_str (s : string) : bytes :=
  let b := list_ascii_of_string s in
  let quote :=
    if existsb (Ascii.eqb SQUOTE) b && negb (existsb (Ascii.eqb DQUOTE) b)
    then DQUOTE else SQUOTE in
  quote :: flat_map (repr_char quote) b ++ [quote].

Fixpoint repr (v : json) : bytes :=
  match v with
  | JNull => B "None"
  | JBool true => B "True"
  | JBool false => B "False"
  | JInt z => str_int z
  | JStr s => repr_str s
  | JArr items => "[" :: join (B ", ") (map repr items) ++ ["]"]
  | JObj members =>
      "{" :: join (B ", ")
               (map (fun kv => repr_str (fst kv) ++ B ": " ++ repr (snd kv)) members)
          ++ ["}"]
  end.

(** [str(v)], the text an f-string substitutes for [{v}]. *)
Definition py_str (v : json) : string :=
  match v with
  | JStr s => s
  | _ => string_of_list_ascii (repr v)
  end.

(** The type name Python prints in an [AttributeError]. *)
Definition type_name (v : json) : string :=
  match v with
  | JNull => "NoneType"
  | JBool _ => "bool"
  | JInt _ => "int"
  | JStr _ => "str"
  | JArr _ => "list"
  | JObj _ => "dict"
  end.

(** ** [json.loads]

    The decoder as CPython's [json.decoder] and [json.scanner] run it, on
    the UTF-8 encoding of the text.  [None] stands for [JSONDecodeError].
    Number literals with a fraction or an exponent, [NaN] and [Infinity]
    (floats) and [\u] escapes of unpaired surrogates are rejected here. *)

Definition is_json_ws (c : ascii) : bool :=
  Ascii.eqb c " " || Ascii.eqb c TAB || Ascii.eqb c LF || Ascii.eqb c CR.

Definition skip_ws (s : bytes) : bytes := lstrip_by is_json_ws s.

Definition unescape (e : ascii) : option ascii :=
  if Ascii.eqb e DQUOTE then Some DQUOTE
  else if Ascii.eqb e BACKSLASH then Some BACKSLASH
  else if Ascii.eqb e "/" then Some "/"
  else if Ascii.eqb e "b" then Some BS
  else if Ascii.eqb e "f" then Some FF
  else if Ascii.eqb e "n" then Some LF
  else if Ascii.eqb e "r" then Some CR
  else if Ascii.eqb e "t" then Some TAB
  else None.

Definition map_fst {A B C : Type} (f : A -> C) (r : option (A * B)) : option (C * B) :=
  match r with
  | Some (a, b) => Some (f a, b)
  | None => None
  end.

(** [scanstring], entered after the opening quote. *)
Fixpoint parse_string (s : bytes) : option (string * bytes) :=
  match s with
  | [] => None
  | c :: r =>
      if Ascii.eqb c DQUOTE then Some (EmptyString, r)
      else if Ascii.eqb c BACKSLASH then
        match r with
        | [] => None
        | e :: r1 =>
            if Ascii.eqb e "u" then
              match r1 with
              | h1 :: h2 :: h3 :: h4 :: r2 =>
                  match hex4_val h1 h2 h3 h4 with
                  | None => None
                  | Some cp =>
                      if ((55296 <=? cp) && (cp <=? 56319))%N then
                        match r2 with
                        | b1 :: b2 :: g1 :: g2 :: g3 :: g4 :: r3 =>
                            if Ascii.eqb b1 BACKSLASH && Ascii.eqb b2 "u" then
                              match hex4_val g1 g2 g3 g4 with
                              | Some lo =>
                                  if ((56320 <=? lo) && (lo <=? 57343))%N then
                                    map_fst
                                      (prepend
                                         (utf8_encode
                                            (65536 + (cp - 55296) * 1024 + (lo - 56320))))
                                      (parse_string r3)
                                  else None
                              | None => None
                              end
                            else None
                        | _ => None
                        end
                      else if ((56320 <=? cp) && (cp <=? 57343))%N then None
                      else map_fst (prepend (utf8_encode cp)) (parse_string r2)
                  end
              | _ => None
              end
            else
              match unescape e with
              | Some c' => map_fst (String c') (parse_string r1)
              | None => None
              end
        end
      else if (code c <? 32)%N then None
      else map_fst (String c) (parse_string r)
  end.

Fixpoint span_digits (s : bytes) : bytes * bytes :=
  match s with
  | c :: r =>
      if is_digit c then let '(ds, rest) := span_digits r in (c :: ds, rest)
      else ([], s)
  | [] => ([], [])
  end.

(** Whether the text after the integer part continues the literal as a
    float: [.] and a digit, or [e]/[E], an optional sign and a digit. *)
Definition float_follows (rest : bytes) : bool :=
  match rest with
  | c :: r =>
      if Ascii.eqb c "." then
        match r with d :: _ => is_digit d | [] => false end
      else if Ascii.eqb c "e" || Ascii.eqb c "E" then
        match r with
        | d :: r' =>
            if Ascii.eqb d "+" || Ascii.eqb d "-" then
              match r' with d' :: _ => is_digit d' | [] => false end
            else is_digit d
        | [] => false
        end
      else false
  | [] => false
  end.

Definition finish_number (neg : bool) (ds rest : bytes) : option (json * bytes) :=
  if float_follows rest then None
  else
    match Z_of_digits ds with
    | Some z => Some (JInt (if neg then (- z)%Z else z), rest)
    | None => None
    end.

(** The integer part of a number: an optional minus sign, then either a
    single 0 or a nonzero digit followed by any digits. *)
Definition parse_number (s : bytes) : option (json * bytes) :=
  let '(neg, r) :=
    match s with
    | c :: r => if Ascii.eqb c "-" then (true, r) else (false, s)
    | [] => (false, s)
    end in
  match r with
  | c :: r' =>
      if Ascii.eqb c "0" then finish_number neg [c] r'
      else if is_digit c then
        let '(ds, rest) := span_digits r in finish_number neg ds rest
      else None
  | [] => None
  end.

(** [scan_once] with [JSONArray] and [JSONObject]; [fuel] bounds the
    nesting and the number of items, and [S (length text)] is enough for
    any text (see [loads]). *)
Fixpoint parse_value (fuel : nat) (s : bytes) {struct fuel} : option (json * bytes) :=
  match fuel with
  | 0 => None
  | S fuel' =>
      match s with
      | [] => None
      | c :: r =>
          if Ascii.eqb c DQUOTE then map_fst JStr (parse_string r)
          else if Ascii.eqb c "{" then
            if startswith ["}"] (skip_ws r) then Some (JObj [], skipn 1 (skip_ws r))
            else map_fst (fun pairs => JObj (dict_of_pairs pairs))
                   (parse_members fuel' (skip_ws r))
          else if Ascii.eqb c "[" then
            if startswith ["]"] (skip_ws r) then Some (JArr [], skipn 1 (skip_ws r))
            else map_fst JArr (parse_elems fuel' (skip_ws r))
          else if startswith (B "null") s then Some (JNull, skipn 4 s)
          else if startswith (B "true") s then Some (JBool true, skipn 4 s)
          else if startswith (B "false") s then Some (JBool false, skipn 5 s)
          else parse_number s
      end
  end
with parse_elems (fuel : nat) (s : bytes) {struct fuel} : option (list json * bytes) :=
  match fuel with
  | 0 => None
  | S fuel' =>
      match parse_value fuel' s with
      | None => None
      | Some (v, r) =>
          match skip_ws r with
          | d :: r' =>
              if Ascii.eqb d "]" then Some ([v], r')
              else if Ascii.eqb d "," then
                map_fst (cons v) (parse_elems fuel' (skip_ws r'))
              else None
          | [] => None
          end
      end
  end
with parse_members (fuel : nat) (s : bytes) {struct fuel}
  : option (list (string * json) * bytes) :=
  match fuel with
  | 0 => None
  | S fuel' =>
      match s with
      | c :: r =>
          if Ascii.eqb c DQUOTE then
            match parse_string r with
            | None => None
            | Some (k, r1) =>
                match skip_ws r1 with
                | d :: r2 =>
                    if Ascii.eqb d ":" then
                      match parse_value fuel' (skip_ws r2) with
                      | None => None
                      | Some (v, r3) =>
                          match skip_ws r3 with
                          | d' :: r' =>
                              if Ascii.eqb d' "}" then Some ([(k, v)], r')
                              else if Ascii.eqb d' "," then
                                map_fst (cons (k, v))
                                  (parse_members fuel' (skip_ws r'))
                              else None
                          | [] => None
                          end
                      end
                    else None
                | [] => None
                end
            end
          else None
      | [] => None
      end
  end.

(** [json.loads(text)] *)
Definition loads (text : bytes) : option json :=
  match parse_value (S (List.length text)) (skip_ws text) with
  | Some (v, rest) =>
      match skip_ws rest with
      | [] => Some v
      | _ => None
      end
  | None => None
  end.

(** [b.decode("utf-8")]; [None] stands for [UnicodeDecodeError]. *)
Definition decode_utf8 (b : bytes) : option bytes :=
  if utf8_valid b then Some b else None.

(** Byte strings written with ['] where the JSON text has a double quote. *)
Definition Q (s : string) : bytes :=
  map (fun c => if Ascii.eqb c SQUOTE then DQUOTE else c) (B s).

(** ** The two framings *)

Inductive framing : Type := ndjson | lsp.

Definition framing_eqb (f g : framing) : bool :=
  match f, g with
  | ndjson, ndjson | lsp, lsp => true
  | _, _ => false
  end.

(** Header dictionaries: byte-string keys, the last assignment wins. *)
Fixpoint header_get (k : bytes) (h : list (bytes * bytes)) : option bytes :=
  match h with
  | [] => None
  | (k', v) :: h' => if bytes_eqb k k' then Some v else header_get k h'
  end.

Fixpoint header_set (k v : bytes) (h : list (bytes * bytes)) : list (bytes * bytes) :=
  match h with
  | [] => [(k, v)]
  | (k', v') :: h' =>
      if bytes_eqb k k' then (k', v) :: h' else (k', v') :: header_set k v h'
  end.

(** [sys.stdin.buffer.readline()]: the bytes up to and including the first
    LF, or all that is left; the second component is what remains. *)
Definition readline (inp : bytes) : bytes * bytes :=
  match find [LF] inp with
  | Some i => (firstn (S i) inp, skipn (S i) inp)
  | None => (inp, [])
  end.

(** [sys.stdin.buffer.read(n)] *)
Definition read (n : nat) (inp : bytes) : bytes * bytes :=
  (firstn n inp, skipn n inp).

(** * upnote_mcp_debugger.py *)
Module Debugger.

(** One [logger.log(cat, msg)] call; the time stamps are left out. *)
Inductive log_msg : Type :=
| LspDetected (length : nat)
| NdjsonDetected (length : nat)
| JsonSummary (method_repr id_repr : bytes)
| JsonNonDict (length : nat)
| JsonParseFailed.

Definition log_record : Type := string * log_msg.

Definition repr_opt (v : option json) : bytes :=
  match v with
  | Some x => repr x
  | None => repr JNull
  end.

Definition summarize_json_bytes (prefix : string) (data : bytes) : list log_record :=
  match decode_utf8 data with
  | None => [(prefix, JsonParseFailed)]
  | Some text =>
      match loads text with
      | None => [(prefix, JsonParseFailed)]
      | Some (JObj obj) =>
          let m := dict_get "method" obj in
          let i := dict_get "id" obj in
          [(prefix, JsonSummary (repr_opt m) (repr_opt i))]
      | Some _ => [(prefix, JsonNonDict (List.length data))]
      end
  end.

Definition try_parse_ndjson (buffer : bytes) : option (bytes * nat) :=
  match find [LF] buffer with
  | None => None
  | Some nl =>
      let line := slice buffer 0 (nl + 1) in
      Some (rstrip_crlf line, nl + 1)
  end.

Fixpoint parse_header_lines (lines : list bytes) (headers : list (bytes * bytes))
  : list (bytes * bytes) :=
  match lines with
  | [] => headers
  | raw_line :: rest =>
      match raw_line with
      | [] => parse_header_lines rest headers
      | _ =>
          match split_once ":" raw_line with
          | Some (k, v) =>
              parse_header_lines rest (header_set (lower (strip k)) (strip v) headers)
          | None => parse_header_lines rest headers
          end
      end
  end.

Definition content_length (header : option bytes) : Z :=
  match py_int (match header with Some v => v | None => B "0" end) with
  | Some n => n
  | None => 0%Z
  end.

Definition try_parse_lsp (buffer : bytes) : option (bytes * nat) :=
  match find CRLFCRLF buffer with
  | None => None
  | Some sep =>
      let headers_blob := slice buffer 0 (sep + 4) in
      let headers := parse_header_lines (split_crlf headers_blob) [] in
      let n := content_length (header_get (B "content-length") headers) in
      if (n <=? 0)%Z then None
      else
        let start := sep + 4 in
        if (List.length buffer <? start + Z.to_nat n)%nat then None
        else
          let body := slice buffer start (start + Z.to_nat n) in
          Some (body, start + Z.to_nat n)
  end.

Definition sniff_and_summarize (prefix : string) (buffer : bytes)
  : list log_record * option nat :=
  let try_ndjson :=
    if bytes_eqb (slice buffer 0 1) ["{"] || bytes_eqb (slice buffer 0 1) ["["] then
      match try_parse_ndjson buffer with
      | Some (line, consumed) =>
          ((prefix, NdjsonDetected (List.length line))
             :: summarize_json_bytes prefix line,
           Some consumed)
      | None => ([], None)
      end
    else ([], None) in
  if startswith (B "Content-Length:") buffer
     || contains CRLFCRLF (slice buffer 0 128) then
    match try_parse_lsp buffer with
    | Some (body, consumed) =>
        ((prefix, LspDetected (List.length body)) :: summarize_json_bytes prefix body,
         Some consumed)
    | None => try_ndjson
    end
  else try_ndjson.

(** The framing under which [sniff_and_summarize] found a message. *)
Definition sniffed_framing (buffer : bytes) : option framing :=
  match fst (sniff_and_summarize "x" buffer) with
  | (_, LspDetected _) :: _ => Some lsp
  | (_, NdjsonDetected _) :: _ => Some ndjson
  | _ => None
  end.

(** The state [pump] works on: what has reached [dst] and the tap file,
    the summarization buffer, and the log. *)
Record pump_state : Type := {
  dst : bytes;
  tap : bytes;
  buf : bytes;
  log : list log_record
}.

(** A count that an [if consumed:] test lets through. *)
Definition if_consumed (consumed : option nat) : option nat :=
  match consumed with
  | Some 0 => None
  | other => other
  end.

(** One round of the [while True] loop for a byte [data] that
    [src.read(1)] returned. *)
Definition pump_step (prefix : string) (data : ascii) (st : pump_state) : pump_state :=
  let dst1 := dst st ++ [data] in
  let tap1 := tap st ++ [data] in
  let buf1 := buf st ++ [data] in
  let '(logs1, consumed) := sniff_and_summarize prefix buf1 in
  match if_consumed consumed with
  | Some n =>
      let buf2 := skipn n buf1 in
      let '(logs2, consumed2) := sniff_and_summarize prefix buf2 in
      match if_consumed consumed2 with
      | Some n2 =>
          {| dst := dst1; tap := tap1; buf := skipn n2 buf2;
             log := log st ++ logs1 ++ logs2 |}
      | None =>
          {| dst := dst1; tap := tap1; buf := buf2; log := log st ++ logs1 ++ logs2 |}
      end
  | None => {| dst := dst1; tap := tap1; buf := buf1; log := log st ++ logs1 |}
  end.

(** The loop: [src] is everything the source delivers before it closes. *)
Fixpoint pump_loop (prefix : string) (src : bytes) (st : pump_state) : pump_state :=
  match src with
  | [] => st
  | data :: src' => pump_loop prefix src' (pump_step prefix data st)
  end.

(** [pump(src, dst, tap_path, prefix)]: the tap file is opened with ["wb"]
    and so starts empty; [dst0] is what [dst] already holds. *)
Definition pump (src dst0 : bytes) (prefix : string) : pump_state :=
  pump_loop prefix src {| dst := dst0; tap := []; buf := []; log := [] |}.

End Debugger.

(** * upnote_mcp_server.py *)
Module Server.

(** What a Python call does: return a value or raise an exception, of
    which [str(e)] is kept. *)
Inductive outcome (A : Type) : Type :=
| Return (a : A)
| Raise (message : string).
Arguments Return {A} a.
Arguments Raise {A} message.

(** The [log.info] / [log.error] / [log.exception] calls (stderr). *)
Inductive log_event : Type :=
| Starting
| InvalidContentLength
| UnexpectedEOFBody
| FailedParseLsp
| FailedParseNdjson
| ToolsCall (name : string)
| EofInvalidExiting
| ErrorHandlingRequest (message : string).

Section Environment.

(** The external collaborator.  [world] is whatever its calls act on;
    [new_client] is the constructor call, [call_method c name kwargs]
    is the call of the client's method [name] with the keyword
    arguments [kwargs]. *)
Variable world : Type.

Record client_class : Type := {
  new_client : world -> outcome unit * world;
  call_method : string -> list (string * json) -> world -> outcome json * world
}.

(** The outcome of the import at the top of the module. *)
Variable UPNOTE_OK : bool.
Variable UpNoteClient : option client_class.

Record state : Type := {
  stdin : bytes;
  stdout : bytes;
  TRANSPORT_MODE : option framing;
  log : list log_event;
  env : world
}.

Definition set_stdin (st : state) (inp : bytes) : state :=
  {| stdin := inp; stdout := stdout st; TRANSPORT_MODE := TRANSPORT_MODE st;
     log := log st; env := env st |}.

Definition write_stdout (st : state) (out : bytes) : state :=
  {| stdin := stdin st; stdout := stdout st ++ out;
     TRANSPORT_MODE := TRANSPORT_MODE st; log := log st; env := env st |}.

Definition set_mode (st : state) (m : option framing) : state :=
  {| stdin := stdin st; stdout := stdout st; TRANSPORT_MODE := m;
     log := log st; env := env st |}.

Definition add_log (st : state) (e : log_event) : state :=
  {| stdin := stdin st; stdout := stdout st; TRANSPORT_MODE := TRANSPORT_MODE st;
     log := log st ++ [e]; env := env st |}.

Definition set_env (st : state) (w : world) : state :=
  {| stdin := stdin st; stdout := stdout st; TRANSPORT_MODE := TRANSPORT_MODE st;
     log := log st; env := w |}.

(** ** Transport: dual framing *)

Definition lsp_frame (payload : json) : bytes :=
  let body := dumps payload in
  let header := B "Content-Length: " ++ str_nat (List.length body) ++ CRLFCRLF in
  header ++ body.

Definition ndjson_frame (payload : json) : bytes := dumps payload ++ [LF].

Definition _write_lsp (payload : json) (st : state) : state :=
  write_stdout st (lsp_frame payload).

Definition _write_ndjson (payload : json) (st : state) : state :=
  write_stdout st (ndjson_frame payload).

Definition write_message (payload : json) (st : state) : state :=
  match TRANSPORT_MODE st with
  | Some lsp => _write_lsp payload st
  | _ => _write_ndjson payload st
  end.

Definition result_reply (id_value result : json) : json :=
  JObj [("jsonrpc", JStr "2.0"); ("id", id_value); ("result", result)]%string.

Definition error_reply (id_value : json) (code : Z) (message : string) : json :=
  JObj [("jsonrpc", JStr "2.0"); ("id", id_value);
        ("error", JObj [("code", JInt code); ("message", JStr message)])]%string.

Definition write_result (id_value result : json) (st : state) : state :=
  write_message (result_reply id_value result) st.

Definition write_error (id_value : json) (code : Z) (message : string) (st : state)
  : state :=
  write_message (error_reply id_value code message) st.

Definition is_ascii (b : bytes) : bool := forallb (fun c => (code c <? 128)%N) b.

(** The nested [add_header] of [_read_lsp_from]: a line that is not
    ASCII or has no colon is skipped. *)
Definition add_header (line : bytes) (headers : list (bytes * bytes))
  : list (bytes * bytes) :=
  if is_ascii line then
    match split_once ":" line with
    | Some (k, v) => header_set (lower (str_strip k)) (str_strip v) headers
    | None => headers
    end
  else headers.

Definition is_blank_line (line : bytes) : bool :=
  bytes_eqb line CRLF || bytes_eqb line [LF].

(** The [while True] loop that reads header lines up to the blank line;
    [None] when the input ends first.  Every round takes at least one
    byte, so [S (length inp)] rounds are always enough. *)
Fixpoint read_header_lines (fuel : nat) (headers : list (bytes * bytes)) (inp : bytes)
  : option (list (bytes * bytes) * bytes) :=
  match fuel with
  | 0 => None
  | S fuel' =>
      let '(line, rest) := readline inp in
      match line with
      | [] => None
      | _ =>
          if is_blank_line line then Some (headers, rest)
          else read_header_lines fuel' (add_header line headers) rest
      end
  end.

Definition _read_lsp_from (first_line : bytes) (st : state) : option json * state :=
  let headers :=
    if negb (is_blank_line first_line) then add_header first_line [] else [] in
  match read_header_lines (S (List.length (stdin st))) headers (stdin st) with
  | None => (None, set_stdin st [])
  | Some (headers, rest) =>
      let st := set_stdin st rest in
      let n :=
        match py_int (match header_get (B "content-length") headers with
                      | Some v => v
                      | None => B "0"
                      end) with
        | Some n => n
        | None => 0%Z
        end in
      if (n <=? 0)%Z then (None, add_log st InvalidContentLength)
      else
        let '(body, rest) := read (Z.to_nat n) (stdin st) in
        let st := set_stdin st rest in
        if negb (List.length body =? Z.to_nat n)%nat
        then (None, add_log st UnexpectedEOFBody)
        else
          match decode_utf8 body with
          | None => (None, add_log st FailedParseLsp)
          | Some text =>
              match loads text with
              | Some v => (Some v, st)
              | None => (None, add_log st FailedParseLsp)
              end
          end
  end.

Definition _read_ndjson_from (first_line : bytes) (st : state) : option json * state :=
  match decode_utf8 first_line with
  | None => (None, add_log st FailedParseNdjson)
  | Some text =>
      match loads (str_strip text) with
      | Some v => (Some v, st)
      | None => (None, add_log st FailedParseNdjson)
      end
  end.

(** [x or y] on the cached mode. *)
Definition mode_or (m : option framing) (f : framing) : option framing :=
  match m with
  | Some g => Some g
  | None => Some f
  end.

(** The decode rule [read_message] picks for a line. *)
Definition line_framing (first_line : bytes) : framing :=
  let stripped := lstrip first_line in
  if startswith ["{"] stripped || startswith ["["] stripped then ndjson else lsp.

(** A JSON [null] comes back as Python's [None], which the caller cannot
    tell from the [None] of a failed read. *)
Definition read_message (st : state) : option json * state :=
  let '(first_line, rest) := readline (stdin st) in
  let st := set_stdin st rest in
  match first_line with
  | [] => (None, st)
  | _ =>
      match line_framing first_line with
      | ndjson =>
          _read_ndjson_from first_line (set_mode st (mode_or (TRANSPORT_MODE st) ndjson))
      | lsp =>
          _read_lsp_from first_line (set_mode st (mode_or (TRANSPORT_MODE st) lsp))
      end
  end.

(** ** MCP core handlers *)

Definition SERVER_INFO : list (string * json) :=
  [("name", JStr "upnote-mcp"); ("version", JStr "1.0.0");
   ("description", JStr "MCP server for UpNote integration (stdio)")]%string.

Definition no_attribute_get (v : json) : string :=
  ("'" ++ type_name v ++ "' object has no attribute 'get'")%string.

(** [d.get(k, default)] on a value that need not be a dict. *)
Definition py_get (v : json) (k : string) (default : json) : outcome json :=
  match v with
  | JObj d =>
      match dict_get k d with
      | Some x => Return x
      | None => Return default
      end
  | _ => Raise (no_attribute_get v)
  end.

Definition str_startswith (p s : string) : bool :=
  startswith (list_ascii_of_string p) (list_ascii_of_string s).

Definition item (d : list (string * json)) (k : string) : json :=
  match dict_get k d with
  | Some v => v
  | None => JNull
  end.

Definition capabilities : json :=
  JObj [("experimental", JObj []);
        ("prompts", JObj [("listChanged", JBool false)]);
        ("resources", JObj [("subscribe", JBool false); ("listChanged", JBool false)]);
        ("tools", JObj [("listChanged", JBool false)])]%string.

Definition serverInfo : json :=
  JObj [("name", item SERVER_INFO "name");
        ("version", item SERVER_INFO "version")]%string.

Definition resp_initialize (params : json) : outcome json :=
  match py_get params "protocolVersion" (JStr "1.0.0") with
  | Raise e => Raise e
  | Return client_protocol =>
      let protocol_version :=
        match client_protocol with
        | JStr s => if str_startswith "202" s then client_protocol else JStr "1.0.0"
        | _ => JStr "1.0.0"
        end in
      Return (JObj [("protocolVersion", protocol_version);
                    ("capabilities", capabilities);
                    ("serverInfo", serverInfo)]%string)
  end.

Definition typed (t : string) : json := JObj [("type", JStr t)]%string.

Definition array_of (t : string) : json :=
  JObj [("type", JStr "array"); ("items", typed t)]%string.

Definition enum_of (t : string) (values : list string) : json :=
  JObj [("type", JStr t); ("enum", JArr (map JStr values))]%string.

Definition tool (name description : string) (properties : list (string * json))
  (required : option (list string)) : json :=
  JObj [("name", JStr name); ("description", JStr description);
        ("inputSchema",
         JObj ([("type", JStr "object"); ("properties", JObj properties)]
               ++ match required with
                  | Some r => [("required", JArr (map JStr r))]
                  | None => []
                  end))]%string.

Definition list_tools : json :=
  let tools :=
    [tool "create_note" "Create a new note in UpNote"
       [("title", typed "string"); ("text", typed "string");
        ("notebook", typed "string"); ("tags", array_of "string");
        ("pinned", typed "boolean"); ("favorite", typed "boolean")]
       (Some ["title"; "text"]);
     tool "create_markdown_note" "Create a markdown formatted note in UpNote"
       [("title", typed "string"); ("content", typed "string");
        ("notebook", typed "string"); ("tags", array_of "string");
        ("add_timestamp", typed "boolean")]
       (Some ["title"; "content"]);
     tool "create_task_note" "Create a task list note in UpNote"
       [("title", typed "string"); ("tasks", array_of "string");
        ("notebook", typed "string"); ("due_date", typed "string");
        ("priority", enum_of "string" ["low"; "medium"; "high"])]
       (Some ["title"; "tasks"]);
     tool "create_meeting_note" "Create a meeting note in UpNote"
       [("title", typed "string"); ("date", typed "string");
        ("attendees", array_of "string"); ("agenda", typed "string");
        ("notebook", typed "string"); ("location", typed "string")]
       (Some ["title"; "date"]);
     tool "create_project_note" "Create a project note in UpNote"
       [("project_name", typed "string"); ("description", typed "string");
        ("milestones", array_of "string"); ("team_members", array_of "string");
        ("due_date", typed "string");
        ("priority", enum_of "string" ["low"; "medium"; "high"])]
       (Some ["project_name"; "description"]);
     tool "search_notes" "Search for notes in UpNote"
       [("query", typed "string"); ("notebook", typed "string");
        ("tags", array_of "string"); ("limit", typed "integer")]
       (Some ["query"]);
     tool "open_note" "Open a specific note in UpNote"
       [("note_id", typed "string"); ("title", typed "string");
        ("edit", typed "boolean")]
       None;
     tool "create_notebook" "Create a new notebook in UpNote"
       [("title", typed "string"); ("color", typed "string");
        ("parent", typed "string")]
       (Some ["title"]);
     tool "open_notebook" "Open a notebook in UpNote"
       [("name", typed "string"); ("notebook_id", typed "string")]
       None;
     tool "open_upnote" "Open the UpNote application" [] None;
     tool "import_note" "Import a note into UpNote"
       [("path", typed "string"); ("notebook", typed "string");
        ("tags", array_of "string")]
       (Some ["path"]);
     tool "export_note" "Export a note from UpNote"
       [("note_id", typed "string");
        ("format", enum_of "string" ["md"; "html"; "pdf"]);
        ("dest_path", typed "string")]
       (Some ["note_id"; "format"; "dest_path"])]%string in
  JObj [("tools", JArr tools)]%string.

(** The names the [if]/[elif] chain of [call_tool] compares with; each
    branch calls the client method of the same name. *)
Definition dispatched_tools : list string :=
  ["create_note"; "create_markdown_note"; "create_task_note";
   "create_meeting_note"; "create_project_note"; "create_daily_note";
   "search_notes"; "open_note"; "create_notebook"; "open_notebook";
   "open_upnote"; "import_note"; "export_note"]%string.

Definition text_content (payload : json) (is_error : bool) : json :=
  JObj [("content",
         JArr [JObj [("type", JStr "text"); ("text", JStr (dumps_default payload))]]);
        ("isError", JBool is_error)]%string.

Definition tool_failure (message : string) : json :=
  text_content (JObj [("success", JBool false); ("error", JStr message)]%string) true.

Definition tool_success (res : json) : json :=
  text_content (JObj [("success", JBool true); ("result", res)]%string) false.

(** [str(e)] of the [TypeError] raised when a non-dict is unpacked as keyword arguments. *)
Definition not_a_mapping (name : string) (args : json) : string :=
  ("UpNoteClient." ++ name ++ "() argument after ** must be a mapping, not "
     ++ type_name args)%string.

Definition call_tool (params : json) (st : state) : outcome json * state :=
  match py_get params "name" JNull with
  | Raise e => (Raise e, st)
  | Return name =>
      match py_get params "arguments" (JObj []) with
      | Raise e => (Raise e, st)
      | Return a =>
          let args := if truthy a then a else JObj [] in
          let st := add_log st (ToolsCall (py_str name)) in
          match (if UPNOTE_OK then UpNoteClient else None) with
          | None => (Return (tool_failure "UpNote client not available"), st)
          | Some cls =>
              match new_client cls (env st) with
              | (Raise e, w) =>
                  (Return (tool_failure ("Failed to init client: " ++ e)), set_env st w)
              | (Return _, w) =>
                  let st := set_env st w in
                  match name with
                  | JStr n =>
                      if mem_string n dispatched_tools then
                        match args with
                        | JObj kwargs =>
                            match call_method cls n kwargs (env st) with
                            | (Return res, w') =>
                                (Return (tool_success res), set_env st w')
                            | (Raise e, w') =>
                                (Return (tool_failure e), set_env st w')
                            end
                        | _ => (Return (tool_failure (not_a_mapping n args)), st)
                        end
                      else (Return (tool_failure ("Unknown tool: " ++ n)), st)
                  | _ => (Return (tool_failure ("Unknown tool: " ++ py_str name)), st)
                  end
              end
          end
      end
  end.

(** ** Main loop *)

Definition METHOD_NOT_FOUND : Z := (-32601)%Z.
Definition INTERNAL_ERROR : Z := (-32603)%Z.

Definition method_is (method : option json) (name : string) : bool :=
  match method with
  | Some (JStr m) => String.eqb m name
  | _ => false
  end.

Definition str_opt (v : option json) : string :=
  match v with
  | Some x => py_str x
  | None => py_str JNull
  end.

(** [req.get("params", {}) or {}] *)
Definition params_of (req : list (string * json)) : json :=
  match dict_get "params" req with
  | Some p => if truthy p then p else JObj []
  | None => JObj []
  end.

(** The [except Exception] arm of the loop. *)
Definition on_exception (req_id : json) (e : string) (st : state) : state :=
  write_error req_id INTERNAL_ERROR ("Internal error: " ++ e)
    (add_log st (ErrorHandlingRequest e)).

(** The [try] block for a request with identifier [req_id]; the boolean
    tells whether the loop is left ([break]). *)
Definition handle_request (req : list (string * json)) (req_id : json) (st : state)
  : bool * state :=
  let method := dict_get "method" req in
  if method_is method "initialize" then
    match resp_initialize (params_of req) with
    | Return result => (false, write_result req_id result st)
    | Raise e => (false, on_exception req_id e st)
    end
  else if method_is method "tools/list" then
    (false, write_result req_id list_tools st)
  else if method_is method "tools/call" then
    match call_tool (params_of req) st with
    | (Return result, st) => (false, write_result req_id result st)
    | (Raise e, st) => (false, on_exception req_id e st)
    end
  else if method_is method "ping" then (false, write_result req_id (JObj []) st)
  else if method_is method "shutdown" then (true, write_result req_id (JObj []) st)
  else
    (false,
     write_error req_id METHOD_NOT_FOUND ("Method not found: " ++ str_opt method) st).

(** How [main] ends: it returns, or an exception leaves it. *)
Inductive exit_status : Type :=
| Returned
| Uncaught (message : string).

(** What the loop does with one value [read_message] returned: [inl]
    ends the loop, [inr] goes on to the next round. *)
Definition loop_body (req : option json) (st : state) : (exit_status * state) + state :=
  match req with
  | None | Some JNull => inl (Returned, add_log st EofInvalidExiting)
  | Some (JObj r) =>
      match dict_get "id" r with
      | None | Some JNull => inr st
      | Some req_id =>
          let '(stop, st) := handle_request r req_id st in
          if stop then inl (Returned, st) else inr st
      end
  | Some v => inl (Uncaught (no_attribute_get v), st)
  end.

(** The [while True] loop; a round that does not end the loop has taken
    at least one byte of input, so [S (length (stdin st))] rounds are
    always enough ([None]: out of fuel). *)
Fixpoint main_loop (fuel : nat) (st : state) : option (exit_status * state) :=
  match fuel with
  | 0 => None
  | S fuel' =>
      let '(req, st) := read_message st in
      match loop_body req st with
      | inl done => Some done
      | inr st => main_loop fuel' st
      end
  end.

Definition main (st : state) : option (exit_status * state) :=
  main_loop (S (List.length (stdin st))) (add_log st Starting).

(** The state of a fresh process that will receive [inp]. *)
Definition start (inp : bytes) (w : world) : state :=
  {| stdin := inp; stdout := []; TRANSPORT_MODE := None; log := []; env := w |}.

End Environment.

Arguments stdin {world} s.
Arguments stdout {world} s.
Arguments TRANSPORT_MODE {world} s.
Arguments log {world} s.
Arguments env {world} s.
Arguments new_client {world} c _.
Arguments call_method {world} c _ _ _.
Arguments set_stdin {world} st inp.
Arguments write_stdout {world} st out.
Arguments set_mode {world} st m.
Arguments add_log {world} st e.
Arguments set_env {world} st w.
Arguments _write_lsp {world} payload st.
Arguments _write_ndjson {world} payload st.
Arguments write_message {world} payload st.
Arguments write_result {world} id_value result st.
Arguments write_error {world} id_value code message st.
Arguments _read_lsp_from {world} first_line st.
Arguments _read_ndjson_from {world} first_line st.
Arguments read_message {world} st.
Arguments call_tool {world} UPNOTE_OK UpNoteClient params st.
Arguments on_exception {world} req_id e st.
Arguments handle_request {world} UPNOTE_OK UpNoteClient req req_id st.
Arguments loop_body {world} UPNOTE_OK UpNoteClient req st.
Arguments main_loop {world} UPNOTE_OK UpNoteClient fuel st.
Arguments main {world} UPNOTE_OK UpNoteClient st.
Arguments start {world} inp w.
End Server.

(** * upnote_python_client/__init__.py *)
Module Client.

(** ** [urllib.parse]

    Text is held as its UTF-8 encoding, which is what [quote] works on. *)

(** The characters [quote] never escapes: letters, digits and [_.-~]. *)
Definition always_safe (c : ascii) : bool :=
  let n := code c in
  (((65 <=? n) && (n <=? 90)) || ((97 <=? n) && (n <=? 122))
   || ((48 <=? n) && (n <=? 57))
   || (n =? 95) || (n =? 46) || (n =? 45) || (n =? 126))%N.

Definition upper_hex_digit (n : N) : ascii :=
  if (n <? 10)%N then ascii_of_N (48 + n) else ascii_of_N (55 + n).

(** ['%{:02X}'.format(byte)] for a byte that is not safe. *)
Definition quote_byte (c : ascii) : bytes :=
  if always_safe c then [c]
  else ["%"; upper_hex_digit (code c / 16); upper_hex_digit (code c mod 16)].

(** [quote(text, safe='')] *)
Definition quote (text : string) : bytes := flat_map quote_byte (B text).

(** [urlencode(query, safe='', quote_via=quote)] on a dict. *)
Definition urlencode (query : list (string * json)) : bytes :=
  join ["&"] (map (fun kv => quote (fst kv) ++ "=" :: quote (py_str (snd kv))) query).

(** ** [UpNoteClient] *)

Definition base_scheme : string := "upnote://x-callback-url".

(** The text [_build_url] sends for a value; [None] for a value it leaves
    out. *)
Definition clean_value (value : json) : option string :=
  match value with
  | JNull => None
  | JArr items => Some (String.concat "," (map py_str items))
  | JBool true => Some "true"%string
  | JBool false => Some "false"%string
  | other => Some (py_str other)
  end.

(** The loop that fills [clean_params]. *)
Definition clean_params (params : list (string * json)) : list (string * json) :=
  fold_left (fun clean kv =>
               match clean_value (snd kv) with
               | Some text => dict_set (fst kv) (JStr text) clean
               | None => clean
               end) params [].

Definition _build_url (action : string) (params : list (string * json)) : bytes :=
  let query_string := urlencode (clean_params params) in
  let url := B base_scheme ++ "/" :: B action in
  match query_string with
  | [] => url
  | _ => url ++ "?" :: query_string
  end.

Definition debug_url (action : string) (params : list (string * json)) : bytes :=
  _build_url action params.

Section System.

(** What [subprocess.run(..., check=True)] does with a command: it
    returns, raises [CalledProcessError], or raises something else (the
    program is missing, say). *)
Inductive run_outcome : Type :=
| Completed
| CalledProcessError (message : string)
| OtherError (message : string).

Variable world : Type.

(** [system] is what [platform.system()] returned when the client was
    made; [run args shell] is [subprocess.run(args, shell=shell,
    check=True)]. *)
Variable system : string.
Variable run : list bytes -> bool -> world -> run_outcome * world.

Definition run_checked (args : list bytes) (shell : bool) (w : world)
  : Server.outcome bool * world :=
  match run args shell w with
  | (Completed, w') => (Server.Return true, w')
  | (CalledProcessError e, w') => (Server.Raise ("Failed to open URL: " ++ e), w')
  | (OtherError e, w') => (Server.Raise e, w')
  end.

Definition _open_url (url : bytes) (w : world) : Server.outcome bool * world :=
  if String.eqb system "Darwin" then run_checked [B "open"; url] false w
  else if String.eqb system "Windows" then run_checked [B "start"; url] true w
  else if String.eqb system "Linux" then run_checked [B "xdg-open"; url] false w
  else (Server.Raise ("Unsupported operating system: " ++ system), w).

(** [if x: params[key] = x] for an optional text [x]. *)
Definition set_if (key : string) (x : option string) (params : list (string * json))
  : list (string * json) :=
  match x with
  | Some s => if String.eqb s EmptyString then params else dict_set key (JStr s) params
  | None => params
  end.

Definition search_notes (query : string)
  (mode notebook_id tag_id filter_id space_id x_success x_error x_cancel : option string)
  (w : world) : Server.outcome bool * world :=
  if String.eqb query EmptyString || bytes_eqb (str_strip (B query)) []
  then (Server.Raise
          (string_of_list_ascii
             (B "query" ++ map ascii_of_N [235; 138; 148] ++ [" "]
                ++ map ascii_of_N [235; 185; 132; 236; 150; 180] ++ [" "]
                ++ map ascii_of_N [236; 158; 136; 236; 157; 132] ++ [" "]
                ++ map ascii_of_N [236; 136; 152] ++ [" "]
                ++ map ascii_of_N [236; 151; 134; 236; 138; 181; 235; 139; 136; 235; 139; 164]
                ++ ["."])%N), w)
  else
    let params :=
      [("action", JStr "search");
       ("query", JStr (string_of_list_ascii (str_strip (B query))))]%string in
    let params := set_if "mode" mode params in
    let params := set_if "notebookId" notebook_id params in
    let params := set_if "tagId" tag_id params in
    let params := set_if "filterId" filter_id params in
    let params := set_if "spaceId" space_id params in
    let params := set_if "x-success" x_success params in
    let params := set_if "x-error" x_error params in
    let params := set_if "x-cancel" x_cancel params in
    _open_url (_build_url "view" params) w.

Definition open_upnote (x_success x_error : option string) (w : world)
  : Server.outcome bool * world :=
  let params := set_if "x-success" x_success [] in
  let params := set_if "x-error" x_error params in
  _open_url (_build_url "open" params) w.

End System.

(** ** The signatures of the methods [call_tool] calls

    The parameters after [self], each with whether it has a default. *)
Definition optional (names : list string) : list (string * bool) :=
  map (fun n => (n, true)) names.

Definition required (names : list string) : list (string * bool) :=
  map (fun n => (n, false)) names.

Definition parameters (method : string) : list (string * bool) :=
  (if String.eqb method "create_note" then
     optional ["text"; "title"; "notebook"; "tags"; "markdown"; "pinned"; "favorite";
               "starred"; "color"; "reminder"; "location"; "attachment"; "attachments";
               "template"; "folder"; "category"; "priority"; "due_date";
               "created_date"; "modified_date"; "author"; "source"; "url";
               "encrypted"; "password"; "readonly"; "shared"; "public"; "format";
               "encoding"; "x_success"; "x_error"; "x_cancel"]
   else if String.eqb method "create_markdown_note" then
     app (required ["title"; "content"])
       (optional ["notebook"; "tags"; "add_timestamp"; "pinned"; "favorite"; "color"; "reminder"])
   else if String.eqb method "create_task_note" then
     app (required ["title"; "tasks"])
       (optional ["notebook"; "due_date"; "priority"; "tags"; "reminder"])
   else if String.eqb method "create_meeting_note" then
     app (required ["title"; "date"; "attendees"; "agenda"])
       (optional ["notebook"; "location"; "tags"])
   else if String.eqb method "create_project_note" then
     app (required ["project_name"; "description"; "milestones"; "team_members"])
       (optional ["due_date"; "notebook"; "priority"])
   else if String.eqb method "create_daily_note" then
     optional ["date"; "mood"; "weather"; "goals"; "reflections"; "notebook"]
   else if String.eqb method "open_note" then
     optional ["note_id"; "title"; "edit"; "x_success"; "x_error"; "x_cancel"]
   else if String.eqb method "search_notes" then
     app (required ["query"])
       (optional ["mode"; "notebook_id"; "tag_id"; "filter_id"; "space_id"; "x_success"; "x_error"; "x_cancel"])
   else if String.eqb method "create_notebook" then
     app (required ["title"])
       (optional ["color"; "parent"; "x_success"; "x_error"; "x_cancel"])
   else if String.eqb method "open_notebook" then
     optional ["name"; "notebook_id"; "x_success"; "x_error"; "x_cancel"]
   else if String.eqb method "open_upnote" then
     optional ["x_success"; "x_error"]
   else if String.eqb method "import_note" then
     app (required ["file_path"])
       (optional ["notebook"; "format_type"; "x_success"; "x_error"; "x_cancel"])
   else if String.eqb method "export_note" then
     optional ["note_id"; "title"; "format_type"; "destination"; "x_success"; "x_error";
               "x_cancel"]
   else [])%string.

(** Whether a call that unpacks the dict [kwargs] as keyword arguments
    gets as far as the body: every
    keyword names a parameter and every parameter without a default is
    given.  Otherwise Python raises [TypeError] before the body runs. *)
Definition accepts (method : string) (kwargs : list (string * json)) : bool :=
  forallb (fun kv => mem_string (fst kv) (map fst (parameters method))) kwargs
  && forallb (fun p => snd p || mem_string (fst p) (map fst kwargs)) (parameters method).

(** ** [UpNoteHelper] *)

(** [create_checklist(items)] *)
Definition create_checklist (items : list string) : bytes :=
  join [LF] (map (fun item => B "- [ ] " ++ B item) items).



End Client.

(** * upnote_mcp_debugger.py: tripwire mode *)
Module Tripwire.

(** The [logger.log] calls of [run_tripwire]: its own, and those of
    [sniff_and_summarize].  The values taken from the environment
    (executable, working directory, search paths) are left out, as the
    time stamps are; [RawFirstBytes] holds [len(buf)] and [buf[:256]]. *)
Inductive event : Type :=
| TripwireOn
| Env (label : string)
| Sniffed (record : Debugger.log_record)
| RawFirstBytes (length : nat) (head : bytes)
| NoBytes
| Captured.

(** The size given to the one further read, 8192. *)
Definition read1_size : nat := 8 * 1024.

(** [sys.stdin.buffer.read1(8192)]: one read, which hands over what is
    there for it, [granted] bytes of the input, and at most 8192. *)
Definition read1 (granted : nat) (inp : bytes) : bytes * bytes :=
  read (Nat.min granted read1_size) inp.

(** The five records logged before anything is read. *)
Definition prelude : list event :=
  [TripwireOn; Env "exe"; Env "cwd"; Env "PATH"; Env "PYTHONPATH"]%string.

(** [run_tripwire()] on the input [inp]. *)
Definition run_tripwire (granted : nat) (inp : bytes) : list event :=
  let '(chunk, rest) := readline inp in
  let found :=
    match chunk with
    | [] => [NoBytes]
    | _ :: _ =>
        let buf := chunk in
        let '(logs1, consumed) := Debugger.sniff_and_summarize "INPUT" buf in
        match consumed with
        | Some _ => map Sniffed logs1
        | None =>
            let '(more, _) := read1 granted rest in
            match more with
            | [] =>
                map Sniffed logs1
                  ++ [RawFirstBytes (List.length buf) (slice buf 0 256)]
            | _ :: _ =>
                let buf := buf ++ more in
                let '(logs2, consumed) := Debugger.sniff_and_summarize "INPUT" buf in
                match consumed with
                | Some _ => map Sniffed (logs1 ++ logs2)
                | None =>
                    map Sniffed (logs1 ++ logs2)
                      ++ [RawFirstBytes (List.length buf) (slice buf 0 256)]
                end
            end
        end
    end in
  prelude ++ found ++ [Captured].

End Tripwire.

(** * Vocabulary of the statements *)

Definition nonzero_digit (c : ascii) : bool := is_digit c && negb (Ascii.eqb c "0").

(** What may follow a value inside compact JSON text. *)
Definition follow_ok (rest : bytes) : bool :=
  match rest with
  | [] => true
  | c :: _ => Ascii.eqb c "," || Ascii.eqb c "]" || Ascii.eqb c "}"
  end.

Fixpoint jsize (v : json) : nat :=
  match v with
  | JArr items => S (list_sum (map (fun x => S (jsize x)) items))
  | JObj members => S (list_sum (map (fun kv => S (jsize (snd kv))) members))
  | _ => 1
  end.

Definition value_start (c : ascii) : bool :=
  negb (is_json_ws c) && negb (Ascii.eqb c "]") && negb (Ascii.eqb c "}").

Definition member_text (kv : string * json) : bytes :=
  (DQUOTE :: escape_body (fst kv) ++ [DQUOTE]) ++ [":"] ++ dumps (snd kv).

(** The round trip on values, for any amount of fuel that covers the value. *)
Definition parses_back (v : json) : Prop :=
  wf_json v = true ->
  forall fuel rest, jsize v <= fuel -> follow_ok rest = true ->
    parse_value fuel (dumps v ++ rest) = Some (v, rest).

Definition printable (c : ascii) : bool := negb (code c <? 32)%N.

Definition is_ascii7 (c : ascii) : bool := (code c <? 128)%N.

Definition passes (b : bytes) : Prop := forall X, utf8_run U0 (b ++ X) = utf8_run U0 X.

(** The header line of an lsp envelope for a body of [n] bytes. *)
Definition content_length_line (n : nat) : bytes := B "Content-Length: " ++ str_nat n.

(** ** Encoding and decoding under a framing

    [encode] is what the server's writers put on the wire, [decode] is the
    extraction rule of that framing followed by
    [json.loads(data.decode("utf-8"))]. *)

Definition encode (f : framing) (v : json) : bytes :=
  match f with
  | ndjson => Server.ndjson_frame v
  | lsp => Server.lsp_frame v
  end.

Definition json_of_bytes (data : bytes) : option json :=
  match decode_utf8 data with
  | Some text => loads text
  | None => None
  end.

Definition try_parse (f : framing) (buffer : bytes) : option (bytes * nat) :=
  match f with
  | ndjson => Debugger.try_parse_ndjson buffer
  | lsp => Debugger.try_parse_lsp buffer
  end.

Definition decode (f : framing) (buffer : bytes) : option json :=
  match try_parse f buffer with
  | Some (body, _) => json_of_bytes body
  | None => None
  end.

(** The bytes [write_message] emits for a payload under a cached mode. *)
Definition frame (mode : option framing) (payload : json) : bytes :=
  match mode with
  | Some lsp => Server.lsp_frame payload
  | _ => Server.ndjson_frame payload
  end.

Definition json_is_null (v : json) : bool :=
  match v with JNull => true | _ => false end.


(** The identifier of a decoded message: the value under ["id"] of a dict,
    where the JSON [null] (Python's [None]) counts as no identifier, as in
    [if req_id is None]. *)
Definition identifier (msg : json) : option json :=
  match msg with
  | JObj req =>
      match dict_get "id" req with
      | Some i => if json_is_null i then None else Some i
      | None => None
      end
  | _ => None
  end.






(** The state a round of the loop leaves behind. *)
Definition after {world : Type} (r : (Server.exit_status * Server.state world) + Server.state world)
  : Server.state world :=
  match r with
  | inl (_, st) => st
  | inr st => st
  end.


(** [st'] differs from [st] on stdout by exactly the frames of [replies],
    written under the mode cached in [st]. *)
Definition wrote {world : Type} (st st' : Server.state world) (replies : list json) : Prop :=
  Server.stdout st'
  = Server.stdout st ++ List.concat (map (frame (Server.TRANSPORT_MODE st)) replies)
  /\ Server.TRANSPORT_MODE st' = Server.TRANSPORT_MODE st
  /\ Server.stdin st' = Server.stdin st.


(** Logging and the collaborator leave the transport alone. *)
Definition same_transport {world : Type} (st st' : Server.state world) : Prop :=
  Server.stdout st' = Server.stdout st
  /\ Server.TRANSPORT_MODE st' = Server.TRANSPORT_MODE st
  /\ Server.stdin st' = Server.stdin st.




(** The payload shape of a [tools/call] result. *)
Definition tool_payload (content : list json) (is_error : bool) : json :=
  JObj [("content", JArr content); ("isError", JBool is_error)]%string.




(** The result of [initialize] for a negotiated version. *)
Definition initialize_result (version : string) : json :=
  JObj [("protocolVersion", JStr version);
        ("capabilities",
         JObj [("experimental", JObj []);
               ("prompts", JObj [("listChanged", JBool false)]);
               ("resources", JObj [("subscribe", JBool false);
                                   ("listChanged", JBool false)]);
               ("tools", JObj [("listChanged", JBool false)])]);
        ("serverInfo", JObj [("name", JStr "upnote-mcp"); ("version", JStr "1.0.0")])]%string.


(** What a read may change: the input left and the log. *)
Definition read_only {world : Type} (st st' : Server.state world) : Prop :=
  Server.stdout st' = Server.stdout st
  /\ Server.TRANSPORT_MODE st' = Server.TRANSPORT_MODE st
  /\ List.length (Server.stdin st') <= List.length (Server.stdin st).


(** The detection rule in the words of the specification. *)
Definition spec_classify (chunk : bytes) : option framing :=
  if startswith (B "Content-Length:") chunk || contains CRLFCRLF (firstn 128 chunk)
  then Some lsp
  else
    match lstrip chunk with
    | c :: _ => if Ascii.eqb c "{" || Ascii.eqb c "[" then Some ndjson else None
    | [] => None
    end.


Definition lsp_looking (buffer : bytes) : bool :=
  startswith (B "Content-Length:") buffer || contains CRLFCRLF (firstn 128 buffer).


Definition starts_brace (buffer : bytes) : bool :=
  match buffer with
  | c :: _ => Ascii.eqb c "{" || Ascii.eqb c "["
  | [] => false
  end.


Definition is_some {A : Type} (o : option A) : bool :=
  match o with
  | Some _ => true
  | None => false
  end.


(** The same rule as the proxy's sniffer applies it: a framing is reported
    only together with a complete message, the lsp test falls through to
    the ndjson one when no lsp message is complete, and the ndjson test
    looks at the very first byte. *)
Definition sniff_classify (buffer : bytes) : option framing :=
  if lsp_looking buffer && is_some (Debugger.try_parse_lsp buffer) then Some lsp
  else if starts_brace buffer && is_some (Debugger.try_parse_ndjson buffer) then Some ndjson
  else None.


Definition no_client : option (Server.client_class unit) := None.


(** A collaborator whose calls all succeed. *)
Definition obliging_client : Server.client_class unit :=
  {| Server.new_client := fun w => (Server.Return tt, w);
     Server.call_method := fun _ _ w => (Server.Return (JBool true), w) |}.


(** What a fresh server process writes when it is fed [inp]. *)
Definition output_of (UpNoteClient : option (Server.client_class unit)) (inp : bytes)
  : option bytes :=
  match Server.main true UpNoteClient (Server.start inp tt) with
  | Some (_, st) => Some (Server.stdout st)
  | None => None
  end.


Definition ping_request (i : Z) : json :=
  JObj [("jsonrpc", JStr "2.0"); ("id", JInt i); ("method", JStr "ping")]%string.




Definition ping_line (i : Z) : bytes := encode ndjson (ping_request i).


(** An lsp-framed request followed by an ndjson-framed one. *)
Definition mixed_input : bytes := encode lsp (ping_request 1) ++ encode ndjson (ping_request 2).


(** A visible ASCII character. *)
Definition graphic (c : ascii) : bool := ((33 <=? code c) && (code c <=? 126))%N.

(** A message that opens with a brace or a bracket. *)
Definition container (v : json) : bool :=
  match v with
  | JArr _ | JObj _ => true
  | _ => false
  end.


(** A successful parse consumes input, and succeeds alike with any fuel
    above the number of bytes it consumed. *)
Definition steady {A : Type} (parse : nat -> bytes -> option (A * bytes)) (fuel : nat)
  : Prop :=
  forall s a rest,
    parse fuel s = Some (a, rest) ->
    List.length rest < List.length s
    /\ forall fuel', List.length s - List.length rest < fuel' ->
                     parse fuel' s = Some (a, rest).

(** ** Streams of messages *)

(** Messages on the wire, each under a framing of its own. *)
Definition wire (msgs : list (framing * json)) : bytes :=
  List.concat (map (fun fv => encode (fst fv) (snd fv)) msgs).

(** What [read_message] can take in: text that exists in Python, and under
    ndjson a value whose text opens with a brace or a bracket. *)
Definition readable (fv : framing * json) : bool :=
  wf_json (snd fv)
  && match fst fv with
     | ndjson => container (snd fv)
     | lsp => true
     end.

(** [n] calls of [read_message] in a row, with what each returned. *)
Fixpoint read_messages {world : Type} (n : nat) (st : Server.state world)
  : list (option json) * Server.state world :=
  match n with
  | 0 => ([], st)
  | S n' =>
      let '(m, st1) := Server.read_message st in
      let '(ms, st2) := read_messages n' st1 in
      (m :: ms, st2)
  end.

(** The names of the tools in a [tools/list] result. *)
Definition tool_names (result : json) : list string :=
  match result with
  | JObj d =>
      match dict_get "tools" d with
      | Some (JArr tools) =>
          flat_map (fun t => match t with
                             | JObj m =>
                                 match dict_get "name" m with
                                 | Some (JStr n) => [n]
                                 | _ => []
                                 end
                             | _ => []
                             end) tools
      | _ => []
      end
  | _ => []
  end.

(** ** What the proxy logs *)

Definition detected (f : framing) (n : nat) : Debugger.log_msg :=
  match f with
  | ndjson => Debugger.NdjsonDetected n
  | lsp => Debugger.LspDetected n
  end.

(** The two log records of a message found under a framing: the
    detection with the length of the message text, then its summary. *)
Definition summary (prefix : string) (fv : framing * json) : list Debugger.log_record :=
  [(prefix, detected (fst fv) (List.length (dumps (snd fv))));
   (prefix,
    match snd fv with
    | JObj obj =>
        Debugger.JsonSummary (Debugger.repr_opt (dict_get "method" obj))
          (Debugger.repr_opt (dict_get "id" obj))
    | _ => Debugger.JsonNonDict (List.length (dumps (snd fv)))
    end)].

(** ** Header lines of an lsp frame *)

(** The text of a header line other than the length: it is not empty,
    holds no line feed, and [add_header] files the line under another
    name or not at all. *)
Definition other_header (text : bytes) : bool :=
  negb (bytes_eqb text [])
  && forallb (fun c => negb (Ascii.eqb LF c)) text
  && match header_get (B "content-length") (Server.add_header (text ++ CRLF) []) with
     | Some _ => false
     | None => true
     end.

(** An lsp frame as a client may write it: the length under a name in
    any letter case, more header lines, the blank line, the body. *)
Definition decorated_frame (name : bytes) (extras : list bytes) (body : bytes) : bytes :=
  (name ++ B ": " ++ str_nat (List.length body) ++ CRLF)
    ++ List.concat (map (fun text => text ++ CRLF) extras)
    ++ CRLF ++ body.

(** A letter or a hyphen. *)
Definition wordy (c : ascii) : bool :=
  let n := code c in
  (((65 <=? n) && (n <=? 90)) || ((97 <=? n) && (n <=? 122)) || (n =? 45))%N.

(** A collaborator that counts the calls it gets, constructor included. *)
Definition counting_client : Server.client_class nat :=
  {| Server.new_client := fun w => (Server.Return tt, S w);
     Server.call_method := fun _ _ w => (Server.Return (JBool true), S w) |}.

(** ** Requests that do not involve the client *)

(** The reply to a request with identifier [i] whose method is neither
    [tools/call] nor [shutdown], as the dispatch chain of [main] makes
    it. *)
Definition stateless_reply (req : list (string * json)) (i : json) : json :=
  let method := dict_get "method" req in
  if Server.method_is method "initialize" then
    match Server.resp_initialize (Server.params_of req) with
    | Server.Return result => Server.result_reply i result
    | Server.Raise e =>
        Server.error_reply i Server.INTERNAL_ERROR ("Internal error: " ++ e)
    end
  else if Server.method_is method "tools/list" then Server.result_reply i Server.list_tools
  else if Server.method_is method "ping" then Server.result_reply i (JObj [])
  else
    Server.error_reply i Server.METHOD_NOT_FOUND
      ("Method not found: " ++ Server.str_opt method).

(** What the server owes a message of that kind: nothing to a
    notification, one reply to a request. *)
Definition replies_to (msg : json) : list json :=
  match msg, identifier msg with
  | JObj req, Some i => [stateless_reply req i]
  | _, _ => []
  end.

(** An object whose method is neither [tools/call] nor [shutdown]. *)
Definition stateless (msg : json) : bool :=
  match msg with
  | JObj req =>
      negb (Server.method_is (dict_get "method" req) "tools/call")
      && negb (Server.method_is (dict_get "method" req) "shutdown")
  | _ => false
  end.

(** The framing of the first message, if there is one. *)
Definition first_framing (msgs : list (framing * json)) : option framing :=
  match msgs with
  | [] => None
  | fv :: _ => Some (fst fv)
  end.

(** ** URLs *)

(** The characters of a URL that [_build_url] makes: the unreserved ones
    and the separators [% = & ? : /]. *)
Definition url_char (c : ascii) : bool :=
  Client.always_safe c || existsb (Ascii.eqb c) (B "%=&?:/").

(** How often a character occurs in a text. *)
Definition count (c : ascii) (b : bytes) : nat := count_occ ascii_dec b c.

(** The parameters that are not [None]. *)
Definition sent (params : list (string * json)) : list (string * json) :=
  filter (fun kv => negb (json_is_null (snd kv))) params.

(** ** The input schemas of [tools/list] *)

Definition strings_of (v : option json) : list string :=
  match v with
  | Some (JArr items) =>
      flat_map (fun x => match x with JStr s => [s] | _ => [] end) items
  | _ => []
  end.

Definition keys_of (v : option json) : list string :=
  match v with
  | Some (JObj members) => map fst members
  | _ => []
  end.

(** The [inputSchema] of the advertised tool of a name. *)
Definition input_schema (name : string) : list (string * json) :=
  match Server.list_tools with
  | JObj d =>
      match dict_get "tools" d with
      | Some (JArr tools) =>
          match List.find (fun t => match t with
                                    | JObj m =>
                                        match dict_get "name" m with
                                        | Some (JStr n) => String.eqb n name
                                        | _ => false
                                        end
                                    | _ => false
                                    end) tools with
          | Some (JObj m) =>
              match dict_get "inputSchema" m with
              | Some (JObj s) => s
              | _ => []
              end
          | _ => []
          end
      | _ => []
      end
  | _ => []
  end.

Definition schema_required (name : string) : list string :=
  strings_of (dict_get "required" (input_schema name)).

Definition schema_properties (name : string) : list string :=
  keys_of (dict_get "properties" (input_schema name)).

(** Arguments that give every property the schema requires. *)
Definition gives_required (name : string) (kwargs : list (string * json)) : bool :=
  forallb (fun k => mem_string k (map fst kwargs)) (schema_required name).

(** Arguments that moreover give no property the schema does not list. *)
Definition within_schema (name : string) (kwargs : list (string * json)) : bool :=
  gives_required name kwargs
  && forallb (fun kv => mem_string (fst kv) (schema_properties name)) kwargs.

(** A client class whose methods are called as Python calls them: a call
    that the signature does not accept raises before the body runs, and
    so leaves the world as it is. *)
Definition follows_signatures {world : Type} (cls : Server.client_class world) : Prop :=
  forall n kwargs w,
    Client.accepts n kwargs = false ->
    exists e, Server.call_method cls n kwargs w = (Server.Raise e, w).

(** A collaborator that only checks the keywords. *)
Definition strict_client : Server.client_class unit :=
  {| Server.new_client := fun w => (Server.Return tt, w);
     Server.call_method := fun n kwargs w =>
       if Client.accepts n kwargs then (Server.Return (JBool true), w)
       else (Server.Raise "TypeError", w) |}.

(** The tools whose schema and signature agree. *)
Definition consistent_tools : list string :=
  ["create_note"; "create_markdown_note"; "create_task_note"; "open_note";
   "create_notebook"; "open_notebook"; "open_upnote"]%string.

(** The characters of an action: unreserved ones and the slash. *)
Definition action_char (c : ascii) : bool := Client.always_safe c || Ascii.eqb c "/".

(** ** Markdown tables *)



(** * Scenarios and instances *)

Definition frobnicate_request : list (string * json) :=
  [("jsonrpc", JStr "2.0"); ("id", JInt 9); ("method", JStr "frobnicate")]%string.


Definition tools_call_request (params : json) : list (string * json) :=
  [("jsonrpc", JStr "2.0"); ("id", JInt 4); ("method", JStr "tools/call");
   ("params", params)]%string.


Definition open_upnote_params : json :=
  JObj [("name", JStr "open_upnote"); ("arguments", JObj [])]%string.


Definition initialize_request (params : json) : list (string * json) :=
  [("jsonrpc", JStr "2.0"); ("id", JInt 0); ("method", JStr "initialize");
   ("params", params)]%string.


Definition sample_message : json :=
  JObj [("jsonrpc", JStr "2.0"); ("id", JInt 7); ("method", JStr "tools/call");
        ("params", JObj [("name", JStr "open_upnote");
                         ("arguments", JArr [JNull; JBool true; JInt (-12)])])]%string.


(** The scenario of the specification: a 300-byte message. *)
Definition message_300 : bytes :=
  Q "{'jsonrpc':'2.0','id':1,'method':'tools/call','params':{'name':'create_note','arguments':{'title':'" ++ repeat "x" 196 ++ Q "'}}}" ++ [LF].


(** * Properties of the runtime model *)

Example py_int_examples :
  py_int (B "42") = Some 42%Z /\ py_int (B " 1_0 ") = Some 10%Z /\
  py_int (B "-7") = Some (-7)%Z /\ py_int (B "") = None /\ py_int (B "1__0") = None /\
  py_int (B "x") = None /\ str_int 120 = B "120" /\ str_int (-5) = B "-5" /\ str_int 0 = B "0".
Proof. repeat split; reflexivity. Qed.

Example loads_examples :
  loads (Q " {'a' : [1, -20, {'b':null , 'a': 'x'}], 'c':true,'a':false} ")
  = Some (JObj [("a", JBool false); ("c", JBool true)]%string)
  /\ loads (Q "[1,]") = None /\ loads (Q "01") = None /\ loads (Q "[1 2]") = None
  /\ loads (Q "{'a':1}x") = None /\ loads (Q "-") = None /\ loads (Q "{bad") = None
  /\ loads (Q "[]") = Some (JArr []) /\ loads (Q "{ }") = Some (JObj [])
  /\ loads (Q "-0") = Some (JInt 0) /\ loads (Q "'\u0041\n'") = Some (JStr (String "A" (String LF EmptyString))).
Proof. repeat split; reflexivity. Qed.

(** ** Strings and numbers survive [dumps] then [loads] *)

Lemma parse_string_escape_char (c : ascii) (X : bytes) :
  parse_string (escape_char c ++ X) = map_fst (String c) (parse_string X).
Proof.
  destruct c as [[] [] [] [] [] [] [] []]; reflexivity.
Qed.

Lemma parse_string_escape_body (s : string) (rest : bytes) :
  parse_string (escape_body s ++ DQUOTE :: rest) = Some (s, rest).
Proof.
  induction s as [|c s IH]; simpl.
  - reflexivity.
  - rewrite <- app_assoc, parse_string_escape_char, IH. reflexivity.
Qed.

(** Decimal numerals *)

Lemma digits_of_uint_digits (d : Decimal.uint) :
  forallb is_digit (digits_of_uint d) = true.
Proof. induction d; simpl; auto. Qed.

Lemma Z_of_digits_of_uint (d : Decimal.uint) :
  Z_of_digits (digits_of_uint d) = Some (Z.of_uint d).
Proof.
  unfold Z_of_digits, digits_of_uint.
  rewrite string_of_list_ascii_of_string, DecimalString.NilEmpty.usu. reflexivity.
Qed.

Lemma pos_to_uint_normal (p : positive) : Decimal.unorm (Pos.to_uint p) = Pos.to_uint p.
Proof.
  rewrite <- DecimalPos.Unsigned.to_of, DecimalPos.Unsigned.of_to. reflexivity.
Qed.

Lemma digits_of_pos_head (p : positive) :
  exists c t, digits_of_uint (Pos.to_uint p) = c :: t /\ nonzero_digit c = true.
Proof.
  pose proof (pos_to_uint_normal p) as Hn.
  pose proof (DecimalPos.Unsigned.to_uint_nonzero p) as Hz.
  pose proof (DecimalFacts.nzhead_nonzero (Pos.to_uint p)) as Hh.
  unfold Decimal.unorm in Hn.
  destruct (Decimal.nzhead (Pos.to_uint p)) eqn:E;
    try (exfalso; apply Hz; symmetry; exact Hn);
    try (exfalso; eapply Hh; reflexivity);
    rewrite <- Hn; simpl; eexists; eexists; split; reflexivity.
Qed.

Lemma span_digits_app (ds rest : bytes) :
  forallb is_digit ds = true ->
  match rest with c :: _ => is_digit c = false | [] => True end ->
  span_digits (ds ++ rest) = (ds, rest).
Proof.
  intros Hds Hrest. induction ds as [|c ds IH]; simpl in *.
  - destruct rest as [|c r]; [reflexivity|]. simpl. rewrite Hrest. reflexivity.
  - apply andb_prop in Hds as [Hc Hds]. rewrite Hc, (IH Hds). reflexivity.
Qed.

Lemma follow_ok_not_digit (rest : bytes) :
  follow_ok rest = true ->
  match rest with c :: _ => is_digit c = false | [] => True end.
Proof.
  destruct rest as [|c r]; simpl; [trivial|]. intros H.
  repeat (apply orb_prop in H as [H|H]); apply Ascii.eqb_eq in H; subst; reflexivity.
Qed.

Lemma follow_ok_not_float (rest : bytes) : follow_ok rest = true -> float_follows rest = false.
Proof.
  destruct rest as [|c r]; simpl; [trivial|]. intros H.
  repeat (apply orb_prop in H as [H|H]); apply Ascii.eqb_eq in H; subst; reflexivity.
Qed.

Lemma Z_of_uint_pos (p : positive) : Z.of_uint (Pos.to_uint p) = Z.pos p.
Proof.
  pose proof (DecimalZ.of_to (Z.pos p)) as H. simpl in H. exact H.
Qed.

Lemma str_int_zero : str_int 0 = ["0"].
Proof. reflexivity. Qed.

Lemma str_int_pos (p : positive) : str_int (Z.pos p) = digits_of_uint (Pos.to_uint p).
Proof. reflexivity. Qed.

Lemma str_int_neg (p : positive) :
  str_int (Z.neg p) = "-" :: digits_of_uint (Pos.to_uint p).
Proof. reflexivity. Qed.

Lemma nonzero_digit_facts (c : ascii) :
  nonzero_digit c = true ->
  is_digit c = true /\ Ascii.eqb c "0" = false /\ Ascii.eqb c "-" = false.
Proof.
  unfold nonzero_digit. intros H. apply andb_prop in H as [Hd Hz].
  apply negb_true_iff in Hz. repeat split; auto.
  destruct (Ascii.eqb_spec c "-") as [->|]; [discriminate Hd | reflexivity].
Qed.

Lemma parse_unsigned (neg : bool) (p : positive) (rest : bytes) :
  follow_ok rest = true ->
  match digits_of_uint (Pos.to_uint p) ++ rest with
  | c :: r' =>
      if Ascii.eqb c "0" then finish_number neg [c] r'
      else if is_digit c then
        let '(ds, rest0) := span_digits (digits_of_uint (Pos.to_uint p) ++ rest) in
        finish_number neg ds rest0
      else None
  | [] => None
  end = Some (JInt (if neg then Z.neg p else Z.pos p), rest).
Proof.
  intros Hf.
  rewrite (span_digits_app _ _ (digits_of_uint_digits _) (follow_ok_not_digit _ Hf)).
  destruct (digits_of_pos_head p) as (c & t & E & Hc).
  apply nonzero_digit_facts in Hc as (Hd & Hz & _).
  rewrite E. cbn [app]. rewrite Hz, Hd, <- E.
  unfold finish_number.
  rewrite (follow_ok_not_float _ Hf), Z_of_digits_of_uint, Z_of_uint_pos.
  destruct neg; reflexivity.
Qed.

Lemma parse_number_str_int (z : Z) (rest : bytes) :
  follow_ok rest = true ->
  parse_number (str_int z ++ rest) = Some (JInt z, rest).
Proof.
  intros Hf. destruct z as [|p|p].
  - rewrite str_int_zero. unfold parse_number, finish_number. simpl.
    rewrite (follow_ok_not_float _ Hf). reflexivity.
  - rewrite str_int_pos. unfold parse_number.
    destruct (digits_of_pos_head p) as (c & t & E & Hc).
    apply nonzero_digit_facts in Hc as (_ & _ & Hm).
    pose proof (parse_unsigned false p rest Hf) as H.
    rewrite E in *. cbn [app] in *. rewrite Hm. exact H.
  - rewrite str_int_neg. unfold parse_number. simpl app.
    change (Ascii.eqb "-" "-") with true. cbv iota.
    apply (parse_unsigned true p rest Hf).
Qed.

Lemma dumps_arr (l : list json) :
  dumps (JArr l) = "[" :: join [","] (map dumps l) ++ ["]"].
Proof. reflexivity. Qed.

Lemma dumps_obj (m : list (string * json)) :
  dumps (JObj m) = "{" :: join [","] (map member_text m) ++ ["}"].
Proof. reflexivity. Qed.

Lemma dumps_str (s : string) : dumps (JStr s) = DQUOTE :: escape_body s ++ [DQUOTE].
Proof. reflexivity. Qed.

Lemma str_int_head (z : Z) :
  exists c t, str_int z = c :: t /\ (is_digit c || Ascii.eqb c "-") = true.
Proof.
  destruct z as [|p|p].
  - exists "0", []. split; reflexivity.
  - rewrite str_int_pos. destruct (digits_of_pos_head p) as (c & t & E & Hc).
    exists c, t. split; [exact E|].
    apply nonzero_digit_facts in Hc as (Hd & _). rewrite Hd. reflexivity.
  - rewrite str_int_neg. eexists; eexists; split; reflexivity.
Qed.

Lemma number_start (c : ascii) :
  (is_digit c || Ascii.eqb c "-") = true -> value_start c = true.
Proof.
  destruct c as [[] [] [] [] [] [] [] []]; intros H; try discriminate H; reflexivity.
Qed.

Lemma dumps_head (v : json) : exists c t, dumps v = c :: t /\ value_start c = true.
Proof.
  destruct v as [|[]|z|s|l|m];
    try (eexists; eexists; split; reflexivity).
  destruct (str_int_head z) as (c & t & E & Hc).
  exists c, t. split; [exact E | apply number_start, Hc].
Qed.

Lemma skip_ws_start (c : ascii) (t : bytes) :
  value_start c = true -> skip_ws (c :: t) = c :: t.
Proof.
  unfold value_start, skip_ws. intros H. simpl.
  destruct (is_json_ws c); [discriminate H | reflexivity].
Qed.

Lemma skip_ws_dumps (v : json) (X : bytes) : skip_ws (dumps v ++ X) = dumps v ++ X.
Proof.
  destruct (dumps_head v) as (c & t & E & Hc). rewrite E. apply skip_ws_start, Hc.
Qed.

Lemma parse_value_number (fuel : nat) (c : ascii) (t : bytes) :
  (is_digit c || Ascii.eqb c "-") = true ->
  parse_value (S fuel) (c :: t) = parse_number (c :: t).
Proof.
  destruct c as [[] [] [] [] [] [] [] []]; intros H; try discriminate H; reflexivity.
Qed.

Lemma dict_set_fresh (k : string) (v : json) (d : list (string * json)) :
  mem_string k (map fst d) = false -> dict_set k v d = d ++ [(k, v)].
Proof.
  induction d as [|[k' v'] d IH]; simpl; [reflexivity|].
  intros H. apply orb_false_elim in H as [Hk Hd].
  rewrite Hk, (IH Hd). reflexivity.
Qed.

Lemma mem_string_app (k : string) (a b : list string) :
  mem_string k (a ++ b) = mem_string k a || mem_string k b.
Proof.
  induction a as [|x a IH]; simpl; [reflexivity|]. rewrite IH, orb_assoc. reflexivity.
Qed.

Lemma dict_of_pairs_nodup_acc (m acc : list (string * json)) :
  nodup_strings (map fst m) = true ->
  (forall k, mem_string k (map fst m) = true -> mem_string k (map fst acc) = false) ->
  fold_left (fun d kv => dict_set (fst kv) (snd kv) d) m acc = acc ++ m.
Proof.
  revert acc. induction m as [|[k v] m IH]; intros acc Hnd Hdis; simpl.
  - rewrite app_nil_r. reflexivity.
  - simpl in Hnd. apply andb_prop in Hnd as [Hk Hnd]. apply negb_true_iff in Hk.
    rewrite dict_set_fresh.
    + rewrite IH; [rewrite <- app_assoc; reflexivity | exact Hnd |].
      intros k' Hk'. rewrite map_app, mem_string_app. simpl.
      rewrite (Hdis k') by (simpl; rewrite Hk', orb_true_r; reflexivity).
      simpl. rewrite orb_false_r.
      destruct (String.eqb_spec k' k) as [->|]; [congruence | reflexivity].
    + apply Hdis. simpl. rewrite String.eqb_refl. reflexivity.
Qed.

Lemma dict_of_pairs_nodup (m : list (string * json)) :
  nodup_strings (map fst m) = true -> dict_of_pairs m = m.
Proof.
  intros H. unfold dict_of_pairs. rewrite dict_of_pairs_nodup_acc; auto.
Qed.

Lemma parse_elems_last (fuel : nat) (s : bytes) (v : json) (rest : bytes) :
  parse_value fuel s = Some (v, "]" :: rest) ->
  parse_elems (S fuel) s = Some ([v], rest).
Proof. intros H. simpl. rewrite H. reflexivity. Qed.

Lemma parse_elems_more (fuel : nat) (s : bytes) (v : json) (X : bytes) :
  parse_value fuel s = Some (v, "," :: X) ->
  parse_elems (S fuel) s = map_fst (cons v) (parse_elems fuel (skip_ws X)).
Proof. intros H. simpl. rewrite H. reflexivity. Qed.

Lemma parse_members_last (fuel : nat) (r r2 : bytes) (k : string) (v : json) (rest : bytes) :
  parse_string r = Some (k, ":" :: r2) ->
  parse_value fuel (skip_ws r2) = Some (v, "}" :: rest) ->
  parse_members (S fuel) (DQUOTE :: r) = Some ([(k, v)], rest).
Proof. intros H1 H2. simpl. rewrite H1. simpl. rewrite H2. reflexivity. Qed.

Lemma parse_members_more (fuel : nat) (r r2 : bytes) (k : string) (v : json) (X : bytes) :
  parse_string r = Some (k, ":" :: r2) ->
  parse_value fuel (skip_ws r2) = Some (v, "," :: X) ->
  parse_members (S fuel) (DQUOTE :: r)
  = map_fst (cons (k, v)) (parse_members fuel (skip_ws X)).
Proof. intros H1 H2. simpl. rewrite H1. simpl. rewrite H2. reflexivity. Qed.

Lemma join_cons2 (sep p q : bytes) (l : list bytes) :
  join sep (p :: q :: l) = p ++ sep ++ join sep (q :: l).
Proof. reflexivity. Qed.

Lemma join_head (sep : bytes) (p : bytes) (l : list bytes) (X : bytes) :
  exists Y, join sep (p :: l) ++ X = p ++ Y.
Proof.
  destruct l as [|q l].
  - exists X. reflexivity.
  - exists (sep ++ join sep (q :: l) ++ X). rewrite join_cons2, <- !app_assoc. reflexivity.
Qed.

Lemma parse_elems_join (l : list json) :
  l <> [] -> Forall parses_back l -> forallb wf_json l = true ->
  forall fuel rest, list_sum (map (fun x => S (jsize x)) l) <= fuel ->
    parse_elems fuel (join [","] (map dumps l) ++ "]" :: rest) = Some (l, rest).
Proof.
  induction l as [|v l IH]; [congruence|].
  intros _ Hall Hwf fuel rest Hfuel.
  inversion Hall as [|? ? Hv Hl]; subst.
  simpl in Hwf. apply andb_prop in Hwf as [Hwv Hwl].
  simpl in Hfuel. destruct fuel as [|fuel]; [lia|].
  destruct l as [|v' l'].
  - apply parse_elems_last. apply (Hv Hwv); [simpl in *; lia | reflexivity].
  - cbn [map]. rewrite join_cons2, <- !app_assoc.
    erewrite parse_elems_more
      by (apply (Hv Hwv); [simpl in *; lia | reflexivity]).
    destruct (join_head [","] (dumps v') (map dumps l') ("]" :: rest)) as (Y & EY).
    change (map dumps (v' :: l')) with (dumps v' :: map dumps l') in IH.
    rewrite EY, skip_ws_dumps, <- EY.
    rewrite IH; [reflexivity | congruence | exact Hl | exact Hwl | simpl in *; lia].
Qed.

Lemma member_text_eq (kv : string * json) (X : bytes) :
  member_text kv ++ X
  = DQUOTE :: escape_body (fst kv) ++ DQUOTE :: ":" :: dumps (snd kv) ++ X.
Proof. unfold member_text. cbn [app]. rewrite <- !app_assoc. reflexivity. Qed.

Lemma parse_members_join (m : list (string * json)) :
  m <> [] -> Forall (fun kv => parses_back (snd kv)) m ->
  forallb (fun kv => valid_str (fst kv) && wf_json (snd kv)) m = true ->
  forall fuel rest, list_sum (map (fun kv => S (jsize (snd kv))) m) <= fuel ->
    parse_members fuel (join [","] (map member_text m) ++ "}" :: rest) = Some (m, rest).
Proof.
  induction m as [|[k v] m IH]; [congruence|].
  intros _ Hall Hwf fuel rest Hfuel.
  inversion Hall as [|? ? Hv Hl]; subst. simpl in Hv.
  simpl in Hwf. apply andb_prop in Hwf as [Hwv Hwl].
  apply andb_prop in Hwv as [_ Hwv].
  simpl in Hfuel. destruct fuel as [|fuel]; [lia|].
  destruct m as [|kv' m'].
  - cbn [map join]. rewrite member_text_eq. cbn [fst snd].
    eapply parse_members_last.
    + apply parse_string_escape_body.
    + rewrite skip_ws_dumps. apply (Hv Hwv); [simpl in *; lia | reflexivity].
  - cbn [map]. rewrite join_cons2, <- !app_assoc, member_text_eq. cbn [fst snd].
    erewrite parse_members_more.
    2: apply parse_string_escape_body.
    2: { rewrite skip_ws_dumps. cbn [app].
         apply (Hv Hwv); [simpl in *; lia | reflexivity]. }
    destruct (join_head [","] (member_text kv') (map member_text m') ("}" :: rest))
      as (Y & EY).
    change (map member_text (kv' :: m')) with (member_text kv' :: map member_text m') in IH.
    assert (Hs : skip_ws (join [","] (member_text kv' :: map member_text m') ++ "}" :: rest)
                 = join [","] (member_text kv' :: map member_text m') ++ "}" :: rest).
    { rewrite EY, member_text_eq. reflexivity. }
    rewrite Hs.
    rewrite IH; [reflexivity | congruence | exact Hl | exact Hwl | simpl in *; lia].
Qed.

Lemma parse_value_arr (fuel : nat) (x : bytes) :
  parse_value (S fuel) ("[" :: x)
  = if startswith ["]"] (skip_ws x) then Some (JArr [], skipn 1 (skip_ws x))
    else map_fst JArr (parse_elems fuel (skip_ws x)).
Proof. reflexivity. Qed.

Lemma parse_value_obj (fuel : nat) (x : bytes) :
  parse_value (S fuel) ("{" :: x)
  = if startswith ["}"] (skip_ws x) then Some (JObj [], skipn 1 (skip_ws x))
    else map_fst (fun pairs => JObj (dict_of_pairs pairs))
           (parse_members fuel (skip_ws x)).
Proof. reflexivity. Qed.

Lemma parse_value_str (fuel : nat) (x : bytes) :
  parse_value (S fuel) (DQUOTE :: x) = map_fst JStr (parse_string x).
Proof. reflexivity. Qed.

Lemma value_start_not_close (c : ascii) :
  value_start c = true -> Ascii.eqb "]" c = false.
Proof.
  destruct c as [[] [] [] [] [] [] [] []]; intros H; try discriminate H; reflexivity.
Qed.

Lemma parse_back_all (v : json) : parses_back v.
Proof.
  induction v as [| b | z | s | l IHl | m IHm] using json_ind;
    unfold parses_back; intros Hwf fuel rest Hfuel Hrest;
    (destruct fuel as [|fuel]; [simpl in Hfuel; lia|]).
  - reflexivity.
  - destruct b; reflexivity.
  - destruct (str_int_head z) as (c & t & E & Hc).
    change (dumps (JInt z)) with (str_int z).
    pose proof (parse_number_str_int z rest Hrest) as H.
    rewrite E in *. cbn [app] in *. rewrite parse_value_number by exact Hc. exact H.
  - rewrite dumps_str. cbn [app]. rewrite <- app_assoc, parse_value_str.
    cbn [app]. rewrite parse_string_escape_body. reflexivity.
  - rewrite dumps_arr. cbn [app]. rewrite <- app_assoc. cbn [app].
    destruct l as [|v l]; [reflexivity|].
    rewrite parse_value_arr.
    destruct (join_head [","] (dumps v) (map dumps l) ("]" :: rest)) as (Y & EY).
    change (map dumps (v :: l)) with (dumps v :: map dumps l).
    rewrite EY, skip_ws_dumps.
    destruct (dumps_head v) as (c & t & E & Hc).
    assert (Hns : startswith ["]"] (dumps v ++ Y) = false).
    { rewrite E. cbn [app startswith].
      rewrite (value_start_not_close c Hc). reflexivity. }
    rewrite Hns, <- EY.
    rewrite (parse_elems_join (v :: l)); try congruence; try assumption.
    + reflexivity.
    + simpl in Hfuel. simpl. lia.
  - rewrite dumps_obj. cbn [app]. rewrite <- app_assoc. cbn [app].
    simpl in Hwf. apply andb_prop in Hwf as [Hnd Hwf].
    destruct m as [|kv m]; [reflexivity|].
    rewrite parse_value_obj.
    assert (Hs : skip_ws (join [","] (map member_text (kv :: m)) ++ "}" :: rest)
                 = join [","] (map member_text (kv :: m)) ++ "}" :: rest).
    { destruct (join_head [","] (member_text kv) (map member_text m) ("}" :: rest))
        as (Y & EY).
      cbn [map]. rewrite EY, member_text_eq. reflexivity. }
    assert (Hns : startswith ["}"] (join [","] (map member_text (kv :: m)) ++ "}" :: rest)
                  = false).
    { destruct (join_head [","] (member_text kv) (map member_text m) ("}" :: rest))
        as (Y & EY).
      cbn [map]. rewrite EY, member_text_eq. reflexivity. }
    rewrite Hs, Hns.
    rewrite (parse_members_join (kv :: m)); try congruence; try assumption.
    + simpl map_fst. rewrite dict_of_pairs_nodup by exact Hnd. reflexivity.
    + simpl in Hfuel. simpl. lia.
Qed.

(** No control characters in compact JSON text *)

Lemma forallb_impl {A} (p q : A -> bool) (l : list A) :
  (forall x, p x = true -> q x = true) -> forallb p l = true -> forallb q l = true.
Proof.
  intros H. induction l as [|x l IH]; simpl; [trivial|].
  intros E. apply andb_prop in E as [Hx Hl]. rewrite (H x Hx), (IH Hl). reflexivity.
Qed.

Lemma forallb_join (p : ascii -> bool) (sep : bytes) (parts : list bytes) :
  forallb p sep = true -> Forall (fun x => forallb p x = true) parts ->
  forallb p (join sep parts) = true.
Proof.
  intros Hsep Hall. induction Hall as [|x l Hx Hl IH]; [reflexivity|].
  destruct l as [|y l]; [exact Hx|].
  rewrite join_cons2, !forallb_app. apply andb_true_intro; split; [exact Hx|].
  apply andb_true_intro; split; [exact Hsep | exact IH].
Qed.

Lemma escape_char_printable (c : ascii) : forallb printable (escape_char c) = true.
Proof. destruct c as [[] [] [] [] [] [] [] []]; reflexivity. Qed.

Lemma escape_body_printable (s : string) : forallb printable (escape_body s) = true.
Proof.
  induction s as [|c s IH]; simpl; [reflexivity|].
  rewrite forallb_app, escape_char_printable, IH. reflexivity.
Qed.

Lemma digit_printable (c : ascii) : is_digit c = true -> printable c = true.
Proof. destruct c as [[] [] [] [] [] [] [] []]; intros H; try discriminate H; reflexivity. Qed.

Lemma str_int_printable (z : Z) : forallb printable (str_int z) = true.
Proof.
  destruct z as [|p|p]; [reflexivity| |];
    [rewrite str_int_pos | rewrite str_int_neg; simpl];
    apply (forallb_impl is_digit); auto using digit_printable, digits_of_uint_digits.
Qed.

Lemma dumps_printable (v : json) : forallb printable (dumps v) = true.
Proof.
  induction v as [| b | z | s | l IHl | m IHm] using json_ind.
  - reflexivity.
  - destruct b; reflexivity.
  - apply str_int_printable.
  - rewrite dumps_str. simpl. rewrite forallb_app, escape_body_printable. reflexivity.
  - rewrite dumps_arr. simpl. rewrite forallb_app, andb_true_r.
    apply forallb_join; [reflexivity|]. apply Forall_map. exact IHl.
  - rewrite dumps_obj. simpl. rewrite forallb_app, andb_true_r.
    apply forallb_join; [reflexivity|]. apply Forall_map.
    eapply Forall_impl; [|exact IHm]. intros [k v] Hv. simpl in *.
    rewrite !forallb_app. cbn [forallb].
    rewrite escape_body_printable, Hv. reflexivity.
Qed.

(** Fuel: the text is at least as long as the value is large *)

Lemma join_length_bound (f : json -> nat) (g : json -> bytes) (l : list json) :
  Forall (fun x => f x <= List.length (g x)) l ->
  list_sum (map (fun x => S (f x)) l) <= S (List.length (join [","] (map g l))).
Proof.
  induction 1 as [|x l Hx Hl IH]; simpl; [lia|].
  destruct l as [|y l]; simpl in *; [lia|].
  rewrite !length_app in *. simpl in *. lia.
Qed.

Lemma members_length_bound (f : json -> nat) (g : string * json -> bytes)
  (m : list (string * json)) :
  Forall (fun kv => f (snd kv) <= List.length (g kv)) m ->
  list_sum (map (fun kv => S (f (snd kv))) m) <= S (List.length (join [","] (map g m))).
Proof.
  induction 1 as [|x l Hx Hl IH]; simpl; [lia|].
  destruct l as [|y l]; simpl in *; [lia|].
  rewrite !length_app in *. simpl in *. lia.
Qed.

Lemma jsize_le_length (v : json) : jsize v <= List.length (dumps v).
Proof.
  induction v as [| b | z | s | l IHl | m IHm] using json_ind.
  - simpl. lia.
  - destruct b; simpl; lia.
  - destruct (str_int_head z) as (c & t & E & _).
    change (dumps (JInt z)) with (str_int z). rewrite E. simpl. lia.
  - rewrite dumps_str. simpl. lia.
  - rewrite dumps_arr. simpl. rewrite length_app. simpl.
    pose proof (join_length_bound jsize dumps l IHl). lia.
  - rewrite dumps_obj. simpl. rewrite length_app. simpl.
    assert (H : Forall (fun kv => jsize (snd kv) <= List.length (member_text kv)) m).
    { eapply Forall_impl; [|exact IHm]. intros [k v] Hv. simpl in *.
      unfold member_text. simpl. rewrite !length_app. simpl. lia. }
    pose proof (members_length_bound jsize member_text m H). lia.
Qed.

Lemma loads_dumps (v : json) : wf_json v = true -> loads (dumps v) = Some v.
Proof.
  intros Hwf. unfold loads.
  pose proof (skip_ws_dumps v []) as Hs. rewrite app_nil_r in Hs. rewrite Hs.
  pose proof (parse_back_all v Hwf (S (List.length (dumps v))) []) as H.
  rewrite app_nil_r in H. rewrite H; [reflexivity | | reflexivity].
  pose proof (jsize_le_length v). lia.
Qed.

(** UTF-8 validity of the serialized text *)

Lemma utf8_step_ascii (st : utf8_state) (c : ascii) :
  is_ascii7 c = true ->
  utf8_step st c = match st with U0 => Some U0 | _ => None end.
Proof.
  destruct c as [[] [] [] [] [] [] [] []]; intros H; try discriminate H;
    destruct st; reflexivity.
Qed.

Lemma utf8_run_ascii (a X : bytes) :
  forallb is_ascii7 a = true -> utf8_run U0 (a ++ X) = utf8_run U0 X.
Proof.
  induction a as [|c a IH]; cbn [app utf8_run forallb]; [reflexivity|].
  intros H. apply andb_prop in H as [Hc Ha].
  rewrite (utf8_step_ascii U0 c Hc). apply IH, Ha.
Qed.

Lemma utf8_run_ascii_stuck (st : utf8_state) (a X : bytes) :
  st <> U0 -> a <> [] -> forallb is_ascii7 a = true -> utf8_run st (a ++ X) = None.
Proof.
  intros Hst Ha H. destruct a as [|c a]; [congruence|].
  cbn [app utf8_run forallb] in *.
  apply andb_prop in H as [Hc _]. rewrite (utf8_step_ascii st c Hc).
  destruct st; congruence.
Qed.

Lemma escape_char_cases (c : ascii) :
  (is_ascii7 c = true /\ escape_char c <> [] /\ forallb is_ascii7 (escape_char c) = true)
  \/ (is_ascii7 c = false /\ escape_char c = [c]).
Proof.
  destruct c as [[] [] [] [] [] [] [] []];
    first [ right; split; reflexivity
          | left; split; [reflexivity | split; [discriminate | reflexivity]] ].
Qed.

Lemma utf8_run_escape_body (s : string) (st : utf8_state) (X : bytes) :
  utf8_run st (escape_body s ++ X)
  = match utf8_run st (list_ascii_of_string s) with
    | Some st' => utf8_run st' X
    | None => None
    end.
Proof.
  revert st. induction s as [|c s IH]; intros st; [reflexivity|].
  cbn [escape_body list_ascii_of_string]. rewrite <- app_assoc.
  destruct (escape_char_cases c) as [(Hc & Hne & Ha) | (Hc & E)].
  - cbn [utf8_run]. rewrite (utf8_step_ascii st c Hc).
    destruct st; try (apply utf8_run_ascii_stuck; [discriminate | exact Hne | exact Ha]).
    rewrite utf8_run_ascii by exact Ha. apply IH.
  - rewrite E. cbn [app utf8_run]. destruct (utf8_step st c); [apply IH | reflexivity].
Qed.

Lemma digit_ascii7 (c : ascii) : is_digit c = true -> is_ascii7 c = true.
Proof. destruct c as [[] [] [] [] [] [] [] []]; intros H; try discriminate H; reflexivity. Qed.

Lemma str_int_ascii7 (z : Z) : forallb is_ascii7 (str_int z) = true.
Proof.
  destruct z as [|p|p]; [reflexivity| |];
    [rewrite str_int_pos | rewrite str_int_neg; simpl];
    apply (forallb_impl is_digit); auto using digit_ascii7, digits_of_uint_digits.
Qed.

Lemma passes_app (a b : bytes) : passes a -> passes b -> passes (a ++ b).
Proof. intros Ha Hb X. rewrite <- app_assoc, Ha, Hb. reflexivity. Qed.

Lemma passes_ascii (a : bytes) : forallb is_ascii7 a = true -> passes a.
Proof. intros H X. apply utf8_run_ascii, H. Qed.

Lemma passes_join (sep : bytes) (parts : list bytes) :
  passes sep -> Forall passes parts -> passes (join sep parts).
Proof.
  intros Hsep Hall. induction Hall as [|x l Hx Hl IH]; [intros X; reflexivity|].
  destruct l as [|y l]; [exact Hx|].
  rewrite join_cons2. auto using passes_app.
Qed.

Lemma passes_string (s : string) :
  valid_str s = true -> passes (DQUOTE :: escape_body s ++ [DQUOTE]).
Proof.
  intros H. change (DQUOTE :: escape_body s ++ [DQUOTE])
    with ([DQUOTE] ++ escape_body s ++ [DQUOTE]).
  apply passes_app; [apply passes_ascii; reflexivity|].
  apply passes_app; [|apply passes_ascii; reflexivity].
  intros X. rewrite utf8_run_escape_body.
  unfold valid_str, utf8_valid in H.
  destruct (utf8_run U0 (list_ascii_of_string s)) as [[]|]; try discriminate H.
  reflexivity.
Qed.

Lemma dumps_passes (v : json) : wf_json v = true -> passes (dumps v).
Proof.
  induction v as [| b | z | s | l IHl | m IHm] using json_ind; intros Hwf.
  - apply passes_ascii. reflexivity.
  - apply passes_ascii. destruct b; reflexivity.
  - apply passes_ascii, str_int_ascii7.
  - rewrite dumps_str. apply passes_string, Hwf.
  - rewrite dumps_arr. change ("[" :: ?x) with (["["] ++ x).
    apply passes_app; [apply passes_ascii; reflexivity|].
    apply passes_app; [|apply passes_ascii; reflexivity].
    apply passes_join; [apply passes_ascii; reflexivity|].
    apply Forall_map. simpl in Hwf. rewrite forallb_forall in Hwf.
    rewrite Forall_forall in *. intros x Hx. apply IHl; auto.
  - rewrite dumps_obj. change ("{" :: ?x) with (["{"] ++ x).
    apply passes_app; [apply passes_ascii; reflexivity|].
    apply passes_app; [|apply passes_ascii; reflexivity].
    apply passes_join; [apply passes_ascii; reflexivity|].
    apply Forall_map. simpl in Hwf. apply andb_prop in Hwf as [_ Hwf].
    rewrite forallb_forall in Hwf.
    rewrite Forall_forall in *. intros [k x] Hx.
    specialize (Hwf _ Hx). apply andb_prop in Hwf as [Hk Hv].
    unfold member_text. cbn [fst snd] in *.
    apply passes_app; [apply passes_string, Hk|].
    apply passes_app; [apply passes_ascii; reflexivity|].
    apply (IHm _ Hx), Hv.
Qed.

Lemma dumps_utf8_valid (v : json) : wf_json v = true -> utf8_valid (dumps v) = true.
Proof.
  intros H. unfold utf8_valid.
  pose proof (dumps_passes v H []) as P. rewrite app_nil_r in P. rewrite P. reflexivity.
Qed.

(** ** Byte-string searches *)

Lemma startswith_app (p X : bytes) : startswith p (p ++ X) = true.
Proof.
  induction p as [|c p IH]; simpl; [reflexivity|]. rewrite Ascii.eqb_refl. exact IH.
Qed.

Lemma find_cons_miss (c0 : ascii) (s : bytes) (c : ascii) (b : bytes) :
  Ascii.eqb c0 c = false -> find (c0 :: s) (c :: b) = option_map S (find (c0 :: s) b).
Proof. intros H. cbn [find startswith]. rewrite H. reflexivity. Qed.

Lemma find_unfold (sub b : bytes) :
  find sub b
  = if startswith sub b then Some 0
    else match b with
         | [] => None
         | _ :: b' => option_map S (find sub b')
         end.
Proof. destruct b; reflexivity. Qed.

Lemma find_hit (sub X : bytes) : find sub (sub ++ X) = Some 0.
Proof. rewrite find_unfold, startswith_app. reflexivity. Qed.

(** The first occurrence lies right after a prefix that avoids the first
    byte of the pattern. *)
Lemma find_after (c0 : ascii) (s pre X : bytes) :
  forallb (fun c => negb (Ascii.eqb c0 c)) pre = true ->
  find (c0 :: s) (pre ++ (c0 :: s) ++ X) = Some (List.length pre).
Proof.
  induction pre as [|c pre IH]; intros H.
  - apply (find_hit (c0 :: s)).
  - cbn [forallb] in H. apply andb_prop in H as [Hc Hp]. apply negb_true_iff in Hc.
    rewrite <- app_comm_cons, find_cons_miss by exact Hc. rewrite (IH Hp). reflexivity.
Qed.

Lemma find_none (c0 : ascii) (s b : bytes) :
  forallb (fun c => negb (Ascii.eqb c0 c)) b = true -> find (c0 :: s) b = None.
Proof.
  induction b as [|c b IH]; intros H; [reflexivity|].
  cbn [forallb] in H. apply andb_prop in H as [Hc Hp]. apply negb_true_iff in Hc.
  rewrite find_cons_miss by exact Hc. rewrite (IH Hp). reflexivity.
Qed.

Lemma find_some_bound (sub b : bytes) (i : nat) :
  find sub b = Some i -> i <= List.length b.
Proof.
  revert i. induction b as [|c b IH]; intros i.
  - cbn [find]. destruct (startswith sub []); intros H; inversion H; simpl; lia.
  - cbn [find]. destruct (startswith sub (c :: b)).
    + intros H. inversion H. lia.
    + destruct (find sub b) as [j|]; intros H; inversion H. specialize (IH j eq_refl).
      simpl. lia.
Qed.

Lemma slice_prefix (a X : bytes) : slice (a ++ X) 0 (List.length a) = a.
Proof.
  unfold slice. rewrite Nat.sub_0_r. cbn [skipn].
  rewrite firstn_app, Nat.sub_diag, firstn_all. cbn [firstn]. apply app_nil_r.
Qed.

Lemma slice_middle (a b X : bytes) :
  slice (a ++ b ++ X) (List.length a) (List.length a + List.length b) = b.
Proof.
  unfold slice. replace (List.length a + List.length b - List.length a) with (List.length b) by lia.
  rewrite skipn_app, skipn_all, Nat.sub_diag. cbn [skipn app].
  rewrite firstn_app, Nat.sub_diag, firstn_all. cbn [firstn]. apply app_nil_r.
Qed.

Lemma lstrip_by_id (p : ascii -> bool) (b : bytes) :
  match b with c :: _ => p c = false | [] => True end -> lstrip_by p b = b.
Proof. destruct b as [|c b]; simpl; [reflexivity|]. intros H. rewrite H. reflexivity. Qed.

Lemma last_not (p : ascii -> bool) (b : bytes) :
  forallb (fun c => negb (p c)) b = true ->
  match rev b with c :: _ => p c = false | [] => True end.
Proof.
  intros H. destruct (rev b) as [|c r] eqn:E; [trivial|].
  rewrite forallb_forall in H. apply negb_true_iff, H.
  apply in_rev. rewrite E. left. reflexivity.
Qed.

Lemma rstrip_by_id (p : ascii -> bool) (b : bytes) :
  forallb (fun c => negb (p c)) b = true -> rstrip_by p b = b.
Proof.
  intros H. unfold rstrip_by. rewrite lstrip_by_id by (apply last_not, H).
  apply rev_involutive.
Qed.

Lemma rstrip_crlf_line (line : bytes) :
  forallb (fun c => negb (is_crlf c)) line = true -> rstrip_crlf (line ++ [LF]) = line.
Proof.
  intros H. unfold rstrip_crlf, rstrip_by. rewrite rev_app_distr. cbn [rev app lstrip_by].
  change (is_crlf LF) with true. cbv iota.
  rewrite lstrip_by_id by (apply last_not, H). apply rev_involutive.
Qed.

Lemma printable_not_lf (b : bytes) :
  forallb printable b = true -> forallb (fun c => negb (Ascii.eqb LF c)) b = true.
Proof.
  apply forallb_impl. intros c.
  destruct c as [[] [] [] [] [] [] [] []]; intros H; try discriminate H; reflexivity.
Qed.

Lemma printable_not_cr (b : bytes) :
  forallb printable b = true -> forallb (fun c => negb (Ascii.eqb CR c)) b = true.
Proof.
  apply forallb_impl. intros c.
  destruct c as [[] [] [] [] [] [] [] []]; intros H; try discriminate H; reflexivity.
Qed.

Lemma printable_not_crlf (b : bytes) :
  forallb printable b = true -> forallb (fun c => negb (is_crlf c)) b = true.
Proof.
  apply forallb_impl. intros c.
  destruct c as [[] [] [] [] [] [] [] []]; intros H; try discriminate H; reflexivity.
Qed.

(** ** The ndjson rule *)

Lemma try_parse_ndjson_line (line trail : bytes) :
  forallb (fun c => negb (Ascii.eqb LF c)) line = true ->
  Debugger.try_parse_ndjson (line ++ LF :: trail)
  = Some (rstrip_crlf (line ++ [LF]), List.length line + 1).
Proof.
  intros H. unfold Debugger.try_parse_ndjson.
  change (line ++ LF :: trail) with (line ++ [LF] ++ trail).
  rewrite (find_after LF [] line trail H), app_assoc.
  replace (List.length line + 1) with (List.length (line ++ [LF]))
    by (rewrite length_app; reflexivity).
  rewrite slice_prefix. reflexivity.
Qed.

Lemma try_parse_ndjson_incomplete (b : bytes) :
  forallb (fun c => negb (Ascii.eqb LF c)) b = true -> Debugger.try_parse_ndjson b = None.
Proof. intros H. unfold Debugger.try_parse_ndjson. rewrite (find_none LF [] b H). reflexivity. Qed.

Lemma try_parse_ndjson_frame (v : json) (trail : bytes) :
  Debugger.try_parse_ndjson (Server.ndjson_frame v ++ trail)
  = Some (dumps v, List.length (Server.ndjson_frame v)).
Proof.
  unfold Server.ndjson_frame. rewrite <- app_assoc. cbn [app].
  rewrite try_parse_ndjson_line by (apply printable_not_lf, dumps_printable).
  rewrite rstrip_crlf_line by (apply printable_not_crlf, dumps_printable).
  rewrite length_app. reflexivity.
Qed.

(** ** The lsp rule *)

Lemma bytes_eqb_refl (a : bytes) : bytes_eqb a a = true.
Proof. unfold bytes_eqb. destruct (list_eq_dec ascii_dec a a); congruence. Qed.

Lemma bytes_eqb_eq (a b : bytes) : bytes_eqb a b = true <-> a = b.
Proof.
  unfold bytes_eqb. destruct (list_eq_dec ascii_dec a b); split; congruence.
Qed.

Lemma split_crlf_acc_line (pre cur Y : bytes) :
  forallb (fun c => negb (Ascii.eqb CR c)) pre = true ->
  split_crlf_acc cur (pre ++ CR :: LF :: Y) = (rev cur ++ pre) :: split_crlf_acc [] Y.
Proof.
  revert cur. induction pre as [|c pre IH]; intros cur H.
  - rewrite app_nil_r. reflexivity.
  - cbn [forallb] in H. apply andb_prop in H as [Hc Hp]. apply negb_true_iff in Hc.
    rewrite Ascii.eqb_sym in Hc.
    assert (E : split_crlf_acc cur ((c :: pre) ++ CR :: LF :: Y)
                = split_crlf_acc (c :: cur) (pre ++ CR :: LF :: Y)).
    { destruct pre as [|d pre]; cbn [app split_crlf_acc]; rewrite Hc; reflexivity. }
    rewrite E, (IH (c :: cur) Hp). cbn [rev]. rewrite <- app_assoc. reflexivity.
Qed.

(** The decimal text of a positive length. *)
Lemma str_nat_digits (n : nat) :
  0 < n ->
  exists c t, str_nat n = c :: t /\ forallb is_digit (str_nat n) = true
              /\ Z_of_digits (str_nat n) = Some (Z.of_nat n).
Proof.
  intros Hn. unfold str_nat.
  destruct (Z.of_nat n) as [|p|p] eqn:E; try lia.
  rewrite str_int_pos.
  destruct (digits_of_pos_head p) as (c & t & Ec & _).
  exists c, t. split; [exact Ec|]. split; [apply digits_of_uint_digits|].
  rewrite Z_of_digits_of_uint, Z_of_uint_pos. reflexivity.
Qed.

Lemma digit_not_space (b : bytes) :
  forallb is_digit b = true -> forallb (fun c => negb (is_space c)) b = true.
Proof.
  apply forallb_impl. intros c.
  destruct c as [[] [] [] [] [] [] [] []]; intros H; try discriminate H; reflexivity.
Qed.

Lemma digit_not_cr (b : bytes) :
  forallb is_digit b = true -> forallb (fun c => negb (Ascii.eqb CR c)) b = true.
Proof.
  apply forallb_impl. intros c.
  destruct c as [[] [] [] [] [] [] [] []]; intros H; try discriminate H; reflexivity.
Qed.

Lemma digit_not_sign (c : ascii) :
  is_digit c = true -> Ascii.eqb c "-" = false /\ Ascii.eqb c "+" = false.
Proof. destruct c as [[] [] [] [] [] [] [] []]; intros H; try discriminate H; split; reflexivity. Qed.

Lemma strip_digits (ds : bytes) : forallb is_digit ds = true -> strip ds = ds.
Proof.
  intros H. unfold strip, rstrip, lstrip.
  assert (Hl : lstrip_by is_space ds = ds).
  { apply lstrip_by_id. destruct ds as [|c t]; [trivial|].
    cbn [forallb] in H. apply andb_prop in H as [Hc _].
    pose proof (digit_not_space [c]) as D. cbn [forallb] in D.
    rewrite Hc in D. specialize (D eq_refl). rewrite andb_true_r in D.
    apply negb_true_iff, D. }
  rewrite Hl. apply rstrip_by_id, digit_not_space, H.
Qed.

Lemma int_digits_all (ds : bytes) (after : bool) :
  forallb is_digit ds = true -> (ds <> [] \/ after = true) ->
  int_digits after ds = Some ds.
Proof.
  revert after. induction ds as [|c ds IH]; intros after H Hne.
  - destruct Hne as [Hne|Hne]; [congruence | rewrite Hne; reflexivity].
  - cbn [forallb] in H. apply andb_prop in H as [Hc Hd].
    cbn [int_digits]. rewrite Hc, (IH true Hd) by (right; reflexivity). reflexivity.
Qed.

Lemma py_int_digits (ds : bytes) (z : Z) :
  ds <> [] -> forallb is_digit ds = true -> Z_of_digits ds = Some z -> py_int ds = Some z.
Proof.
  intros Hne H Hz. unfold py_int. rewrite (strip_digits ds H).
  destruct ds as [|c t]; [congruence|].
  pose proof H as H'. cbn [forallb] in H'. apply andb_prop in H' as [Hc _].
  destruct (digit_not_sign c Hc) as [Hm Hp]. rewrite Hm, Hp.
  rewrite int_digits_all by (auto; left; congruence). rewrite Hz. reflexivity.
Qed.

Lemma content_length_line_no_cr (n : nat) :
  0 < n -> forallb (fun c => negb (Ascii.eqb CR c)) (content_length_line n) = true.
Proof.
  intros Hn. destruct (str_nat_digits n Hn) as (c & t & _ & Hd & _).
  unfold content_length_line. rewrite forallb_app. rewrite (digit_not_cr _ Hd). reflexivity.
Qed.

Lemma parse_content_length_line (n : nat) :
  0 < n ->
  Debugger.parse_header_lines (split_crlf (content_length_line n ++ CRLFCRLF)) []
  = [(B "content-length", str_nat n)].
Proof.
  intros Hn. unfold split_crlf.
  change CRLFCRLF with (CR :: LF :: [CR; LF]).
  rewrite split_crlf_acc_line by (apply content_length_line_no_cr, Hn).
  change (split_crlf_acc [] [CR; LF]) with [@nil ascii; @nil ascii].
  destruct (str_nat_digits n Hn) as (c & t & E & Hd & _).
  unfold content_length_line. cbn [rev app].
  change (B "Content-Length: ") with (B "Content-Length" ++ [":"; " "]).
  rewrite <- app_assoc.
  assert (Hs : split_once ":" (B "Content-Length" ++ [":"; " "] ++ str_nat n)
               = Some (B "Content-Length", " " :: str_nat n)) by reflexivity.
  change (Debugger.parse_header_lines
            [B "Content-Length" ++ [":"; " "] ++ str_nat n; []; []] [])
    with (match split_once ":" (B "Content-Length" ++ [":"; " "] ++ str_nat n) with
          | Some (k, v) => Debugger.parse_header_lines [[]; []]
                             (header_set (lower (strip k)) (strip v) [])
          | None => Debugger.parse_header_lines [[]; []] []
          end).
  rewrite Hs. cbn [Debugger.parse_header_lines header_set].
  change (lower (strip (B "Content-Length"))) with (B "content-length").
  assert (Hv : strip (" " :: str_nat n) = str_nat n).
  { unfold strip, lstrip. change (lstrip_by is_space (" " :: str_nat n))
      with (lstrip_by is_space (str_nat n)).
    apply (strip_digits _ Hd). }
  rewrite Hv. reflexivity.
Qed.

Lemma find_crlfcrlf (pre X : bytes) :
  forallb (fun c => negb (Ascii.eqb CR c)) pre = true ->
  find CRLFCRLF (pre ++ CRLFCRLF ++ X) = Some (List.length pre).
Proof. apply (find_after CR [LF; CR; LF]). Qed.

Lemma content_length_of_line (n : nat) :
  0 < n ->
  Debugger.content_length
    (header_get (B "content-length")
       (Debugger.parse_header_lines (split_crlf (content_length_line n ++ CRLFCRLF)) []))
  = Z.of_nat n.
Proof.
  intros Hn. rewrite (parse_content_length_line n Hn).
  cbn [header_get]. rewrite bytes_eqb_refl.
  unfold Debugger.content_length.
  destruct (str_nat_digits n Hn) as (c & t & E & Hd & Hz).
  rewrite (py_int_digits (str_nat n) (Z.of_nat n)) by (try congruence; assumption).
  reflexivity.
Qed.

Lemma try_parse_lsp_envelope (body trail : bytes) :
  body <> [] ->
  Debugger.try_parse_lsp
    ((content_length_line (List.length body) ++ CRLFCRLF ++ body) ++ trail)
  = Some (body, List.length (content_length_line (List.length body) ++ CRLFCRLF ++ body)).
Proof.
  intros Hne.
  assert (Hn : 0 < List.length body) by (destruct body; [congruence | simpl; lia]).
  unfold Debugger.try_parse_lsp.
  rewrite <- !app_assoc.
  rewrite (find_crlfcrlf (content_length_line (List.length body)) (body ++ trail))
    by (apply content_length_line_no_cr, Hn).
  replace (List.length (content_length_line (List.length body)) + 4)
    with (List.length (content_length_line (List.length body) ++ CRLFCRLF))
    by (rewrite length_app; reflexivity).
  rewrite (app_assoc (content_length_line (List.length body)) CRLFCRLF), slice_prefix.
  rewrite (content_length_of_line _ Hn).
  destruct (Z.of_nat (List.length body) <=? 0)%Z eqn:Ez; [apply Z.leb_le in Ez; lia|].
  rewrite Nat2Z.id.
  destruct (List.length ((content_length_line (List.length body) ++ CRLFCRLF)
                           ++ body ++ trail)
            <? List.length (content_length_line (List.length body) ++ CRLFCRLF)
               + List.length body)%nat eqn:El.
  { apply Nat.ltb_lt in El. rewrite !length_app in El. lia. }
  rewrite slice_middle. rewrite !length_app. 
  f_equal. f_equal. simpl. lia.
Qed.

Lemma dumps_nonempty (v : json) : dumps v <> [].
Proof. destruct (dumps_head v) as (c & t & E & _). rewrite E. discriminate. Qed.

Lemma lsp_frame_eq (v : json) :
  Server.lsp_frame v
  = content_length_line (List.length (dumps v)) ++ CRLFCRLF ++ dumps v.
Proof. unfold Server.lsp_frame, content_length_line. rewrite <- !app_assoc. reflexivity. Qed.

Lemma try_parse_lsp_frame (v : json) (trail : bytes) :
  Debugger.try_parse_lsp (Server.lsp_frame v ++ trail)
  = Some (dumps v, List.length (Server.lsp_frame v)).
Proof. rewrite lsp_frame_eq. apply try_parse_lsp_envelope, dumps_nonempty. Qed.

(** * The claims about framing *)

Lemma json_of_bytes_dumps (v : json) : wf_json v = true -> json_of_bytes (dumps v) = Some v.
Proof.
  intros H. unfold json_of_bytes, decode_utf8.
  rewrite (dumps_utf8_valid v H). apply loads_dumps, H.
Qed.

Lemma try_parse_encode (f : framing) (v : json) (trail : bytes) :
  try_parse f (encode f v ++ trail) = Some (dumps v, List.length (encode f v)).
Proof.
  destruct f; [apply try_parse_ndjson_frame | apply try_parse_lsp_frame].
Qed.

(** C6. The ndjson rule: on one ndjson-encoded message followed by any
    trailing bytes it yields the message's text, which decodes to the
    message, and a consumed count equal to the length of the encoding with
    its newline; on a buffer without a newline it reports incomplete. *)
Theorem C6_ndjson_rule (v : json) (trail b : bytes) :
  wf_json v = true -> contains [LF] b = false ->
  Debugger.try_parse_ndjson (encode ndjson v ++ trail)
  = Some (dumps v, List.length (dumps v) + 1)
  /\ List.length (encode ndjson v) = List.length (dumps v) + 1
  /\ decode ndjson (encode ndjson v ++ trail) = Some v
  /\ Debugger.try_parse_ndjson b = None.
Proof.
  intros Hwf Hb.
  assert (Hlen : List.length (encode ndjson v) = List.length (dumps v) + 1).
  { unfold encode, Server.ndjson_frame. rewrite length_app. reflexivity. }
  pose proof (try_parse_encode ndjson v trail) as E. cbn [try_parse] in E.
  rewrite Hlen in E. repeat split.
  - exact E.
  - exact Hlen.
  - unfold decode. cbn [try_parse]. rewrite E. apply json_of_bytes_dumps, Hwf.
  - unfold Debugger.try_parse_ndjson. unfold contains in Hb.
    destruct (find [LF] b); [discriminate Hb | reflexivity].
Qed.

Lemma C6_ndjson_rule_witness :
  wf_json sample_message = true /\ contains [LF] (Q "{'jsonrpc':'2.0','id'") = false
  /\ Debugger.try_parse_ndjson (encode ndjson sample_message ++ Q "{'next':")
     = Some (dumps sample_message, List.length (dumps sample_message) + 1)
  /\ Debugger.try_parse_ndjson (Q "{'jsonrpc':'2.0','id'") = None.
Proof.
  split; [reflexivity|]. split; [reflexivity|].
  pose proof (C6_ndjson_rule sample_message (Q "{'next':") (Q "{'jsonrpc':'2.0','id'")
                eq_refl eq_refl) as (H1 & _ & _ & H4).
  split; [exact H1 | exact H4].
Defined.

(** * The claims about the proxy pump *)

Lemma pump_step_dst (prefix : string) (data : ascii) (st : Debugger.pump_state) :
  Debugger.dst (Debugger.pump_step prefix data st) = Debugger.dst st ++ [data]
  /\ Debugger.tap (Debugger.pump_step prefix data st) = Debugger.tap st ++ [data].
Proof.
  unfold Debugger.pump_step.
  destruct (Debugger.sniff_and_summarize prefix (Debugger.buf st ++ [data])) as [logs1 c1].
  destruct (Debugger.if_consumed c1) as [n|]; [|split; reflexivity].
  destruct (Debugger.sniff_and_summarize prefix (skipn n (Debugger.buf st ++ [data])))
    as [logs2 c2].
  destruct (Debugger.if_consumed c2); split; reflexivity.
Qed.

Lemma pump_loop_forwards (prefix : string) (src : bytes) (st : Debugger.pump_state) :
  Debugger.dst (Debugger.pump_loop prefix src st) = Debugger.dst st ++ src
  /\ Debugger.tap (Debugger.pump_loop prefix src st) = Debugger.tap st ++ src.
Proof.
  revert st. induction src as [|c src IH]; intros st; cbn [Debugger.pump_loop].
  - rewrite !app_nil_r. split; reflexivity.
  - destruct (IH (Debugger.pump_step prefix c st)) as [Hd Ht].
    destruct (pump_step_dst prefix c st) as [Hd1 Ht1].
    rewrite Hd, Ht, Hd1, Ht1, <- !app_assoc. split; reflexivity.
Qed.

Lemma pump_loop_app (prefix : string) (a b : bytes) (st : Debugger.pump_state) :
  Debugger.pump_loop prefix (a ++ b) st
  = Debugger.pump_loop prefix b (Debugger.pump_loop prefix a st).
Proof.
  revert st. induction a as [|c a IH]; intros st; [reflexivity|].
  cbn [app Debugger.pump_loop]. apply IH.
Qed.

(** C7. Whatever bytes the source delivers, one at a time, and whatever
    the summarization finds in them: the destination receives exactly
    those bytes in order, the tap file holds exactly the bytes the
    destination received, and the same holds after every prefix [a] of the
    input [a ++ b], the rest being forwarded from there. *)
Theorem C7_pump_forwards (prefix : string) (a b dst0 : bytes) :
  Debugger.dst (Debugger.pump (a ++ b) dst0 prefix) = dst0 ++ a ++ b
  /\ Debugger.tap (Debugger.pump (a ++ b) dst0 prefix) = a ++ b
  /\ Debugger.dst (Debugger.pump (a ++ b) [] prefix)
     = Debugger.tap (Debugger.pump (a ++ b) [] prefix)
  /\ Debugger.dst (Debugger.pump a dst0 prefix) = dst0 ++ a
  /\ Debugger.tap (Debugger.pump a dst0 prefix) = a
  /\ Debugger.pump (a ++ b) dst0 prefix
     = Debugger.pump_loop prefix b (Debugger.pump a dst0 prefix).
Proof.
  unfold Debugger.pump.
  split; [apply pump_loop_forwards|]. split; [apply pump_loop_forwards|].
  split.
  { destruct (pump_loop_forwards prefix (a ++ b)
                {| Debugger.dst := []; Debugger.tap := []; Debugger.buf := [];
                   Debugger.log := [] |}) as [Hd Ht].
    rewrite Hd, Ht. reflexivity. }
  split; [apply pump_loop_forwards|]. split; [apply pump_loop_forwards|].
  apply pump_loop_app.
Qed.

Example pump_300_bytes :
  List.length message_300 = 300
  /\ Debugger.dst (Debugger.pump message_300 [] "C2S") = message_300
  /\ Debugger.tap (Debugger.pump message_300 [] "C2S")
     = Debugger.dst (Debugger.pump message_300 [] "C2S").
Proof.
  split; [reflexivity|]. unfold Debugger.pump.
  destruct (pump_loop_forwards "C2S" message_300
              {| Debugger.dst := []; Debugger.tap := []; Debugger.buf := [];
                 Debugger.log := [] |}) as [Hd Ht].
  rewrite Hd, Ht. split; reflexivity.
Qed.

Section ServerClaims.
Variable world : Type.
Variable UPNOTE_OK : bool.
Variable UpNoteClient : option (Server.client_class world).

Implicit Types st : Server.state world.

Lemma wrote_refl st : wrote st st [].
Proof. unfold wrote. cbn [map List.concat]. rewrite app_nil_r. auto. Qed.

Lemma write_message_wrote (payload : json) st :
  wrote st (Server.write_message payload st) [payload].
Proof.
  unfold wrote, Server.write_message, Server._write_lsp, Server._write_ndjson, frame.
  cbn [map List.concat]. rewrite app_nil_r.
  destruct (Server.TRANSPORT_MODE st) as [[]|] eqn:E; cbn; rewrite ?E; auto.
Qed.

Lemma same_transport_wrote st st1 st' (replies : list json) :
  same_transport st st1 -> wrote st1 st' replies -> wrote st st' replies.
Proof.
  intros (Ho & Hm & Hi) (Ho' & Hm' & Hi'). unfold wrote.
  rewrite Ho', Hm', Hi', Ho, Hm, Hi. auto.
Qed.

Lemma call_tool_transport (params : json) st :
  same_transport st (snd (Server.call_tool UPNOTE_OK UpNoteClient params st)).
Proof.
  unfold Server.call_tool, same_transport.
  destruct (Server.py_get params "name" JNull) as [name|e]; [|cbn; auto].
  destruct (Server.py_get params "arguments" (JObj [])) as [a|e]; [|cbn; auto].
  destruct (if UPNOTE_OK then UpNoteClient else None) as [cls|]; [|cbn; auto].
  cbn [Server.env Server.add_log].
  destruct (Server.new_client cls (Server.env st)) as [[u|e] w]; [|cbn; auto].
  destruct name as [| | |n| |]; try (cbn; auto; fail).
  destruct (mem_string n Server.dispatched_tools); [|cbn; auto].
  destruct (if truthy a then a else JObj []) as [| | | | |kwargs]; try (cbn; auto; fail).
  cbn [Server.env Server.set_env].
  destruct (Server.call_method cls n kwargs w) as [[res|e] w']; cbn; auto.
Qed.

Lemma on_exception_wrote (req_id : json) (e : string) st :
  wrote st (Server.on_exception req_id e st)
    [Server.error_reply req_id Server.INTERNAL_ERROR ("Internal error: " ++ e)].
Proof.
  unfold Server.on_exception, Server.write_error.
  eapply same_transport_wrote; [|apply write_message_wrote].
  unfold same_transport. cbn. auto.
Qed.

(** The reply a request gets, in every branch of the dispatch chain. *)
Lemma handle_request_one_reply (req : list (string * json)) (req_id : json) st :
  exists reply,
    wrote st (snd (Server.handle_request UPNOTE_OK UpNoteClient req req_id st))
      [JObj reply]
    /\ dict_get "id" reply = Some req_id.
Proof.
  unfold Server.handle_request.
  destruct (Server.method_is (dict_get "method" req) "initialize").
  { destruct (Server.resp_initialize (Server.params_of req)) as [result|e]; cbn [snd].
    - eexists. split; [apply write_message_wrote | reflexivity].
    - eexists. split; [apply on_exception_wrote | reflexivity]. }
  destruct (Server.method_is (dict_get "method" req) "tools/list").
  { eexists. split; [apply write_message_wrote | reflexivity]. }
  destruct (Server.method_is (dict_get "method" req) "tools/call").
  { pose proof (call_tool_transport (Server.params_of req) st) as T.
    destruct (Server.call_tool UPNOTE_OK UpNoteClient (Server.params_of req) st)
      as [[result|e] st1]; cbn [snd] in *.
    - eexists. split;
        [eapply same_transport_wrote; [exact T | apply write_message_wrote]
        | reflexivity].
    - eexists. split;
        [eapply same_transport_wrote; [exact T | apply on_exception_wrote]
        | reflexivity]. }
  destruct (Server.method_is (dict_get "method" req) "ping").
  { eexists. split; [apply write_message_wrote | reflexivity]. }
  destruct (Server.method_is (dict_get "method" req) "shutdown").
  { eexists. split; [apply write_message_wrote | reflexivity]. }
  eexists. split; [apply write_message_wrote | reflexivity].
Qed.

Lemma loop_body_request (req : list (string * json)) (req_id : json) st :
  dict_get "id" req = Some req_id -> req_id <> JNull ->
  after (Server.loop_body UPNOTE_OK UpNoteClient (Some (JObj req)) st)
  = snd (Server.handle_request UPNOTE_OK UpNoteClient req req_id st).
Proof.
  intros Hid Hnn. unfold Server.loop_body. rewrite Hid.
  destruct (Server.handle_request UPNOTE_OK UpNoteClient req req_id st) as [stop st1].
  destruct req_id; try congruence; destruct stop; reflexivity.
Qed.


Lemma loop_body_handle (req : list (string * json)) (req_id : json) st :
  dict_get "id" req = Some req_id -> req_id <> JNull ->
  Server.loop_body UPNOTE_OK UpNoteClient (Some (JObj req)) st
  = let '(stop, st1) := Server.handle_request UPNOTE_OK UpNoteClient req req_id st in
    if stop then inl (Server.Returned, st1) else inr st1.
Proof.
  intros Hid Hnn. unfold Server.loop_body. rewrite Hid.
  destruct req_id; try congruence; reflexivity.
Qed.






Lemma tool_failure_payload (message : string) :
  exists content, Server.tool_failure message = tool_payload content true.
Proof. eexists. reflexivity. Qed.



End ServerClaims.

(** ** Reading from standard input *)

Lemma readline_app (inp : bytes) : fst (readline inp) ++ snd (readline inp) = inp.
Proof.
  unfold readline. destruct (find [LF] inp); cbn [fst snd];
    [apply firstn_skipn | apply app_nil_r].
Qed.

Lemma readline_nil (inp : bytes) : fst (readline inp) = [] -> inp = [].
Proof.
  unfold readline. destruct (find [LF] inp); cbn [fst]; [|auto].
  destruct inp; [auto | discriminate].
Qed.

Lemma readline_shorter (inp : bytes) :
  inp <> [] -> List.length (snd (readline inp)) < List.length inp.
Proof.
  intros Hne. pose proof (readline_app inp) as E.
  destruct (fst (readline inp)) as [|c l] eqn:El.
  - apply readline_nil in El. congruence.
  - rewrite <- E at 2. rewrite length_app. simpl. lia.
Qed.

Lemma read_header_lines_suffix (fuel : nat) (headers : list (bytes * bytes)) (inp : bytes)
  (headers' : list (bytes * bytes)) (rest : bytes) :
  Server.read_header_lines fuel headers inp = Some (headers', rest) ->
  List.length rest <= List.length inp.
Proof.
  revert headers inp. induction fuel as [|fuel IH]; intros headers inp; [discriminate|].
  cbn [Server.read_header_lines].
  pose proof (readline_app inp) as E.
  destruct (readline inp) as [line r]. cbn [fst snd] in E.
  destruct line as [|c line]; [discriminate|].
  destruct (Server.is_blank_line (c :: line)).
  - intros H. injection H as Hh Hr. subst rest. rewrite <- E, length_app. lia.
  - intros H. apply IH in H. rewrite <- E, length_app. lia.
Qed.

Section Reading.
Variable world : Type.
Implicit Types st : Server.state world.

Lemma read_ndjson_from_only (line : bytes) st :
  read_only st (snd (Server._read_ndjson_from line st)).
Proof.
  unfold Server._read_ndjson_from, read_only.
  destruct (decode_utf8 line) as [text|]; [|cbn; auto].
  destruct (loads (str_strip text)); cbn; auto.
Qed.

Lemma read_lsp_from_only (line : bytes) st :
  read_only st (snd (Server._read_lsp_from line st)).
Proof.
  unfold Server._read_lsp_from, read_only.
  destruct (Server.read_header_lines _ _ (Server.stdin st)) as [[headers rest]|] eqn:Eh.
  2: { cbn. repeat split; auto. lia. }
  apply read_header_lines_suffix in Eh.
  cbn [Server.stdin Server.set_stdin].
  match goal with |- context [(?n <=? 0)%Z] => destruct (n <=? 0)%Z end;
    [cbn; auto|].
  unfold read. cbn [Server.stdin Server.set_stdin].
  match goal with |- context [negb ?b] => destruct (negb b) end.
  { cbn. repeat split; auto. rewrite length_skipn. lia. }
  match goal with |- context [decode_utf8 ?b] => destruct (decode_utf8 b) as [text|] end.
  2: { cbn. repeat split; auto. rewrite length_skipn. lia. }
  destruct (loads text); cbn; repeat split; auto; rewrite length_skipn; lia.
Qed.

(** A read never writes; it sets the cached mode only when none is
    cached; and it uses up input unless none is left. *)
Lemma read_message_effect st :
  Server.stdout (snd (Server.read_message st)) = Server.stdout st
  /\ Server.TRANSPORT_MODE (snd (Server.read_message st))
     = match Server.stdin st with
       | [] => Server.TRANSPORT_MODE st
       | _ => Server.mode_or (Server.TRANSPORT_MODE st)
                (Server.line_framing (fst (readline (Server.stdin st))))
       end
  /\ (Server.stdin st <> [] ->
      List.length (Server.stdin (snd (Server.read_message st)))
      < List.length (Server.stdin st))
  /\ (Server.stdin st = [] -> fst (Server.read_message st) = None).
Proof.
  unfold Server.read_message.
  pose proof (readline_nil (Server.stdin st)) as Hnil.
  pose proof (readline_shorter (Server.stdin st)) as Hshort.
  destruct (readline (Server.stdin st)) as [line rest] eqn:Er. cbn [fst snd] in *.
  destruct line as [|c line].
  - rewrite (Hnil eq_refl). cbn. repeat split; auto. congruence.
  - assert (Hne : Server.stdin st <> []).
    { intros E. rewrite E in Er. discriminate Er. }
    destruct (Server.stdin st) as [|c0 inp0] eqn:Ein; [congruence|].
    specialize (Hshort Hne).
    destruct (Server.line_framing (c :: line)).
    + match goal with
      | |- context [Server._read_ndjson_from ?l ?s] =>
          destruct (read_ndjson_from_only l s) as (Ho & Hm & Hi)
      end.
      rewrite Ho, Hm. cbn in Hi. cbn in Hshort.
      cbn [Server.stdout Server.TRANSPORT_MODE Server.set_mode Server.set_stdin].
      repeat split; auto; try congruence.
      intros _. cbn [List.length]. lia.
    + match goal with
      | |- context [Server._read_lsp_from ?l ?s] =>
          destruct (read_lsp_from_only l s) as (Ho & Hm & Hi)
      end.
      rewrite Ho, Hm. cbn in Hi. cbn in Hshort.
      cbn [Server.stdout Server.TRANSPORT_MODE Server.set_mode Server.set_stdin].
      repeat split; auto; try congruence.
      intros _. cbn [List.length]. lia.
Qed.

Lemma read_message_keeps_mode st (f : framing) :
  Server.TRANSPORT_MODE st = Some f ->
  Server.TRANSPORT_MODE (snd (Server.read_message st)) = Some f.
Proof.
  intros H. destruct (read_message_effect st) as (_ & Hm & _).
  rewrite Hm, H. destruct (Server.stdin st); reflexivity.
Qed.

(** The decode rule does not look at the cached mode. *)
Lemma read_message_ignores_mode st (m : option framing) :
  fst (Server.read_message (Server.set_mode st m)) = fst (Server.read_message st).
Proof.
  unfold Server.read_message. cbn [Server.stdin Server.set_mode].
  destruct (readline (Server.stdin st)) as [line rest].
  destruct line as [|c line]; [reflexivity|].
  destruct (Server.line_framing (c :: line)).
  - unfold Server._read_ndjson_from.
    destruct (decode_utf8 (c :: line)) as [text|]; [|reflexivity].
    destruct (loads (str_strip text)); reflexivity.
  - unfold Server._read_lsp_from. cbn [Server.stdin Server.set_mode Server.set_stdin].
    destruct (Server.read_header_lines _ _ rest) as [[headers rest']|]; [|reflexivity].
    match goal with |- context [(?n <=? 0)%Z] => destruct (n <=? 0)%Z end;
      [reflexivity|].
    unfold read. cbn [Server.stdin Server.set_stdin].
    match goal with |- context [negb ?b] => destruct (negb b) end; [reflexivity|].
    match goal with |- context [decode_utf8 ?b] => destruct (decode_utf8 b) as [text|] end;
      [|reflexivity].
    destruct (loads text); reflexivity.
Qed.
End Reading.

(** ** The main loop *)

Section MainLoop.
Variable world : Type.
Variable UPNOTE_OK : bool.
Variable UpNoteClient : option (Server.client_class world).
Implicit Types st : Server.state world.

(** Every round writes no reply or one, under the cached mode. *)
Lemma loop_body_wrote (req : option json) st :
  exists replies,
    wrote st (after (Server.loop_body UPNOTE_OK UpNoteClient req st)) replies
    /\ List.length replies <= 1.
Proof.
  assert (Quiet : forall st', same_transport st st' ->
            exists replies, wrote st st' replies /\ List.length replies <= 1).
  { intros st' H. exists []. split; [|simpl; lia].
    eapply same_transport_wrote; [exact H | apply wrote_refl]. }
  destruct req as [msg|]; [|apply Quiet; unfold same_transport; cbn; auto].
  destruct msg as [| b | z | s | l | req];
    try (apply Quiet; unfold same_transport; cbn; auto; fail).
  destruct (dict_get "id" req) as [i|] eqn:Hid.
  2: { apply Quiet. unfold Server.loop_body. rewrite Hid.
       unfold same_transport; cbn; auto. }
  destruct (json_is_null i) eqn:Hn.
  { destruct i; try discriminate Hn. apply Quiet.
    unfold Server.loop_body. rewrite Hid. unfold same_transport; cbn; auto. }
  assert (Hi : i <> JNull) by (intros ->; discriminate Hn).
  rewrite (loop_body_request world UPNOTE_OK UpNoteClient req i st Hid Hi).
  destruct (handle_request_one_reply world UPNOTE_OK UpNoteClient req i st)
    as (reply & Hw & _).
  exists [JObj reply]. split; [exact Hw | simpl; lia].
Qed.

Lemma loop_body_stdin (req : option json) st :
  Server.stdin (after (Server.loop_body UPNOTE_OK UpNoteClient req st)) = Server.stdin st.
Proof. destruct (loop_body_wrote req st) as (replies & (_ & _ & H) & _). exact H. Qed.

(** The loop always ends, within the fuel [main] gives it. *)
Lemma main_loop_total (fuel : nat) st :
  List.length (Server.stdin st) < fuel ->
  exists r, Server.main_loop UPNOTE_OK UpNoteClient fuel st = Some r.
Proof.
  revert st. induction fuel as [|fuel IH]; intros st Hf; [lia|].
  cbn [Server.main_loop].
  destruct (read_message_effect world st) as (_ & _ & Hshort & Hnil).
  pose proof (loop_body_stdin (fst (Server.read_message st))
                (snd (Server.read_message st))) as Hin.
  destruct (Server.read_message st) as [req st1]. cbn [fst snd] in *.
  destruct (Server.loop_body UPNOTE_OK UpNoteClient req st1) as [done|st2] eqn:El.
  - eexists. reflexivity.
  - cbn [after] in Hin. apply IH.
    destruct (Server.stdin st) as [|c inp] eqn:Ein.
    + rewrite (Hnil eq_refl) in El. discriminate El.
    + assert (Hlt : List.length (Server.stdin st1) < List.length (c :: inp))
        by (apply Hshort; discriminate).
      rewrite Hin. simpl in *. lia.
Qed.

(** Once a mode is cached, everything the loop writes from then on is a
    sequence of frames under that mode, and the mode is still cached at
    the end. *)
Lemma main_loop_frames (fuel : nat) st (f : framing) r st' :
  Server.TRANSPORT_MODE st = Some f ->
  Server.main_loop UPNOTE_OK UpNoteClient fuel st = Some (r, st') ->
  exists replies,
    Server.stdout st' = Server.stdout st ++ List.concat (map (frame (Some f)) replies)
    /\ Server.TRANSPORT_MODE st' = Some f.
Proof.
  revert st. induction fuel as [|fuel IH]; intros st Hm; [discriminate|].
  cbn [Server.main_loop].
  destruct (read_message_effect world st) as (Ho & _).
  pose proof (read_message_keeps_mode world st f Hm) as Hm1.
  destruct (Server.read_message st) as [req st1]. cbn [fst snd] in *.
  destruct (loop_body_wrote req st1) as (replies & (Hw & Hwm & _) & _).
  rewrite Hm1 in Hw, Hwm. rewrite Ho in Hw.
  destruct (Server.loop_body UPNOTE_OK UpNoteClient req st1) as [[e st2]|st2];
    cbn [after] in *.
  - intros H. inversion H; subst. exists replies. auto.
  - intros H. destruct (IH st2 Hwm H) as (replies' & Ho' & Hm').
    exists (replies ++ replies'). split; [|exact Hm'].
    rewrite Ho', Hw, map_app, concat_app, app_assoc. reflexivity.
Qed.

(** From a fresh start: the framing is that of the first line. *)
Lemma main_frames (inp : bytes) (w : world) :
  exists r st' replies,
    Server.main UPNOTE_OK UpNoteClient (Server.start inp w) = Some (r, st')
    /\ Server.stdout st'
       = List.concat (map (frame (Some (Server.line_framing (fst (readline inp)))))
                        replies).
Proof.
  unfold Server.main.
  destruct (main_loop_total (S (List.length inp)) (Server.add_log (Server.start inp w) Server.Starting))
    as ([r st'] & Hr); [cbn; lia|].
  exists r, st'. cbn [Server.stdin Server.add_log Server.start]. rewrite Hr.
  cbn [Server.main_loop] in Hr.
  set (st0 := Server.add_log (Server.start inp w) Server.Starting) in *.
  destruct (read_message_effect world st0) as (Ho & Hm & _ & Hnil).
  destruct (Server.read_message st0) as [req st1]. cbn [fst snd] in *.
  destruct inp as [|c inp].
  - rewrite (Hnil eq_refl) in Hr. cbn in Hr. inversion Hr; subst.
    exists []. split; [reflexivity|]. cbn. rewrite Ho. reflexivity.
  - cbn [Server.stdin st0 Server.add_log Server.start Server.TRANSPORT_MODE
           Server.mode_or Server.stdout] in Ho, Hm.
    set (f := Server.line_framing (fst (readline (c :: inp)))) in *.
    destruct (loop_body_wrote req st1) as (replies & (Hw & Hwm & _) & _).
    rewrite Hm in Hw, Hwm. rewrite Ho in Hw. cbn [app] in Hw.
    destruct (Server.loop_body UPNOTE_OK UpNoteClient req st1) as [[e st2]|st2];
      cbn [after] in *.
    + inversion Hr; subst. exists replies. auto.
    + destruct (main_loop_frames _ st2 f r st' Hwm Hr) as (replies' & Ho' & _).
      exists (replies ++ replies'). split; [reflexivity|].
      rewrite Ho', Hw, map_app, concat_app. reflexivity.
Qed.
End MainLoop.

Lemma startswith_brace (b : bytes) :
  startswith ["{"] b || startswith ["["] b = starts_brace b.
Proof.
  destruct b as [|c b]; [reflexivity|]. cbn [startswith starts_brace].
  rewrite !andb_true_r, (Ascii.eqb_sym "{" c), (Ascii.eqb_sym "[" c). reflexivity.
Qed.

Lemma line_framing_eq (line : bytes) :
  Server.line_framing line = if starts_brace (lstrip line) then ndjson else lsp.
Proof. unfold Server.line_framing. rewrite startswith_brace. reflexivity. Qed.

Lemma content_length_is_lsp (line : bytes) :
  startswith (B "Content-Length:") line = true -> Server.line_framing line = lsp.
Proof.
  intros H. destruct line as [|c line]; [discriminate H|].
  cbn [B list_ascii_of_string startswith] in H. apply andb_prop in H as [Hc _].
  apply Ascii.eqb_eq in Hc. subst c. reflexivity.
Qed.

Lemma sniffed_framing_eq (buffer : bytes) :
  Debugger.sniffed_framing buffer = sniff_classify buffer.
Proof.
  unfold Debugger.sniffed_framing, Debugger.sniff_and_summarize, sniff_classify,
    lsp_looking.
  change (slice buffer 0 128) with (firstn 128 buffer).
  assert (Hb : bytes_eqb (slice buffer 0 1) ["{"] || bytes_eqb (slice buffer 0 1) ["["]
               = starts_brace buffer).
  { destruct buffer as [|c buffer]; [reflexivity|].
    change (slice (c :: buffer) 0 1) with [c]. cbn [starts_brace].
    destruct (Ascii.eqb_spec c "{") as [->|H1]; [reflexivity|].
    destruct (Ascii.eqb_spec c "[") as [->|H2]; [reflexivity|].
    cbn [orb].
    destruct (bytes_eqb [c] ["{"]) eqn:E1; [apply bytes_eqb_eq in E1; congruence|].
    destruct (bytes_eqb [c] ["["]) eqn:E2; [apply bytes_eqb_eq in E2; congruence|].
    reflexivity. }
  rewrite Hb.
  destruct (startswith (B "Content-Length:") buffer || contains CRLFCRLF (firstn 128 buffer));
    cbn [andb].
  - destruct (Debugger.try_parse_lsp buffer) as [[body n]|]; cbn [is_some fst]; [reflexivity|].
    destruct (starts_brace buffer); cbn [andb]; [|reflexivity].
    destruct (Debugger.try_parse_ndjson buffer) as [[line n]|]; reflexivity.
  - destruct (starts_brace buffer); cbn [andb]; [|reflexivity].
    destruct (Debugger.try_parse_ndjson buffer) as [[line n]|]; reflexivity.
Qed.

(** C2, as the code has it.  The server classifies a first line as ndjson
    when its first non-whitespace byte is an opening brace or bracket and
    as lsp in every other case, so a line starting with Content-Length: is
    lsp and no line is left undetermined; that is the mode a fresh server
    caches.  The proxy's sniffer reports lsp when the buffer starts with
    Content-Length: or has CR LF CR LF in its first 128 bytes and holds a
    complete lsp message; failing that, ndjson when the first byte itself is
    a brace or bracket and a line is complete; otherwise nothing yet. *)
Theorem C2_classification (world : Type) (chunk : bytes) (w : world) :
  chunk <> [] ->
  Server.line_framing (fst (readline chunk))
  = (if starts_brace (lstrip (fst (readline chunk))) then ndjson else lsp)
  /\ (startswith (B "Content-Length:") chunk = true ->
      Server.line_framing (fst (readline chunk)) = lsp)
  /\ Server.TRANSPORT_MODE (snd (Server.read_message (Server.start chunk w)))
     = Some (Server.line_framing (fst (readline chunk)))
  /\ Debugger.sniffed_framing chunk = sniff_classify chunk.
Proof.
  intros Hne. split; [apply line_framing_eq|]. split.
  - intros H. apply content_length_is_lsp.
    assert (Hl : forall p, startswith p chunk = true -> forallb (fun c => negb (Ascii.eqb LF c)) p = true ->
                 startswith p (fst (readline chunk)) = true).
    { clear. intros p. unfold readline.
      revert p. induction chunk as [|c chunk IH]; intros p Hp Hn.
      - destruct p; [reflexivity | discriminate Hp].
      - destruct p as [|x p]; [destruct (find [LF] (c :: chunk)); reflexivity|].
        cbn [startswith] in Hp. apply andb_prop in Hp as [Hx Hp].
        apply Ascii.eqb_eq in Hx. subst x.
        cbn [forallb] in Hn. apply andb_prop in Hn as [Hc Hn]. apply negb_true_iff in Hc.
        rewrite find_cons_miss by exact Hc.
        specialize (IH p Hp Hn).
        destruct (find [LF] chunk) as [i|]; cbn [option_map fst firstn startswith] in *.
        + rewrite Ascii.eqb_refl. exact IH.
        + rewrite Ascii.eqb_refl. exact IH. }
    apply Hl; [exact H | reflexivity].
  - split; [|apply sniffed_framing_eq].
    destruct (read_message_effect world (Server.start chunk w)) as (_ & Hm & _).
    rewrite Hm. cbn [Server.stdin Server.start Server.TRANSPORT_MODE Server.mode_or].
    destruct chunk; [congruence | reflexivity].
Qed.

Lemma C2_classification_witness :
  B "Content-Length: 2" ++ CRLFCRLF ++ B "{}" <> []
  /\ Server.TRANSPORT_MODE
       (snd (Server.read_message
               (Server.start (B "Content-Length: 2" ++ CRLFCRLF ++ B "{}") tt)))
     = Some lsp
  /\ Debugger.sniffed_framing (B "Content-Length: 2" ++ CRLFCRLF ++ B "{}") = Some lsp.
Proof.
  split; [discriminate|].
  destruct (C2_classification unit (B "Content-Length: 2" ++ CRLFCRLF ++ B "{}") tt)
    as (_ & _ & Hm & Hs); [discriminate|].
  split; [exact Hm | exact Hs].
Defined.

(** At these inputs the rule of the specification and the code disagree:
    a line that starts with neither brace nor header is lsp for the server,
    not undetermined; and leading whitespace keeps the proxy's sniffer from
    seeing an ndjson message. *)
Lemma C2_counterexample :
  spec_classify (B "hello" ++ [LF]) = None
  /\ Server.TRANSPORT_MODE
       (snd (Server.read_message (Server.start (B "hello" ++ [LF]) tt))) = Some lsp
  /\ spec_classify (B " {}" ++ [LF]) = Some ndjson
  /\ Debugger.sniffed_framing (B " {}" ++ [LF]) = None.
Proof. repeat split; reflexivity. Qed.

(** ** The fuel [loads] gives its parser is enough for every text *)

Lemma lstrip_by_length (p : ascii -> bool) (b : bytes) :
  List.length (lstrip_by p b) <= List.length b.
Proof.
  induction b as [|c b IH]; cbn [lstrip_by]; [lia|].
  destruct (p c); simpl in *; lia.
Qed.

Lemma skip_ws_length (b : bytes) : List.length (skip_ws b) <= List.length b.
Proof. apply lstrip_by_length. Qed.

Lemma map_fst_some {A B C : Type} (f : A -> C) (r : option (A * B)) (c : C) (b : B) :
  map_fst f r = Some (c, b) -> exists a, r = Some (a, b) /\ c = f a.
Proof.
  destruct r as [[a b']|]; cbn; intros H; inversion H; subst. exists a. auto.
Qed.

Lemma parse_string_shorter (n : nat) :
  forall s k rest, List.length s <= n -> parse_string s = Some (k, rest) ->
                   List.length rest < List.length s.
Proof.
  induction n as [|n IH]; intros s k rest Hn H.
  - destruct s; [discriminate H | simpl in Hn; lia].
  - destruct s as [|c r]; [discriminate H|]. cbn [parse_string] in H.
    simpl in Hn.
    repeat match type of H with
           | (if ?b then _ else _) = _ => destruct b
           | match ?x with _ => _ end = _ => destruct x eqn:?
           end;
      try discriminate H;
      try (inversion H; subst; simpl; lia);
      try (let x := fresh "x" in
           let Hx := fresh "Hx" in
           apply map_fst_some in H as (x & Hx & _);
           apply IH in Hx; simpl in *; lia).
Qed.

Lemma span_digits_length (s ds rest : bytes) :
  span_digits s = (ds, rest) -> List.length ds + List.length rest = List.length s.
Proof.
  revert ds rest. induction s as [|c s IH]; intros ds rest H; cbn [span_digits] in H.
  - inversion H. reflexivity.
  - destruct (is_digit c).
    + destruct (span_digits s) as [ds' rest'] eqn:E. inversion H; subst.
      specialize (IH ds' rest eq_refl). simpl. lia.
    + inversion H; subst. reflexivity.
Qed.

Lemma finish_number_rest (neg : bool) (ds rest : bytes) (v : json) (rest' : bytes) :
  finish_number neg ds rest = Some (v, rest') -> rest' = rest.
Proof.
  unfold finish_number. destruct (float_follows rest); [discriminate|].
  destruct (Z_of_digits ds); [|discriminate]. intros H. inversion H. reflexivity.
Qed.

Lemma parse_number_shorter (s : bytes) (v : json) (rest : bytes) :
  parse_number s = Some (v, rest) -> List.length rest < List.length s.
Proof.
  unfold parse_number. intros H.
  assert (Aux : forall neg r,
             match r with
             | c :: r' =>
                 if Ascii.eqb c "0" then finish_number neg [c] r'
                 else if is_digit c then
                        let '(ds, rest0) := span_digits r in finish_number neg ds rest0
                      else None
             | [] => None
             end = Some (v, rest) -> List.length rest < List.length r).
  { intros neg r Hr. destruct r as [|c r']; [discriminate Hr|].
    destruct (Ascii.eqb c "0").
    - apply finish_number_rest in Hr. subst. simpl. lia.
    - destruct (is_digit c) eqn:Hd; [|discriminate Hr].
      destruct (span_digits (c :: r')) as [ds rest0] eqn:Es.
      apply finish_number_rest in Hr. subst rest0.
      pose proof (span_digits_length _ _ _ Es) as Hl.
      cbn [span_digits] in Es. rewrite Hd in Es.
      destruct (span_digits r') as [ds' rest'']. inversion Es; subst.
      simpl in *. lia. }
  destruct s as [|c r]; [discriminate H|].
  destruct (Ascii.eqb c "-").
  - apply (Aux true r) in H. simpl. lia.
  - exact (Aux false (c :: r) H).
Qed.

Lemma startswith_length (p s : bytes) :
  startswith p s = true -> List.length p <= List.length s.
Proof.
  revert s. induction p as [|x p IH]; intros s H; [simpl; lia|].
  destruct s as [|y s]; [discriminate H|]. cbn [startswith] in H.
  apply andb_prop in H as [_ H]. apply IH in H. simpl. lia.
Qed.

Lemma parse_steady (fuel : nat) :
  steady parse_value fuel /\ steady parse_elems fuel /\ steady parse_members fuel.
Proof.
  induction fuel as [|fuel (IHv & IHe & IHm)].
  { unfold steady. split; [|split]; intros s a rest H; discriminate H. }
  assert (Hcons : forall (c : ascii) (r : bytes), List.length (c :: r) = S (List.length r))
    by reflexivity.
  split; [|split].
  - (* values *)
    intros s v rest H. destruct s as [|c r]; [discriminate H|].
    cbn [parse_value] in H. rewrite Hcons.
    destruct (Ascii.eqb c DQUOTE) eqn:Eq.
    { apply map_fst_some in H as (k & H & ->).
      pose proof (parse_string_shorter _ _ _ _ (le_n _) H) as Hl.
      split; [lia|]. intros [|fuel'] Hf; [lia|].
      cbn [parse_value]. rewrite Eq, H. reflexivity. }
    destruct (Ascii.eqb c "{") eqn:Eo.
    { pose proof (skip_ws_length r) as Hw.
      destruct (startswith ["}"] (skip_ws r)) eqn:Es.
      - assert (Hr : rest = skipn 1 (skip_ws r)) by (injection H as _ <-; reflexivity).
        assert (Hv : v = JObj []) by (injection H as <- _; reflexivity).
        rewrite Hr, Hv; clear H Hr Hv.
        pose proof (startswith_length _ _ Es) as Hl.
        rewrite length_skipn. cbn [List.length] in Hl.
        split; [lia|]. intros [|fuel'] Hf; [lia|].
        cbn [parse_value]. rewrite Eq, Eo, Es. reflexivity.
      - apply map_fst_some in H as (pairs & H & ->).
        destruct (IHm _ _ _ H) as (Hl & Hfuel).
        split; [lia|]. intros [|fuel'] Hf; [lia|].
        cbn [parse_value]. rewrite Eq, Eo, Es, Hfuel by lia. reflexivity. }
    destruct (Ascii.eqb c "[") eqn:Ea.
    { pose proof (skip_ws_length r) as Hw.
      destruct (startswith ["]"] (skip_ws r)) eqn:Es.
      - assert (Hr : rest = skipn 1 (skip_ws r)) by (injection H as _ <-; reflexivity).
        assert (Hv : v = JArr []) by (injection H as <- _; reflexivity).
        rewrite Hr, Hv; clear H Hr Hv.
        pose proof (startswith_length _ _ Es) as Hl.
        rewrite length_skipn. cbn [List.length] in Hl.
        split; [lia|]. intros [|fuel'] Hf; [lia|].
        cbn [parse_value]. rewrite Eq, Eo, Ea, Es. reflexivity.
      - apply map_fst_some in H as (items & H & ->).
        destruct (IHe _ _ _ H) as (Hl & Hfuel).
        split; [lia|]. intros [|fuel'] Hf; [lia|].
        cbn [parse_value]. rewrite Eq, Eo, Ea, Es, Hfuel by lia.
        reflexivity. }
    destruct (startswith (B "null") (c :: r)) eqn:En.
    { assert (Hr : rest = skipn 4 (c :: r)) by (injection H as _ <-; reflexivity).
      assert (Hv : v = JNull) by (injection H as <- _; reflexivity).
      rewrite Hr, Hv; clear H Hr Hv.
      pose proof (startswith_length _ _ En) as Hl.
      rewrite length_skipn, Hcons. rewrite Hcons in Hl.
      change (List.length (B "null")) with 4 in Hl.
      split; [lia|]. intros [|fuel'] Hf; [lia|].
      cbn [parse_value]. rewrite Eq, Eo, Ea, En. reflexivity. }
    destruct (startswith (B "true") (c :: r)) eqn:Et.
    { assert (Hr : rest = skipn 4 (c :: r)) by (injection H as _ <-; reflexivity).
      assert (Hv : v = JBool true) by (injection H as <- _; reflexivity).
      rewrite Hr, Hv; clear H Hr Hv.
      pose proof (startswith_length _ _ Et) as Hl.
      rewrite length_skipn, Hcons. rewrite Hcons in Hl.
      change (List.length (B "true")) with 4 in Hl.
      split; [lia|]. intros [|fuel'] Hf; [lia|].
      cbn [parse_value]. rewrite Eq, Eo, Ea, En, Et. reflexivity. }
    destruct (startswith (B "false") (c :: r)) eqn:Ef.
    { assert (Hr : rest = skipn 5 (c :: r)) by (injection H as _ <-; reflexivity).
      assert (Hv : v = JBool false) by (injection H as <- _; reflexivity).
      rewrite Hr, Hv; clear H Hr Hv.
      pose proof (startswith_length _ _ Ef) as Hl.
      rewrite length_skipn, Hcons. rewrite Hcons in Hl.
      change (List.length (B "false")) with 5 in Hl.
      split; [lia|]. intros [|fuel'] Hf; [lia|].
      cbn [parse_value]. rewrite Eq, Eo, Ea, En, Et, Ef. reflexivity. }
    pose proof (parse_number_shorter _ _ _ H) as Hl. rewrite Hcons in Hl.
    split; [exact Hl|]. intros [|fuel'] Hf; [lia|].
    cbn [parse_value]. rewrite Eq, Eo, Ea, En, Et, Ef. exact H.
  - (* elements *)
    intros s vs rest H. cbn [parse_elems] in H.
    destruct (parse_value fuel s) as [[v r]|] eqn:Ev; [|discriminate H].
    destruct (IHv _ _ _ Ev) as (Hlv & Hfv).
    pose proof (skip_ws_length r) as Hw.
    destruct (skip_ws r) as [|d r'] eqn:Ew; [discriminate H|]. rewrite Hcons in Hw.
    destruct (Ascii.eqb d "]") eqn:Ec.
    { injection H as <- <-. split; [lia|].
      intros [|fuel'] Hf; [lia|]. cbn [parse_elems].
      rewrite Hfv by lia. rewrite Ew, Ec. reflexivity. }
    destruct (Ascii.eqb d ",") eqn:Em; [|discriminate H].
    apply map_fst_some in H as (vs' & H & ->).
    destruct (IHe _ _ _ H) as (Hle & Hfe).
    pose proof (skip_ws_length r') as Hw'.
    split; [lia|]. intros [|fuel'] Hf; [lia|]. cbn [parse_elems].
    rewrite Hfv by lia. rewrite Ew, Ec, Em, Hfe by lia. reflexivity.
  - (* members *)
    intros s ms rest H. cbn [parse_members] in H.
    destruct s as [|c r]; [discriminate H|]. rewrite Hcons.
    destruct (Ascii.eqb c DQUOTE) eqn:Eq; [|discriminate H].
    destruct (parse_string r) as [[k r1]|] eqn:Ek; [|discriminate H].
    pose proof (parse_string_shorter _ _ _ _ (le_n _) Ek) as Hlk.
    pose proof (skip_ws_length r1) as Hw1.
    destruct (skip_ws r1) as [|d r2] eqn:Ew1; [discriminate H|]. rewrite Hcons in Hw1.
    destruct (Ascii.eqb d ":") eqn:Ecol; [|discriminate H].
    pose proof (skip_ws_length r2) as Hw2.
    destruct (parse_value fuel (skip_ws r2)) as [[v r3]|] eqn:Ev; [|discriminate H].
    destruct (IHv _ _ _ Ev) as (Hlv & Hfv).
    pose proof (skip_ws_length r3) as Hw3.
    destruct (skip_ws r3) as [|d' r'] eqn:Ew3; [discriminate H|]. rewrite Hcons in Hw3.
    destruct (Ascii.eqb d' "}") eqn:Ec.
    { injection H as <- <-. split; [lia|].
      intros [|fuel'] Hf; [lia|]. cbn [parse_members].
      rewrite Eq, Ek, Ew1, Ecol, Hfv by lia.
      rewrite Ew3, Ec. reflexivity. }
    destruct (Ascii.eqb d' ",") eqn:Em; [|discriminate H].
    apply map_fst_some in H as (ms' & H & ->).
    destruct (IHm _ _ _ H) as (Hlm & Hfm).
    pose proof (skip_ws_length r') as Hw'.
    split; [lia|]. intros [|fuel'] Hf; [lia|]. cbn [parse_members].
    rewrite Eq, Ek, Ew1, Ecol, Hfv by lia.
    rewrite Ew3, Ec, Em, Hfm by lia. reflexivity.
Qed.

(** If the parser accepts a text with some fuel, [loads] accepts it. *)
Lemma loads_fuel_enough (fuel : nat) (text : bytes) (v : json) (rest : bytes) :
  parse_value fuel (skip_ws text) = Some (v, rest) ->
  parse_value (S (List.length text)) (skip_ws text) = Some (v, rest).
Proof.
  intros H. destruct (parse_steady fuel) as (Hv & _).
  destruct (Hv _ _ _ H) as (_ & Hf). apply Hf.
  pose proof (skip_ws_length text). lia.
Qed.

(** So [loads] rejects a text only when no amount of fuel would parse it. *)
Lemma loads_complete (fuel : nat) (text : bytes) (v : json) (rest : bytes) :
  parse_value fuel (skip_ws text) = Some (v, rest) -> skip_ws rest = [] ->
  loads text = Some v.
Proof.
  intros H Hr. unfold loads. rewrite (loads_fuel_enough fuel text v rest H), Hr.
  reflexivity.
Qed.

(** ** Text stripping on serialized JSON *)

Lemma str_space_prefix_graphic (c : ascii) (r : bytes) :
  graphic c = true -> str_space_prefix (c :: r) = 0.
Proof.
  destruct c as [[] [] [] [] [] [] [] []]; intros H; try discriminate H; reflexivity.
Qed.

Lemma str_space_prefix_3 (c3 c2 c : ascii) :
  str_space_prefix [c3; c2; c] = 3 -> (128 <= code c)%N.
Proof.
  unfold str_space_prefix.
  repeat match goal with
         | |- context [if ?b then _ else _] => destruct b eqn:?
         end;
    try discriminate; intros _;
    repeat match goal with
           | H : (_ && _) = true |- _ => apply andb_prop in H as [? ?]
           | H : (_ || _) = true |- _ => apply orb_prop in H as [?|?]
           | H : (_ =? _)%N = true |- _ => apply N.eqb_eq in H
           | H : (_ <=? _)%N = true |- _ => apply N.leb_le in H
           end; lia.
Qed.

Lemma str_space_suffix_graphic (c : ascii) (r : bytes) :
  graphic c = true -> str_space_suffix (c :: r) = 0.
Proof.
  intros H.
  assert (Hc : (code c < 128)%N /\ (code c =? 133)%N = false /\ (code c =? 160)%N = false
               /\ ((code c =? 32) || ((9 <=? code c) && (code c <=? 13))
                   || ((28 <=? code c) && (code c <=? 31)))%N = false).
  { destruct c as [[] [] [] [] [] [] [] []]; try discriminate H;
      repeat split; reflexivity. }
  destruct Hc as (Hlt & H1 & H2 & Hw).
  unfold str_space_suffix. rewrite Hw, H1, H2. cbn [orb]. 
  destruct r as [|c2 r2]; [reflexivity|]. rewrite andb_false_r.
  destruct r2 as [|c3 r3]; [reflexivity|].
  destruct (Nat.eqb (str_space_prefix [c3; c2; c]) 3) eqn:E; [|reflexivity].
  apply Nat.eqb_eq, str_space_prefix_3 in E. lia.
Qed.

Lemma str_lstrip_graphic (c : ascii) (r : bytes) :
  graphic c = true -> str_lstrip (c :: r) = c :: r.
Proof.
  intros H. unfold str_lstrip. cbn [List.length str_lstrip_fuel].
  rewrite (str_space_prefix_graphic c r H). reflexivity.
Qed.

Lemma str_rstrip_fuel_graphic (fuel : nat) (c : ascii) (r : bytes) :
  graphic c = true -> str_rstrip_fuel fuel (c :: r) = c :: r.
Proof.
  intros H. destruct fuel; [reflexivity|]. cbn [str_rstrip_fuel].
  rewrite (str_space_suffix_graphic c r H). reflexivity.
Qed.

Lemma str_rstrip_fuel_lf (fuel : nat) (d : ascii) (r : bytes) :
  graphic d = true -> 1 <= fuel -> str_rstrip_fuel fuel (LF :: d :: r) = d :: r.
Proof.
  intros Hd Hf. destruct fuel as [|fuel]; [lia|]. cbn [str_rstrip_fuel].
  change (str_space_suffix (LF :: d :: r)) with 1. cbn [skipn].
  apply str_rstrip_fuel_graphic, Hd.
Qed.

Lemma str_rstrip_fuel_crlf (fuel : nat) (d : ascii) (r : bytes) :
  graphic d = true -> 2 <= fuel -> str_rstrip_fuel fuel (LF :: CR :: d :: r) = d :: r.
Proof.
  intros Hd Hf. destruct fuel as [|[|fuel]]; try lia. cbn [str_rstrip_fuel].
  change (str_space_suffix (LF :: CR :: d :: r)) with 1. cbn [skipn].
  change (str_space_suffix (CR :: d :: r)) with 1. cbn [skipn].
  apply str_rstrip_fuel_graphic, Hd.
Qed.

(** Stripping a text that starts and ends with visible ASCII characters
    and is followed by a line end gives the text back. *)
Lemma str_strip_line (b eol : bytes) :
  (exists c t, b = c :: t /\ graphic c = true) ->
  (exists t d, b = t ++ [d] /\ graphic d = true) ->
  eol = [LF] \/ eol = [CR; LF] ->
  str_strip (b ++ eol) = b.
Proof.
  intros (c & t & Eb & Hc) (t' & d & Eb' & Hd) He. unfold str_strip.
  assert (Hl : str_lstrip (b ++ eol) = b ++ eol).
  { rewrite Eb. apply (str_lstrip_graphic c (t ++ eol) Hc). }
  rewrite Hl, rev_app_distr.
  assert (Hr : rev b = d :: rev t') by (rewrite Eb', rev_app_distr; reflexivity).
  rewrite Hr, length_app.
  assert (Hlen : 1 <= List.length b) by (rewrite Eb; simpl; lia).
  destruct He as [-> | ->]; cbn [rev app List.length].
  - rewrite str_rstrip_fuel_lf by (auto; lia).
    rewrite <- Hr. apply rev_involutive.
  - rewrite str_rstrip_fuel_crlf by (auto; lia).
    rewrite <- Hr. apply rev_involutive.
Qed.

Lemma digit_graphic (c : ascii) : is_digit c = true -> graphic c = true.
Proof. destruct c as [[] [] [] [] [] [] [] []]; intros H; try discriminate H; reflexivity. Qed.

Lemma dumps_head_graphic (v : json) : exists c t, dumps v = c :: t /\ graphic c = true.
Proof.
  destruct v as [|[]|z|s|l|m]; try (eexists; eexists; split; reflexivity).
  destruct (str_int_head z) as (c & t & E & Hc). exists c, t. split; [exact E|].
  apply orb_prop in Hc as [Hc|Hc]; [apply digit_graphic, Hc|].
  apply Ascii.eqb_eq in Hc. subst c. reflexivity.
Qed.

Lemma last_forallb (p : ascii -> bool) (l : bytes) :
  l <> [] -> forallb p l = true -> exists t d, l = t ++ [d] /\ p d = true.
Proof.
  intros Hne H. destruct (exists_last Hne) as (t & d & E). exists t, d. split; [exact E|].
  rewrite E, forallb_app in H. apply andb_prop in H as [_ H]. cbn in H.
  rewrite andb_true_r in H. exact H.
Qed.

Lemma dumps_last_graphic (v : json) : exists t d, dumps v = t ++ [d] /\ graphic d = true.
Proof.
  destruct v as [|[]|z|s|l|m].
  - exists (B "nul"), "l". split; reflexivity.
  - exists (B "tru"), "e". split; reflexivity.
  - exists (B "fals"), "e". split; reflexivity.
  - change (dumps (JInt z)) with (str_int z).
    destruct z as [|p|p].
    + exists [], "0". split; reflexivity.
    + rewrite str_int_pos.
      destruct (digits_of_pos_head p) as (c & t & E & _).
      destruct (last_forallb is_digit (digits_of_uint (Pos.to_uint p)))
        as (t' & d & E' & Hd); [rewrite E; discriminate | apply digits_of_uint_digits |].
      exists t', d. split; [exact E' | apply digit_graphic, Hd].
    + rewrite str_int_neg.
      destruct (digits_of_pos_head p) as (c & t & E & _).
      destruct (last_forallb is_digit (digits_of_uint (Pos.to_uint p)))
        as (t' & d & E' & Hd); [rewrite E; discriminate | apply digits_of_uint_digits |].
      exists ("-" :: t'), d. split; [rewrite E'; reflexivity | apply digit_graphic, Hd].
  - rewrite dumps_str. exists (DQUOTE :: escape_body s), DQUOTE. split; reflexivity.
  - rewrite dumps_arr. exists ("[" :: join [","] (map dumps l)), "]". split; reflexivity.
  - rewrite dumps_obj. exists ("{" :: join [","] (map member_text m)), "}".
    split; reflexivity.
Qed.

(** ** The server's readers on the server's own encodings *)

Lemma readline_line (line rest : bytes) :
  forallb (fun c => negb (Ascii.eqb LF c)) line = true ->
  readline (line ++ LF :: rest) = (line ++ [LF], rest).
Proof.
  intros H. unfold readline.
  change (line ++ LF :: rest) with (line ++ [LF] ++ rest).
  rewrite (find_after LF [] line rest H), app_assoc.
  replace (S (List.length line)) with (List.length (line ++ [LF]))
    by (rewrite length_app; simpl; lia).
  rewrite firstn_app, Nat.sub_diag, firstn_all, skipn_app, Nat.sub_diag, skipn_all.
  cbn [firstn skipn app]. rewrite app_nil_r. reflexivity.
Qed.

Lemma decode_utf8_line (v : json) (eol : bytes) :
  wf_json v = true -> forallb is_ascii7 eol = true ->
  decode_utf8 (dumps v ++ eol) = Some (dumps v ++ eol).
Proof.
  intros Hwf He. unfold decode_utf8, utf8_valid.
  rewrite (dumps_passes v Hwf eol).
  pose proof (utf8_run_ascii eol [] He) as H. rewrite app_nil_r in H. rewrite H.
  reflexivity.
Qed.

Section ServerReaders.
Variable world : Type.
Implicit Types st : Server.state world.

Lemma read_ndjson_from_frame (v : json) st :
  wf_json v = true ->
  Server._read_ndjson_from (Server.ndjson_frame v) st = (Some v, st).
Proof.
  intros Hwf. unfold Server._read_ndjson_from, Server.ndjson_frame.
  rewrite (decode_utf8_line v [LF] Hwf eq_refl).
  rewrite (str_strip_line (dumps v) [LF]
             (dumps_head_graphic v) (dumps_last_graphic v) (or_introl eq_refl)).
  rewrite (loads_dumps v Hwf). reflexivity.
Qed.

Lemma is_ascii_content_length_line (n : nat) :
  0 < n -> Server.is_ascii (content_length_line n ++ CRLF) = true.
Proof.
  intros Hn. destruct (str_nat_digits n Hn) as (c & t & _ & Hd & _).
  unfold Server.is_ascii, content_length_line. rewrite !forallb_app.
  change (forallb (fun c0 => (code c0 <? 128)%N) (str_nat n))
    with (forallb is_ascii7 (str_nat n)).
  rewrite (forallb_impl is_digit is_ascii7 _ digit_ascii7 Hd). reflexivity.
Qed.

Lemma str_strip_value (n : nat) :
  0 < n -> str_strip (" " :: str_nat n ++ CRLF) = str_nat n.
Proof.
  intros Hn. destruct (str_nat_digits n Hn) as (c & t & E & Hd & _).
  change (str_strip (" " :: str_nat n ++ CRLF)) with (str_strip (str_nat n ++ CRLF)).
  apply str_strip_line.
  - exists c, t. split; [exact E|]. rewrite E in Hd. cbn [forallb] in Hd.
    apply andb_prop in Hd as [Hc _]. apply digit_graphic, Hc.
  - destruct (last_forallb is_digit (str_nat n)) as (t' & d & E' & Hd');
      [rewrite E; discriminate | exact Hd |].
    exists t', d. split; [exact E' | apply digit_graphic, Hd'].
  - right. reflexivity.
Qed.

Lemma add_header_content_length (n : nat) :
  0 < n ->
  Server.add_header (content_length_line n ++ CRLF) [] = [(B "content-length", str_nat n)].
Proof.
  intros Hn. unfold Server.add_header. rewrite (is_ascii_content_length_line n Hn).
  unfold content_length_line.
  change (B "Content-Length: ") with (B "Content-Length" ++ [":"; " "]).
  rewrite <- !app_assoc.
  assert (Hs : split_once ":" (B "Content-Length" ++ [":"; " "] ++ str_nat n ++ CRLF)
               = Some (B "Content-Length", " " :: str_nat n ++ CRLF)) by reflexivity.
  rewrite Hs, (str_strip_value n Hn). reflexivity.
Qed.

Lemma not_blank_content_length (n : nat) :
  Server.is_blank_line (content_length_line n ++ CRLF) = false.
Proof. reflexivity. Qed.

Lemma read_lsp_from_frame (v : json) (rest : bytes) st :
  wf_json v = true ->
  Server.stdin st = CRLF ++ dumps v ++ rest ->
  Server._read_lsp_from (content_length_line (List.length (dumps v)) ++ CRLF) st
  = (Some v, Server.set_stdin st rest).
Proof.
  intros Hwf Hin.
  assert (Hn : 0 < List.length (dumps v)).
  { pose proof (dumps_nonempty v). destruct (dumps v); [congruence | simpl; lia]. }
  unfold Server._read_lsp_from.
  rewrite not_blank_content_length. cbn [negb].
  rewrite (add_header_content_length _ Hn), Hin.
  assert (Hh : forall h fuel,
             Server.read_header_lines (S fuel) h (CRLF ++ dumps v ++ rest)
             = Some (h, dumps v ++ rest)) by reflexivity.
  rewrite Hh. cbn [header_get]. rewrite bytes_eqb_refl.
  destruct (str_nat_digits _ Hn) as (c & t & E & Hd & Hz).
  rewrite (py_int_digits (str_nat (List.length (dumps v))) (Z.of_nat (List.length (dumps v))))
    by (try congruence; assumption).
  destruct (Z.of_nat (List.length (dumps v)) <=? 0)%Z eqn:Ez; [apply Z.leb_le in Ez; lia|].
  rewrite Nat2Z.id. unfold read. cbn [Server.stdin Server.set_stdin].
  rewrite firstn_app, Nat.sub_diag, firstn_all, skipn_app, Nat.sub_diag, skipn_all.
  cbn [firstn skipn app]. rewrite app_nil_r, Nat.eqb_refl. cbn [negb].
  pose proof (decode_utf8_line v [] Hwf eq_refl) as Hu. rewrite app_nil_r in Hu.
  rewrite Hu, (loads_dumps v Hwf). reflexivity.
Qed.

Lemma read_message_unfold st (line rest : bytes) :
  readline (Server.stdin st) = (line, rest) -> line <> [] ->
  Server.read_message st
  = match Server.line_framing line with
    | ndjson =>
        Server._read_ndjson_from line
          (Server.set_mode (Server.set_stdin st rest)
             (Server.mode_or (Server.TRANSPORT_MODE st) ndjson))
    | lsp =>
        Server._read_lsp_from line
          (Server.set_mode (Server.set_stdin st rest)
             (Server.mode_or (Server.TRANSPORT_MODE st) lsp))
    end.
Proof.
  intros Hr Hne. unfold Server.read_message. rewrite Hr.
  destruct line; [congruence | reflexivity].
Qed.

(** [read_message] on what the writers produce: under lsp any value comes
    back, under ndjson any object or array (other values are taken for an
    lsp header line); the input behind the message is left unread. *)
Lemma read_message_encode (f : framing) (v : json) (rest : bytes) st :
  wf_json v = true ->
  (f = ndjson -> container v = true) ->
  Server.stdin st = encode f v ++ rest ->
  Server.read_message st
  = (Some v,
     Server.set_mode (Server.set_stdin st rest)
       (Server.mode_or (Server.TRANSPORT_MODE st) f)).
Proof.
  intros Hwf Hc Hin.
  assert (Hn : 0 < List.length (dumps v)).
  { pose proof (dumps_nonempty v). destruct (dumps v); [congruence | simpl; lia]. }
  destruct f; cbn [encode] in Hin.
  - assert (Hr : readline (Server.stdin st) = (Server.ndjson_frame v, rest)).
    { rewrite Hin. unfold Server.ndjson_frame. rewrite <- app_assoc. cbn [app].
      apply readline_line, printable_not_lf, dumps_printable. }
    rewrite (read_message_unfold st _ _ Hr).
    2: { unfold Server.ndjson_frame. destruct (dumps v); discriminate. }
    assert (Hf : Server.line_framing (Server.ndjson_frame v) = ndjson).
    { specialize (Hc eq_refl). destruct v; try discriminate Hc; reflexivity. }
    rewrite Hf. apply read_ndjson_from_frame, Hwf.
  - assert (Hr : readline (Server.stdin st)
                 = (content_length_line (List.length (dumps v)) ++ CRLF,
                    CRLF ++ dumps v ++ rest)).
    { rewrite Hin, lsp_frame_eq.
      assert (Hshape : (content_length_line (List.length (dumps v)) ++ CRLFCRLF ++ dumps v)
                         ++ rest
                       = (content_length_line (List.length (dumps v)) ++ [CR])
                           ++ LF :: (CRLF ++ dumps v ++ rest)).
      { rewrite <- !app_assoc. reflexivity. }
      rewrite Hshape, readline_line.
      - rewrite <- (app_assoc _ [CR] [LF]). reflexivity.
      - rewrite forallb_app. destruct (str_nat_digits _ Hn) as (c & t & _ & Hd & _).
        unfold content_length_line. rewrite forallb_app.
        rewrite (forallb_impl is_digit (fun c => negb (Ascii.eqb LF c)) (str_nat _)); auto.
        intros x. destruct x as [[] [] [] [] [] [] [] []]; intros H; try discriminate H;
          reflexivity. }
    rewrite (read_message_unfold st _ _ Hr) by discriminate.
    assert (Hf : Server.line_framing (content_length_line (List.length (dumps v)) ++ CRLF)
                 = lsp) by reflexivity.
    rewrite Hf. rewrite (read_lsp_from_frame v rest) by auto.
    reflexivity.
Qed.
End ServerReaders.


(** Enough fuel for the header loop: beyond the length of the input the
    result no longer depends on it. *)
Lemma read_header_lines_fuel (fuel1 fuel2 : nat) (h : list (bytes * bytes)) (inp : bytes) :
  List.length inp < fuel1 -> List.length inp < fuel2 ->
  Server.read_header_lines fuel1 h inp = Server.read_header_lines fuel2 h inp.
Proof.
  revert fuel2 h inp. induction fuel1 as [|fuel1 IH]; intros fuel2 h inp H1 H2; [lia|].
  destruct fuel2 as [|fuel2]; [lia|]. cbn [Server.read_header_lines].
  pose proof (readline_app inp) as E.
  destruct (readline inp) as [line rest]. cbn [fst snd] in *.
  destruct line as [|c line]; [reflexivity|].
  destruct (Server.is_blank_line (c :: line)); [reflexivity|].
  assert (Hl : List.length rest < List.length inp).
  { rewrite <- E, length_app. simpl. lia. }
  apply IH; lia.
Qed.

(** A buffer without a newline holds no complete message of either
    framing: nothing is consumed. *)
Lemma no_newline_forallb (b : bytes) :
  contains [LF] b = false -> forallb (fun c => negb (Ascii.eqb LF c)) b = true.
Proof.
  unfold contains. induction b as [|c b IH]; [reflexivity|].
  rewrite find_unfold. cbn [startswith forallb]. rewrite andb_true_r.
  destruct (Ascii.eqb LF c); [discriminate|]. cbn [negb andb].
  destruct (find [LF] b); [discriminate | auto].
Qed.

Lemma startswith_crlfcrlf_lf (b : bytes) :
  startswith CRLFCRLF b = true -> contains [LF] b = true.
Proof.
  destruct b as [|c0 [|c1 b]]; cbn [startswith CRLFCRLF]; intros H;
    [discriminate H | rewrite andb_false_r in H; discriminate H |].
  apply andb_prop in H as [_ H]. apply andb_prop in H as [H _].
  apply Ascii.eqb_eq in H. subst c1.
  unfold contains. rewrite find_unfold. cbn [startswith].
  destruct (Ascii.eqb LF c0); [reflexivity|]. cbn [andb].
  rewrite find_unfold. cbn [startswith]. rewrite Ascii.eqb_refl. reflexivity.
Qed.

Lemma find_crlfcrlf_none (b : bytes) :
  contains [LF] b = false -> find CRLFCRLF b = None.
Proof.
  induction b as [|c b IH]; intros H; [reflexivity|].
  rewrite find_unfold.
  destruct (startswith CRLFCRLF (c :: b)) eqn:Es.
  - apply startswith_crlfcrlf_lf in Es. congruence.
  - rewrite IH; [reflexivity|].
    unfold contains in *. rewrite find_unfold in H.
    destruct (startswith [LF] (c :: b)); [discriminate|].
    destruct (find [LF] b); [discriminate | reflexivity].
Qed.

Lemma sniff_no_newline (prefix : string) (b : bytes) :
  contains [LF] b = false -> Debugger.sniff_and_summarize prefix b = ([], None).
Proof.
  intros H. unfold Debugger.sniff_and_summarize, Debugger.try_parse_lsp,
    Debugger.try_parse_ndjson.
  rewrite (find_crlfcrlf_none b H).
  unfold contains in H. destruct (find [LF] b); [discriminate|].
  destruct (_ || _); destruct (_ || _); reflexivity.
Qed.

(** ** The round trip *)



(** * Decode failures *)

Section DecodeFailure.
Variable world : Type.
Variable UPNOTE_OK : bool.
Variable UpNoteClient : option (Server.client_class world).
Implicit Types st : Server.state world.

Lemma main_loop_no_message st (fuel : nat) :
  fst (Server.read_message st) = None ->
  Server.main_loop UPNOTE_OK UpNoteClient (S fuel) st
  = Some (Server.Returned,
          Server.add_log (snd (Server.read_message st)) Server.EofInvalidExiting).
Proof.
  intros H. cbn [Server.main_loop].
  destruct (Server.read_message st) as [req st1]. cbn [fst snd] in *. subst req.
  reflexivity.
Qed.

End DecodeFailure.



(** * The cached framing *)

Lemma frame_encode (f : framing) (payload : json) : frame (Some f) payload = encode f payload.
Proof. destruct f; reflexivity. Qed.

Lemma frames_encode (f : framing) (replies : list json) :
  map (frame (Some f)) replies = map (encode f) replies.
Proof. apply map_ext. intros v. apply frame_encode. Qed.

Section CachedFraming.
Variable world : Type.
Variable UPNOTE_OK : bool.
Variable UpNoteClient : option (Server.client_class world).
Implicit Types st : Server.state world.

(** C5, as the code has it.  Once a framing is cached it never changes:
    no read alters it, every reply is encoded under it, and all the loop
    writes from then on is a sequence of frames of that framing; a fresh
    server caches the framing of its first line.  The decode rule of a
    read, however, is chosen afresh from the line read and does not
    depend on the cached framing. *)
Theorem C5_cached_framing st (f : framing) :
  Server.TRANSPORT_MODE st = Some f ->
  Server.TRANSPORT_MODE (snd (Server.read_message st)) = Some f
  /\ (forall payload,
         Server.stdout (Server.write_message payload st)
         = Server.stdout st ++ encode f payload
         /\ Server.TRANSPORT_MODE (Server.write_message payload st) = Some f)
  /\ (forall fuel r st',
         Server.main_loop UPNOTE_OK UpNoteClient fuel st = Some (r, st') ->
         exists replies,
           Server.stdout st' = Server.stdout st ++ List.concat (map (encode f) replies)
           /\ Server.TRANSPORT_MODE st' = Some f)
  /\ (forall m, fst (Server.read_message (Server.set_mode st m))
                = fst (Server.read_message st))
  /\ (forall inp w,
         exists r st' replies,
           Server.main UPNOTE_OK UpNoteClient (Server.start inp w) = Some (r, st')
           /\ Server.stdout st'
              = List.concat
                  (map (encode (Server.line_framing (fst (readline inp)))) replies)).
Proof.
  intros Hm. split; [apply read_message_keeps_mode, Hm|]. split.
  { intros payload.
    destruct (write_message_wrote world payload st) as (Ho & Hm' & _).
    rewrite Ho, Hm', Hm. cbn [map List.concat]. rewrite app_nil_r, frame_encode. auto. }
  split.
  { intros fuel r st' H.
    destruct (main_loop_frames world UPNOTE_OK UpNoteClient fuel st f r st' Hm H)
      as (replies & Ho & Hm').
    exists replies. rewrite <- frames_encode. auto. }
  split; [intros m; apply read_message_ignores_mode|].
  intros inp w.
  destruct (main_frames world UPNOTE_OK UpNoteClient inp w) as (r & st' & replies & Hr & Ho).
  exists r, st', replies. rewrite <- frames_encode. auto.
Qed.
End CachedFraming.

Lemma C5_cached_framing_witness :
  Server.TRANSPORT_MODE
    (snd (Server.read_message (Server.start mixed_input tt))) = Some lsp
  /\ Server.TRANSPORT_MODE
       (snd (Server.read_message
               (snd (Server.read_message (Server.start mixed_input tt))))) = Some lsp.
Proof.
  split; [reflexivity|].
  apply (C5_cached_framing unit true no_client
           (snd (Server.read_message (Server.start mixed_input tt))) lsp).
  reflexivity.
Defined.

(** With lsp cached, the second read still decodes the ndjson line, which
    the lsp rule would not decode; both replies go out lsp-framed. *)
Lemma C5_counterexample :
  let st1 := snd (Server.read_message (Server.start mixed_input tt)) in
  Server.TRANSPORT_MODE st1 = Some lsp
  /\ Server.stdin st1 = encode ndjson (ping_request 2)
  /\ fst (Server.read_message st1) = Some (ping_request 2)
  /\ fst (Server._read_lsp_from (encode ndjson (ping_request 2))
            (Server.set_stdin st1 [])) = None
  /\ output_of no_client mixed_input
     = Some (encode lsp (Server.result_reply (JInt 1) (JObj []))
               ++ encode lsp (Server.result_reply (JInt 2) (JObj []))).
Proof. repeat split; reflexivity. Qed.


Example frobnicate_scenario :
  output_of no_client (Q "{'jsonrpc':'2.0','method':'frobnicate','id':9}" ++ [LF])
  = Some (Q "{'jsonrpc':'2.0','id':9,'error':{'code':-32601,'message':'Method not found: frobnicate'}}"
            ++ [LF]).
Proof. reflexivity. Qed.

Example ping_scenario :
  output_of no_client (Q "{'jsonrpc':'2.0','id':1,'method':'ping'}" ++ [LF])
  = Some (Q "{'jsonrpc':'2.0','id':1,'result':{}}" ++ [LF]).
Proof. reflexivity. Qed.

Example notification_scenario :
  output_of no_client (Q "{'jsonrpc':'2.0','method':'noop'}" ++ [LF]) = Some [].
Proof. reflexivity. Qed.

Example null_id_scenario :
  output_of no_client (Q "{'jsonrpc':'2.0','id':null,'method':'ping'}" ++ [LF]) = Some [].
Proof. reflexivity. Qed.

Example lsp_scenario :
  decode lsp (B "Content-Length: 2" ++ CRLFCRLF ++ B "{}") = Some (JObj [])
  /\ encode lsp (JObj []) = B "Content-Length: 2" ++ CRLFCRLF ++ B "{}".
Proof. split; reflexivity. Qed.



Example tools_call_scenarios :
  output_of no_client
    (Q "{'jsonrpc':'2.0','id':4,'method':'tools/call','params':{'name':'open_upnote'}}"
       ++ [LF])
  = Some (encode ndjson
            (Server.result_reply (JInt 4)
               (tool_payload
                  [JObj [("type", JStr "text");
                         ("text", JStr (string_of_list_ascii
                                          (Q "{'success': false, 'error': 'UpNote client not available'}")))]%string]
                  true)))
  /\ output_of (Some obliging_client)
       (Q "{'jsonrpc':'2.0','id':4,'method':'tools/call','params':{'name':'open_upnote'}}"
          ++ [LF])
     = Some (encode ndjson
               (Server.result_reply (JInt 4)
                  (tool_payload
                     [JObj [("type", JStr "text");
                            ("text", JStr (string_of_list_ascii
                                             (Q "{'success': true, 'result': true}")))]%string]
                     false))).
Proof. split; reflexivity. Qed.


Example initialize_versions :
  Server.resp_initialize (JObj []) = Server.Return (initialize_result "1.0.0")
  /\ Server.resp_initialize (JObj [("protocolVersion", JInt 2024)]%string)
     = Server.Return (initialize_result "1.0.0")
  /\ Server.resp_initialize (JObj [("protocolVersion", JStr "1.2.0202")]%string)
     = Server.Return (initialize_result "1.0.0")
  /\ Server.resp_initialize (JObj [("protocolVersion", JStr "2025-06-18")]%string)
     = Server.Return (initialize_result "2025-06-18").
Proof. repeat split; reflexivity. Qed.

(** Params that are a non-empty list: [resp_initialize] raises on
    [params.get], and the request gets the internal-error reply, with no
    result and so no protocolVersion. *)
Example initialize_list_params :
  Server.resp_initialize (JArr [JInt 1])
  = Server.Raise "'list' object has no attribute 'get'"
  /\ output_of no_client
       (Q "{'jsonrpc':'2.0','id':1,'method':'initialize','params':[1]}" ++ [LF])
     = Some (encode ndjson
               (Server.error_reply (JInt 1) (-32603)
                  "Internal error: 'list' object has no attribute 'get'")).
Proof. split; reflexivity. Qed.

(** * Further properties of the code *)

(** * Further properties of the server's transport *)

Lemma contains_none (c0 : ascii) (b : bytes) :
  forallb (fun c => negb (Ascii.eqb c0 c)) b = true -> contains [c0] b = false.
Proof. intros H. unfold contains. rewrite (find_none c0 [] b H). reflexivity. Qed.

Lemma readline_ndjson_frame (v : json) (rest : bytes) :
  readline (Server.ndjson_frame v ++ rest) = (Server.ndjson_frame v, rest).
Proof.
  unfold Server.ndjson_frame. rewrite <- app_assoc.
  apply readline_line, printable_not_lf, dumps_printable.
Qed.

(** X1. An ndjson frame is one line whatever the payload holds: the text of
    [json.dumps] has no raw line feed or carriage return (those inside
    strings are escaped), so the only line feed of a frame is its last byte
    and [readline] returns the frame, whatever follows it. *)
Theorem ndjson_frame_single_line (v : json) (rest : bytes) :
  contains [LF] (dumps v) = false
  /\ contains [CR] (dumps v) = false
  /\ find [LF] (Server.ndjson_frame v ++ rest) = Some (List.length (dumps v))
  /\ readline (Server.ndjson_frame v ++ rest) = (Server.ndjson_frame v, rest).
Proof.
  pose proof (dumps_printable v) as Hp.
  split; [apply contains_none, printable_not_lf, Hp|].
  split; [apply contains_none, printable_not_cr, Hp|].
  split; [|apply readline_ndjson_frame].
  unfold Server.ndjson_frame. rewrite <- app_assoc.
  apply (find_after LF [] (dumps v) rest), printable_not_lf, Hp.
Qed.

Section Streams.
Variable world : Type.
Implicit Types st : Server.state world.

Lemma set_same st :
  Server.set_mode (Server.set_stdin st (Server.stdin st)) (Server.TRANSPORT_MODE st) = st.
Proof. destruct st; reflexivity. Qed.

(** X2. Message boundaries survive the wire: when the input holds messages as
    the writers frame them, one after the other and each under either
    framing, as many calls of [read_message] return exactly those messages
    in order and leave what follows them unread; the cached framing is
    that of the first message unless one was cached before. *)
Theorem read_messages_wire (msgs : list (framing * json)) (rest : bytes) st :
  forallb readable msgs = true ->
  Server.stdin st = wire msgs ++ rest ->
  read_messages (List.length msgs) st
  = (map (fun fv => Some (snd fv)) msgs,
     Server.set_mode (Server.set_stdin st rest)
       (match msgs with
        | [] => Server.TRANSPORT_MODE st
        | fv :: _ => Server.mode_or (Server.TRANSPORT_MODE st) (fst fv)
        end)).
Proof.
  revert st. induction msgs as [|[f v] msgs IH]; intros st Hok Hin.
  - cbn [wire map List.concat app] in Hin. cbn [List.length read_messages map].
    rewrite <- Hin, set_same. reflexivity.
  - cbn [forallb] in Hok. apply andb_prop in Hok as [Hv Hok].
    unfold readable in Hv. cbn [fst snd] in Hv. apply andb_prop in Hv as [Hwf Hc].
    unfold wire in Hin. cbn [map List.concat fst snd] in Hin. rewrite <- app_assoc in Hin.
    fold (wire msgs) in Hin.
    cbn [List.length read_messages map fst snd].
    rewrite (read_message_encode world f v (wire msgs ++ rest) st Hwf); [|  | exact Hin].
    2: { intros ->. exact Hc. }
    rewrite (IH _ Hok) by reflexivity.
    f_equal. destruct st as [i o m l e]. cbn.
    destruct msgs as [|[f' v'] msgs']; destruct m; reflexivity.
Qed.

(** A line that ends in CR LF is read as the same message. *)
Lemma read_ndjson_from_crlf (v : json) st :
  wf_json v = true ->
  Server._read_ndjson_from (dumps v ++ CRLF) st = (Some v, st).
Proof.
  intros Hwf. unfold Server._read_ndjson_from.
  rewrite (decode_utf8_line v CRLF Hwf eq_refl).
  rewrite (str_strip_line (dumps v) CRLF (dumps_head_graphic v) (dumps_last_graphic v))
    by (right; reflexivity).
  rewrite (loads_dumps v Hwf). reflexivity.
Qed.

End Streams.

Lemma rstrip_crlf_crlf (line : bytes) :
  forallb (fun c => negb (is_crlf c)) line = true -> rstrip_crlf (line ++ CRLF) = line.
Proof.
  intros H. unfold rstrip_crlf, rstrip_by, CRLF. rewrite rev_app_distr.
  cbn [rev app lstrip_by].
  change (is_crlf LF) with true. change (is_crlf CR) with true. cbn iota.
  rewrite (lstrip_by_id is_crlf (rev line)) by (apply last_not, H).
  apply rev_involutive.
Qed.

(** X3. Lines that end in CR LF instead of LF are messages all the same: the
    proxy's ndjson rule strips both bytes and counts both as consumed, and
    the server's reader strips them before parsing. *)
Theorem crlf_terminated_line (world : Type) (v : json) (trail : bytes)
  (st : Server.state world) :
  wf_json v = true ->
  Debugger.try_parse_ndjson (dumps v ++ CRLF ++ trail)
  = Some (dumps v, List.length (dumps v) + 2)
  /\ decode ndjson (dumps v ++ CRLF ++ trail) = Some v
  /\ (container v = true ->
      Server.stdin st = dumps v ++ CRLF ++ trail ->
      Server.read_message st
      = (Some v,
         Server.set_mode (Server.set_stdin st trail)
           (Server.mode_or (Server.TRANSPORT_MODE st) ndjson))).
Proof.
  intros Hwf.
  pose proof (dumps_printable v) as Hp.
  assert (Hnl : forallb (fun c => negb (Ascii.eqb LF c)) (dumps v ++ [CR]) = true).
  { rewrite forallb_app, (printable_not_lf _ Hp). reflexivity. }
  assert (Hshape : dumps v ++ CRLF ++ trail = (dumps v ++ [CR]) ++ LF :: trail).
  { rewrite <- app_assoc. reflexivity. }
  assert (Ht : Debugger.try_parse_ndjson (dumps v ++ CRLF ++ trail)
               = Some (dumps v, List.length (dumps v) + 2)).
  { rewrite Hshape, (try_parse_ndjson_line _ trail Hnl).
    rewrite <- app_assoc. cbn [app]. fold CRLF.
    rewrite (rstrip_crlf_crlf _ (printable_not_crlf _ Hp)).
    rewrite length_app. cbn [List.length]. do 2 f_equal. lia. }
  split; [exact Ht|]. split.
  - unfold decode. cbn [try_parse]. rewrite Ht. apply json_of_bytes_dumps, Hwf.
  - intros Hc Hin.
    assert (Hr : readline (Server.stdin st) = (dumps v ++ CRLF, trail)).
    { rewrite Hin, Hshape, (readline_line _ trail Hnl), <- app_assoc. reflexivity. }
    rewrite (read_message_unfold world st _ _ Hr).
    2: { destruct (dumps v); discriminate. }
    assert (Hf : Server.line_framing (dumps v ++ CRLF) = ndjson).
    { destruct v; try discriminate Hc; reflexivity. }
    rewrite Hf. apply read_ndjson_from_crlf, Hwf.
Qed.

Lemma crlf_terminated_line_witness :
  wf_json (ping_request 1) = true
  /\ Debugger.try_parse_ndjson (dumps (ping_request 1) ++ CRLF ++ B "{")
     = Some (dumps (ping_request 1), List.length (dumps (ping_request 1)) + 2).
Proof.
  split; [reflexivity|].
  apply (crlf_terminated_line unit (ping_request 1) (B "{") (Server.start [] tt)).
  reflexivity.
Defined.

Lemma read_messages_wire_witness :
  forallb readable [(lsp, ping_request 1); (ndjson, ping_request 2)] = true
  /\ fst (read_messages 2 (Server.start mixed_input tt))
     = [Some (ping_request 1); Some (ping_request 2)].
Proof.
  split; [reflexivity|].
  exact (f_equal fst
           (read_messages_wire unit [(lsp, ping_request 1); (ndjson, ping_request 2)] []
              (Server.start mixed_input tt) eq_refl eq_refl)).
Defined.

Section Loop.
Variable world : Type.
Variable UPNOTE_OK : bool.
Variable UpNoteClient : option (Server.client_class world).
Implicit Types st : Server.state world.

(** One round of the loop on a framed message. *)
Lemma main_loop_message (f : framing) (v : json) (rest : bytes) st (fuel : nat) :
  readable (f, v) = true ->
  Server.stdin st = encode f v ++ rest ->
  Server.main_loop UPNOTE_OK UpNoteClient (S fuel) st
  = match Server.loop_body UPNOTE_OK UpNoteClient (Some v)
            (Server.set_mode (Server.set_stdin st rest)
               (Server.mode_or (Server.TRANSPORT_MODE st) f)) with
    | inl done => Some done
    | inr st2 => Server.main_loop UPNOTE_OK UpNoteClient fuel st2
    end.
Proof.
  intros Hok Hin. unfold readable in Hok. cbn [fst snd] in Hok.
  apply andb_prop in Hok as [Hwf Hc].
  cbn [Server.main_loop].
  rewrite (read_message_encode world f v rest st Hwf); [reflexivity | | exact Hin].
  intros ->. exact Hc.
Qed.

(** X4. A message that is valid JSON but not an object ends the server.  The
    loop calls [req.get] outside its [try] block: an array (a JSON-RPC
    batch), a string, a number or a boolean raises [AttributeError] out of
    [main], and a [null] is taken for the end of input.  No reply is
    written and the input behind the message is left unread. *)
Theorem non_object_message_ends_loop (f : framing) (v : json) (rest : bytes) st
  (fuel : nat) :
  readable (f, v) = true ->
  match v with JObj _ => False | _ => True end ->
  Server.stdin st = encode f v ++ rest ->
  exists status st',
    Server.main_loop UPNOTE_OK UpNoteClient (S fuel) st = Some (status, st')
    /\ status = match v with
                | JNull => Server.Returned
                | _ => Server.Uncaught (Server.no_attribute_get v)
                end
    /\ Server.stdout st' = Server.stdout st
    /\ Server.stdin st' = rest.
Proof.
  intros Hok Hv Hin. rewrite (main_loop_message f v rest st fuel Hok Hin).
  destruct v; try contradiction; cbn [Server.loop_body];
    eexists; eexists; (split; [reflexivity|]); repeat split.
Qed.

(** X5. A [shutdown] request is answered with an empty result and ends the
    loop: what follows it on the input is never read. *)
Theorem shutdown_ends_loop (f : framing) (req : list (string * json)) (i : json)
  (rest : bytes) st (fuel : nat) :
  wf_json (JObj req) = true ->
  dict_get "id" req = Some i -> i <> JNull ->
  Server.method_is (dict_get "method" req) "shutdown" = true ->
  Server.stdin st = encode f (JObj req) ++ rest ->
  exists st',
    Server.main_loop UPNOTE_OK UpNoteClient (S fuel) st = Some (Server.Returned, st')
    /\ Server.stdout st'
       = Server.stdout st
           ++ frame (Server.mode_or (Server.TRANSPORT_MODE st) f)
                (Server.result_reply i (JObj []))
    /\ Server.stdin st' = rest.
Proof.
  intros Hwf Hid Hnn Hm Hin.
  assert (Hok : readable (f, JObj req) = true).
  { unfold readable. cbn [fst snd]. rewrite Hwf. destruct f; reflexivity. }
  rewrite (main_loop_message f (JObj req) rest st fuel Hok Hin).
  rewrite (loop_body_handle world UPNOTE_OK UpNoteClient req i _ Hid Hnn).
  unfold Server.handle_request.
  assert (Hs : forall m, String.eqb "shutdown" m = false ->
                         Server.method_is (dict_get "method" req) m = false).
  { intros m Hne. unfold Server.method_is in *.
    destruct (dict_get "method" req) as [[| | |s| |]|]; try discriminate Hm.
    apply String.eqb_eq in Hm. subst s. exact Hne. }
  rewrite !Hs by reflexivity. rewrite Hm.
  eexists. split; [reflexivity|].
  destruct st as [inp out m l e]. destruct m as [[]|]; destruct f; cbn; auto.
Qed.

End Loop.

Lemma non_object_message_ends_loop_witness :
  exists status st',
    Server.main_loop true no_client 1
      (Server.start (encode ndjson (JArr [ping_request 1; ping_request 2])) tt)
    = Some (status, st')
    /\ status = Server.Uncaught "'list' object has no attribute 'get'"
    /\ Server.stdout st' = []
    /\ Server.stdin st' = [].
Proof.
  apply (non_object_message_ends_loop unit true no_client ndjson
           (JArr [ping_request 1; ping_request 2]) []
           (Server.start (encode ndjson (JArr [ping_request 1; ping_request 2])) tt) 0
           eq_refl I).
  cbn [Server.stdin Server.start]. rewrite app_nil_r. reflexivity.
Defined.

Lemma shutdown_ends_loop_witness :
  exists st',
    Server.main_loop true no_client 1
      (Server.start
         (encode lsp (JObj [("id", JInt 3); ("method", JStr "shutdown")]%string)
            ++ ping_line 4) tt)
    = Some (Server.Returned, st')
    /\ Server.stdout st' = encode lsp (Server.result_reply (JInt 3) (JObj []))
    /\ Server.stdin st' = ping_line 4.
Proof.
  apply (shutdown_ends_loop unit true no_client lsp
           [("id", JInt 3); ("method", JStr "shutdown")]%string (JInt 3) (ping_line 4)
           (Server.start
              (encode lsp (JObj [("id", JInt 3); ("method", JStr "shutdown")]%string)
                 ++ ping_line 4) tt) 0
           eq_refl eq_refl ltac:(discriminate) eq_refl eq_refl).
Defined.

(** * Further properties of the handlers *)

(** X6. Every tool that [tools/list] advertises is one that [call_tool]
    dispatches: with a client at hand, a call that names it reaches the
    client method of that name with the arguments as keyword arguments, and
    the result or the exception of that method is what the payload
    reports.  The advertised names are pairwise distinct.  The converse
    fails for [create_daily_note], which is dispatched but not advertised. *)
Theorem advertised_tools_dispatched (world : Type) (cls : Server.client_class world)
  (n : string) (kwargs : list (string * json)) (st : Server.state world)
  (w : world) :
  In n (tool_names Server.list_tools) ->
  Server.new_client cls (Server.env st) = (Server.Return tt, w) ->
  Server.call_tool true (Some cls)
    (JObj [("name", JStr n); ("arguments", JObj kwargs)]%string) st
  = (Server.Return
       match fst (Server.call_method cls n kwargs w) with
       | Server.Return res => Server.tool_success res
       | Server.Raise e => Server.tool_failure e
       end,
     Server.set_env (Server.add_log st (Server.ToolsCall n))
       (snd (Server.call_method cls n kwargs w)))
  /\ NoDup (tool_names Server.list_tools)
  /\ mem_string "create_daily_note" Server.dispatched_tools = true
  /\ ~ In "create_daily_note"%string (tool_names Server.list_tools).
Proof.
  intros Hin Hnew. split; [|split; [|split]].
  - assert (Hd : mem_string n Server.dispatched_tools = true).
    { cbv [tool_names Server.list_tools Server.tool dict_get String.eqb Ascii.eqb
           Bool.eqb flat_map app] in Hin.
      repeat (destruct Hin as [<-|Hin]; [reflexivity|]). contradiction. }
    unfold Server.call_tool.
    cbn [Server.py_get dict_get String.eqb Ascii.eqb Bool.eqb py_str
         Server.env Server.add_log].
    assert (Ht : (if truthy (JObj kwargs) then JObj kwargs else JObj []) = JObj kwargs)
      by (destruct kwargs; reflexivity).
    rewrite Ht, Hnew, Hd. cbn [Server.env Server.set_env].
    destruct (Server.call_method cls n kwargs w) as [[res|e] w']; reflexivity.
  - cbv [tool_names Server.list_tools Server.tool dict_get String.eqb Ascii.eqb
         Bool.eqb flat_map app].
    repeat (constructor; [cbn [In]; intuition discriminate|]). constructor.
  - reflexivity.
  - cbv [tool_names Server.list_tools Server.tool dict_get String.eqb Ascii.eqb
         Bool.eqb flat_map app]. cbn [In]. intuition discriminate.
Qed.

Lemma advertised_tools_dispatched_witness :
  In "export_note"%string (tool_names Server.list_tools)
  /\ Server.call_tool true (Some obliging_client)
       (JObj [("name", JStr "export_note");
              ("arguments", JObj [("note_id", JStr "n1")])]%string)
       (Server.start [] tt)
     = (Server.Return (Server.tool_success (JBool true)),
        Server.add_log (Server.start [] tt) (Server.ToolsCall "export_note")).
Proof.
  assert (Hin : In "export_note"%string (tool_names Server.list_tools)).
  { cbv [tool_names Server.list_tools Server.tool dict_get String.eqb Ascii.eqb
         Bool.eqb flat_map app]. cbn [In]. tauto. }
  split; [exact Hin|].
  apply (advertised_tools_dispatched unit obliging_client "export_note"
           [("note_id", JStr "n1")]%string (Server.start [] tt) tt Hin eq_refl).
Defined.

Lemma encode_nonempty_length (f : framing) (v : json) : 1 <= List.length (encode f v).
Proof.
  destruct f; cbn [encode]; [unfold Server.ndjson_frame | rewrite lsp_frame_eq];
    rewrite length_app; [cbn; lia|].
  unfold content_length_line. rewrite length_app. cbn. lia.
Qed.

(** * Further properties of the proxy's decode rules *)

Lemma startswith_split (p b : bytes) :
  startswith p b = true -> b = p ++ skipn (List.length p) b.
Proof.
  revert b. induction p as [|x p IH]; intros b H; [reflexivity|].
  destruct b as [|y b]; [discriminate H|]. cbn [startswith] in H.
  apply andb_prop in H as [Hx Hp]. apply Ascii.eqb_eq in Hx. subst y.
  cbn [List.length skipn app]. f_equal. apply IH, Hp.
Qed.

(** Where [find] reports an occurrence there is one, and none starts
    before it. *)
Lemma find_some_split (sub b : bytes) (i : nat) :
  find sub b = Some i ->
  b = firstn i b ++ sub ++ skipn (i + List.length sub) b.
Proof.
  revert i. induction b as [|c b IH]; intros i H.
  - cbn [find] in H. destruct (startswith sub []) eqn:Es; [|discriminate H].
    injection H as <-. destruct sub; [reflexivity | discriminate Es].
  - rewrite find_unfold in H. destruct (startswith sub (c :: b)) eqn:Es.
    + injection H as <-. cbn [firstn app Nat.add]. apply startswith_split, Es.
    + destruct (find sub b) as [j|] eqn:Ej; [|discriminate H].
      injection H as <-. cbn [firstn app Nat.add skipn]. f_equal. apply IH. reflexivity.
Qed.

Lemma find_first (c0 : ascii) (b : bytes) (i : nat) :
  find [c0] b = Some i -> forallb (fun c => negb (Ascii.eqb c0 c)) (firstn i b) = true.
Proof.
  revert i. induction b as [|c b IH]; intros i H.
  - discriminate H.
  - rewrite find_unfold in H. cbn [startswith] in H. rewrite andb_true_r in H.
    destruct (Ascii.eqb c0 c) eqn:Ec.
    + injection H as <-. reflexivity.
    + destruct (find [c0] b) as [j|] eqn:Ej; [|discriminate H].
      injection H as <-. cbn [firstn forallb]. rewrite Ec. cbn. apply IH. reflexivity.
Qed.

(** What [lstrip_by] removes and what it leaves. *)
Lemma lstrip_by_split (p : ascii -> bool) (b : bytes) :
  exists pre, b = pre ++ lstrip_by p b /\ forallb p pre = true
              /\ match lstrip_by p b with c :: _ => p c = false | [] => True end.
Proof.
  induction b as [|c b (pre & E & Hp & Hh)].
  - exists []. repeat split.
  - cbn [lstrip_by]. destruct (p c) eqn:Ec.
    + exists (c :: pre). cbn [app forallb]. rewrite Ec, Hp. repeat split; [|exact Hh].
      f_equal. exact E.
    + exists []. repeat split. exact Ec.
Qed.

Lemma rstrip_by_split (p : ascii -> bool) (b : bytes) :
  exists suf, b = rstrip_by p b ++ suf /\ forallb p suf = true
              /\ match rev (rstrip_by p b) with c :: _ => p c = false | [] => True end.
Proof.
  unfold rstrip_by. destruct (lstrip_by_split p (rev b)) as (pre & E & Hp & Hh).
  exists (rev pre). rewrite rev_involutive. repeat split; [| |exact Hh].
  - rewrite <- rev_app_distr, <- E, rev_involutive. reflexivity.
  - rewrite forallb_forall in *. intros x Hx. apply Hp. apply in_rev. exact Hx.
Qed.

(** What the decode rules report as consumed lies within the buffer. *)
Lemma try_parse_ndjson_consumed (buffer line : bytes) (consumed : nat) :
  Debugger.try_parse_ndjson buffer = Some (line, consumed) ->
  1 <= consumed <= List.length buffer /\ contains [LF] buffer = true.
Proof.
  unfold Debugger.try_parse_ndjson, contains.
  destruct (find [LF] buffer) as [nl|] eqn:Ef; [|discriminate].
  intros H. injection H as _ <-.
  pose proof (find_some_split _ _ _ Ef) as Hs. cbn [List.length] in Hs.
  apply (f_equal (@List.length ascii)) in Hs. rewrite !length_app in Hs.
  cbn [List.length] in Hs. rewrite length_firstn in Hs.
  pose proof (find_some_bound _ _ _ Ef). split; [lia | reflexivity].
Qed.

Lemma try_parse_lsp_consumed (buffer body : bytes) (consumed : nat) :
  Debugger.try_parse_lsp buffer = Some (body, consumed) ->
  1 <= consumed <= List.length buffer /\ contains CRLFCRLF buffer = true.
Proof.
  unfold Debugger.try_parse_lsp, contains.
  destruct (find CRLFCRLF buffer) as [sep|] eqn:Ef; [|discriminate].
  set (n := Debugger.content_length _).
  destruct (n <=? 0)%Z eqn:En; [discriminate|]. apply Z.leb_gt in En.
  destruct (List.length buffer <? sep + 4 + Z.to_nat n)%nat eqn:El; [discriminate|].
  apply Nat.ltb_ge in El. intros H. injection H as _ <-. split; [lia | reflexivity].
Qed.

Lemma sniff_consumed_le (prefix : string) (buffer : bytes) (logs : list Debugger.log_record)
  (consumed : nat) :
  Debugger.sniff_and_summarize prefix buffer = (logs, Some consumed) ->
  consumed <= List.length buffer.
Proof.
  unfold Debugger.sniff_and_summarize.
  assert (Hnd : forall r,
    (if bytes_eqb (slice buffer 0 1) ["{"] || bytes_eqb (slice buffer 0 1) ["["]
     then match Debugger.try_parse_ndjson buffer with
          | Some (line, n) =>
              ((prefix, Debugger.NdjsonDetected (List.length line))
                 :: Debugger.summarize_json_bytes prefix line, Some n)
          | None => ([], None)
          end
     else ([], None)) = (r, Some consumed) -> consumed <= List.length buffer).
  { intros r. destruct (_ || _); [|discriminate].
    destruct (Debugger.try_parse_ndjson buffer) as [[line n]|] eqn:E; [|discriminate].
    intros H. injection H as _ <-. apply (try_parse_ndjson_consumed _ _ _ E). }
  destruct (startswith (B "Content-Length:") buffer || contains CRLFCRLF (slice buffer 0 128));
    [|apply Hnd].
  destruct (Debugger.try_parse_lsp buffer) as [[body n]|] eqn:E; [|apply Hnd].
  intros H. injection H as _ <-. apply (try_parse_lsp_consumed _ _ _ E).
Qed.

(** X7. The ndjson rule, on any buffer: what it reports as consumed is the
    first line with its line feed, never nothing and never more than the
    buffer holds; the text it hands on is that line less the CR and LF
    bytes at its end, so text and terminator together are exactly the
    bytes consumed, and the text has no line feed and ends in neither. *)
Theorem try_parse_ndjson_bounds (buffer line : bytes) (consumed : nat) :
  Debugger.try_parse_ndjson buffer = Some (line, consumed) ->
  1 <= consumed <= List.length buffer
  /\ (exists eol,
         firstn consumed buffer = line ++ eol
         /\ eol <> [] /\ forallb is_crlf eol = true)
  /\ contains [LF] line = false
  /\ match rev line with c :: _ => is_crlf c = false | [] => True end.
Proof.
  unfold Debugger.try_parse_ndjson. destruct (find [LF] buffer) as [nl|] eqn:Ef;
    [|discriminate].
  intros H. injection H as <- <-.
  pose proof (find_some_split _ _ _ Ef) as Hs. cbn [List.length] in Hs.
  pose proof (find_first _ _ _ Ef) as Hfirst.
  assert (Hlen : nl + 1 <= List.length buffer).
  { rewrite Hs at 1. rewrite !length_app. cbn [List.length].
    pose proof (find_some_bound _ _ _ Ef). rewrite length_firstn. lia. }
  assert (Hline : slice buffer 0 (nl + 1) = firstn nl buffer ++ [LF]).
  { unfold slice. rewrite Nat.sub_0_r. cbn [skipn]. rewrite Hs at 1.
    assert (Hn : List.length (firstn nl buffer) = nl)
      by (rewrite length_firstn; lia).
    rewrite firstn_app, Hn.
    replace (nl + 1 - nl) with 1 by lia. cbn [app firstn].
    rewrite firstn_all2 by (rewrite Hn; lia). reflexivity. }
  rewrite Hline.
  destruct (rstrip_by_split is_crlf (firstn nl buffer ++ [LF])) as (suf & E & Hp & Hh).
  fold (rstrip_crlf (firstn nl buffer ++ [LF])) in *.
  split; [lia|]. split; [|split].
  - exists suf. unfold slice in Hline. rewrite Nat.sub_0_r in Hline. cbn [skipn] in Hline.
    rewrite Hline. split; [exact E|]. split; [|exact Hp].
    intros ->. rewrite app_nil_r in E. rewrite <- E, rev_app_distr in Hh.
    cbn in Hh. discriminate Hh.
  - (* the text is a prefix of the first line, cut before its line feed *)
    assert (Hpre : exists t, firstn nl buffer = rstrip_crlf (firstn nl buffer ++ [LF]) ++ t).
    { destruct suf as [|s suf] using rev_ind.
      - rewrite app_nil_r in E. rewrite <- E, rev_app_distr in Hh. discriminate Hh.
      - rewrite app_assoc in E. apply app_inj_tail in E as [E _]. eauto. }
    destruct Hpre as (t & Ht). rewrite Ht, forallb_app in Hfirst.
    apply andb_prop in Hfirst as [Hl _].
    unfold contains. rewrite (find_none LF [] _ Hl). reflexivity.
  - exact Hh.
Qed.

(** X8. The lsp rule, on any buffer: a message is reported only when the
    buffer holds the header terminator and a whole body after it; the body
    is not empty, it is the bytes right after the first CR LF CR LF, and
    what is reported as consumed is header, terminator and body, never
    more than the buffer holds. *)
Theorem try_parse_lsp_bounds (buffer body : bytes) (consumed : nat) :
  Debugger.try_parse_lsp buffer = Some (body, consumed) ->
  exists sep,
    find CRLFCRLF buffer = Some sep
    /\ consumed = sep + 4 + List.length body
    /\ 1 <= List.length body
    /\ consumed <= List.length buffer
    /\ firstn consumed buffer = firstn sep buffer ++ CRLFCRLF ++ body.
Proof.
  unfold Debugger.try_parse_lsp. destruct (find CRLFCRLF buffer) as [sep|] eqn:Ef;
    [|discriminate].
  set (n := Debugger.content_length _).
  destruct (n <=? 0)%Z eqn:En; [discriminate|]. apply Z.leb_gt in En.
  destruct (List.length buffer <? sep + 4 + Z.to_nat n)%nat eqn:El; [discriminate|].
  apply Nat.ltb_ge in El.
  intros H. injection H as <- <-.
  assert (Hb : List.length (slice buffer (sep + 4) (sep + 4 + Z.to_nat n)) = Z.to_nat n).
  { unfold slice. rewrite length_firstn, length_skipn. lia. }
  exists sep. rewrite Hb. split; [reflexivity|]. split; [reflexivity|].
  split; [lia|]. split; [exact El|].
  pose proof (find_some_split _ _ _ Ef) as Hs. change (List.length CRLFCRLF) with 4 in Hs.
  assert (Hsep : List.length (firstn sep buffer) = sep).
  { rewrite length_firstn. pose proof (find_some_bound _ _ _ Ef). lia. }
  unfold slice. replace (sep + 4 + Z.to_nat n - (sep + 4)) with (Z.to_nat n) by lia.
  rewrite Hs at 1.
  rewrite firstn_app, Hsep, firstn_all2 by (rewrite Hsep; lia).
  replace (sep + 4 + Z.to_nat n - sep) with (4 + Z.to_nat n) by lia.
  rewrite (firstn_app (4 + Z.to_nat n) CRLFCRLF).
  change (List.length CRLFCRLF) with 4.
  rewrite (firstn_all2 (n := 4 + Z.to_nat n) CRLFCRLF) by (cbn; lia).
  replace (4 + Z.to_nat n - 4) with (Z.to_nat n) by lia. reflexivity.
Qed.

(** X9. The sniffer, on any buffer: it logs a detection exactly when it
    reports bytes as consumed, the count is then at least one and at most
    what the buffer holds, and nothing is logged or consumed before the
    buffer holds a line feed. *)
Theorem sniff_consumed_bounds (prefix : string) (buffer : bytes) :
  match Debugger.sniff_and_summarize prefix buffer with
  | (logs, Some consumed) =>
      1 <= consumed <= List.length buffer /\ logs <> []
      /\ contains [LF] buffer = true
  | (logs, None) => logs = []
  end.
Proof.
  assert (Hnd :
    match (if bytes_eqb (slice buffer 0 1) ["{"] || bytes_eqb (slice buffer 0 1) ["["]
           then match Debugger.try_parse_ndjson buffer with
                | Some (line, consumed) =>
                    ((prefix, Debugger.NdjsonDetected (List.length line))
                       :: Debugger.summarize_json_bytes prefix line, Some consumed)
                | None => ([], None)
                end
           else ([], None)) with
    | (logs, Some consumed) =>
        1 <= consumed <= List.length buffer /\ logs <> []
        /\ contains [LF] buffer = true
    | (logs, None) => logs = []
    end).
  { destruct (_ || _); [|reflexivity].
    destruct (Debugger.try_parse_ndjson buffer) as [[line consumed]|] eqn:E; [|reflexivity].
    destruct (try_parse_ndjson_consumed _ _ _ E) as (Hb & Hl).
    split; [exact Hb|]. split; [discriminate | exact Hl]. }
  unfold Debugger.sniff_and_summarize.
  destruct (startswith (B "Content-Length:") buffer || contains CRLFCRLF (slice buffer 0 128));
    [|exact Hnd].
  destruct (Debugger.try_parse_lsp buffer) as [[body consumed]|] eqn:E; [|exact Hnd].
  destruct (try_parse_lsp_consumed _ _ _ E) as (Hb & Hf).
  split; [exact Hb|]. split; [discriminate|].
  destruct (contains [LF] buffer) eqn:Ec; [reflexivity|].
  unfold contains in Hf. rewrite (find_crlfcrlf_none buffer Ec) in Hf. discriminate Hf.
Qed.

(** * The proxy's log of a stream of messages *)

Lemma summarize_dumps (prefix : string) (v : json) :
  wf_json v = true ->
  Debugger.summarize_json_bytes prefix (dumps v)
  = [(prefix,
      match v with
      | JObj obj =>
          Debugger.JsonSummary (Debugger.repr_opt (dict_get "method" obj))
            (Debugger.repr_opt (dict_get "id" obj))
      | _ => Debugger.JsonNonDict (List.length (dumps v))
      end)].
Proof.
  intros Hwf. unfold Debugger.summarize_json_bytes, decode_utf8.
  rewrite (dumps_utf8_valid v Hwf), (loads_dumps v Hwf). destruct v; reflexivity.
Qed.

Lemma find_skip (c0 : ascii) (s pre X : bytes) :
  forallb (fun c => negb (Ascii.eqb c0 c)) pre = true ->
  find (c0 :: s) (pre ++ X) = option_map (Nat.add (List.length pre)) (find (c0 :: s) X).
Proof.
  induction pre as [|c pre IH]; intros H.
  - cbn [app List.length]. destruct (find (c0 :: s) X); reflexivity.
  - cbn [forallb] in H. apply andb_prop in H as [Hc Hp]. apply negb_true_iff in Hc.
    rewrite <- app_comm_cons, find_cons_miss by exact Hc. rewrite (IH Hp).
    destruct (find (c0 :: s) X); reflexivity.
Qed.

Lemma forallb_firstn (p : ascii -> bool) (k : nat) (b : bytes) :
  forallb p b = true -> forallb p (firstn k b) = true.
Proof.
  revert k. induction b as [|c b IH]; intros [|k] H; try reflexivity.
  cbn [forallb firstn] in *. apply andb_prop in H as [Hc Hb]. rewrite Hc, (IH k Hb).
  reflexivity.
Qed.

(** No header terminator before the header is complete. *)
Lemma find_crlfcrlf_partial (line : bytes) (k : nat) :
  forallb (fun c => negb (Ascii.eqb CR c)) line = true ->
  k < List.length line + 4 ->
  find CRLFCRLF (firstn k (line ++ CRLFCRLF)) = None.
Proof.
  intros Hl Hk. rewrite firstn_app.
  rewrite (find_skip CR [LF; CR; LF] (firstn k line)) by (apply forallb_firstn, Hl).
  assert (Hj : k - List.length line < 4) by lia.
  destruct (k - List.length line) as [|[|[|[|j]]]]; try reflexivity. lia.
Qed.

(** The lsp rule on a buffer that starts with the header of the writers. *)
Lemma try_parse_lsp_header (n : nat) (X : bytes) :
  0 < n ->
  Debugger.try_parse_lsp (content_length_line n ++ CRLFCRLF ++ X)
  = if (List.length X <? n)%nat then None
    else Some (firstn n X, List.length (content_length_line n) + 4 + n).
Proof.
  intros Hn. unfold Debugger.try_parse_lsp.
  rewrite (find_crlfcrlf (content_length_line n) X) by (apply content_length_line_no_cr, Hn).
  replace (List.length (content_length_line n) + 4)
    with (List.length (content_length_line n ++ CRLFCRLF))
    by (rewrite length_app; reflexivity).
  rewrite (app_assoc (content_length_line n) CRLFCRLF), slice_prefix.
  rewrite (content_length_of_line _ Hn).
  destruct (Z.of_nat n <=? 0)%Z eqn:Ez; [apply Z.leb_le in Ez; lia|].
  rewrite Nat2Z.id, length_app.
  destruct (List.length X <? n)%nat eqn:El.
  - apply Nat.ltb_lt in El.
    destruct (_ <? _)%nat eqn:El'; [reflexivity|]. apply Nat.ltb_ge in El'. lia.
  - apply Nat.ltb_ge in El.
    destruct (_ <? _)%nat eqn:El'; [apply Nat.ltb_lt in El'; lia|].
    unfold slice.
    replace (List.length (content_length_line n ++ CRLFCRLF) + n
             - List.length (content_length_line n ++ CRLFCRLF)) with n by lia.
    rewrite skipn_app, skipn_all, Nat.sub_diag. cbn [app skipn].
    rewrite length_app. reflexivity.
Qed.

Lemma not_brace_prefix (t : bytes) (k : nat) :
  bytes_eqb (slice (firstn k ("C" :: t)) 0 1) ["{"]
  || bytes_eqb (slice (firstn k ("C" :: t)) 0 1) ["["] = false.
Proof. destruct k; reflexivity. Qed.

(** Before a frame is complete the sniffer finds nothing. *)
Lemma sniff_prefix_quiet (prefix : string) (f : framing) (v : json) (k : nat) :
  (f = ndjson -> container v = true) ->
  k < List.length (encode f v) ->
  Debugger.sniff_and_summarize prefix (firstn k (encode f v)) = ([], None).
Proof.
  intros Hc Hk. destruct f; cbn [encode] in *.
  - apply sniff_no_newline, contains_none.
    unfold Server.ndjson_frame in *. rewrite length_app in Hk. cbn [List.length] in Hk.
    rewrite firstn_app. replace (k - List.length (dumps v)) with 0 by lia.
    cbn [firstn]. rewrite app_nil_r.
    apply forallb_firstn, printable_not_lf, dumps_printable.
  - rewrite lsp_frame_eq in *. set (n := List.length (dumps v)) in *.
    assert (Hn : 0 < n).
    { pose proof (dumps_nonempty v). unfold n. destruct (dumps v); [congruence|cbn; lia]. }
    assert (Hnone : Debugger.try_parse_lsp
                      (firstn k (content_length_line n ++ CRLFCRLF ++ dumps v)) = None).
    { destruct (Nat.lt_ge_cases k (List.length (content_length_line n) + 4)) as [Hlt|Hge].
      - unfold Debugger.try_parse_lsp.
        rewrite app_assoc, firstn_app, length_app.
        change (List.length CRLFCRLF) with 4.
        replace (k - (List.length (content_length_line n) + 4)) with 0 by lia.
        cbn [firstn]. rewrite app_nil_r.
        rewrite (find_crlfcrlf_partial _ k (content_length_line_no_cr n Hn) Hlt).
        reflexivity.
      - rewrite app_assoc, firstn_app, length_app.
        change (List.length CRLFCRLF) with 4.
        rewrite firstn_all2
          by (rewrite length_app; change (List.length CRLFCRLF) with 4; lia).
        rewrite <- app_assoc, (try_parse_lsp_header n _ Hn).
        rewrite !length_app in Hk. change (List.length CRLFCRLF) with 4 in Hk.
        rewrite length_firstn.
        destruct (_ <? _)%nat eqn:El; [reflexivity|]. apply Nat.ltb_ge in El. lia. }
    assert (Hb : bytes_eqb
                   (slice (firstn k (content_length_line n ++ CRLFCRLF ++ dumps v)) 0 1)
                   ["{"]
                 || bytes_eqb
                      (slice (firstn k (content_length_line n ++ CRLFCRLF ++ dumps v)) 0 1)
                      ["["] = false).
    { unfold content_length_line. cbn [B list_ascii_of_string app].
      apply not_brace_prefix. }
    unfold Debugger.sniff_and_summarize. rewrite Hnone, Hb.
    match goal with |- (if ?c then _ else _) = _ => destruct c end; reflexivity.
Qed.

(** On a complete frame the sniffer reports the message and all of the
    frame as consumed. *)
Lemma sniff_frame (prefix : string) (f : framing) (v : json) :
  readable (f, v) = true ->
  Debugger.sniff_and_summarize prefix (encode f v)
  = (summary prefix (f, v), Some (List.length (encode f v))).
Proof.
  unfold readable. cbn [fst snd]. intros H. apply andb_prop in H as [Hwf Hc].
  unfold summary. cbn [fst snd detected].
  destruct f; cbn [encode detected].
  - assert (Hnone : Debugger.try_parse_lsp (Server.ndjson_frame v) = None).
    { unfold Debugger.try_parse_lsp, Server.ndjson_frame.
      rewrite (find_none CR [LF; CR; LF]); [reflexivity|].
      rewrite forallb_app, (printable_not_cr _ (dumps_printable v)). reflexivity. }
    assert (Hb : bytes_eqb (slice (Server.ndjson_frame v) 0 1) ["{"]
                 || bytes_eqb (slice (Server.ndjson_frame v) 0 1) ["["] = true).
    { destruct v; try discriminate Hc; reflexivity. }
    pose proof (try_parse_ndjson_frame v []) as Hnd. rewrite app_nil_r in Hnd.
    unfold Debugger.sniff_and_summarize. rewrite Hnone, Hb, Hnd, (summarize_dumps _ _ Hwf).
    match goal with |- (if ?c then _ else _) = _ => destruct c end; reflexivity.
  - assert (Hl : startswith (B "Content-Length:") (Server.lsp_frame v) = true)
      by reflexivity.
    pose proof (try_parse_lsp_frame v []) as Hp. rewrite app_nil_r in Hp.
    unfold Debugger.sniff_and_summarize.
    rewrite Hl, Hp, (summarize_dumps _ _ Hwf). reflexivity.
Qed.

Lemma sniff_nil (prefix : string) : Debugger.sniff_and_summarize prefix [] = ([], None).
Proof. reflexivity. Qed.

(** The pump over the bytes of one frame, the buffer holding what has
    come of it so far: nothing is logged before its last byte, then the
    message is, and the buffer is empty again. *)
Lemma pump_loop_frame (prefix : string) (fv : framing * json) (todo : bytes) :
  readable fv = true -> todo <> [] ->
  forall (st : Debugger.pump_state),
    Debugger.buf st ++ todo = encode (fst fv) (snd fv) ->
    Debugger.pump_loop prefix todo st
    = {| Debugger.dst := Debugger.dst st ++ todo;
         Debugger.tap := Debugger.tap st ++ todo;
         Debugger.buf := [];
         Debugger.log := Debugger.log st ++ summary prefix fv |}.
Proof.
  destruct fv as [f v]. cbn [fst snd]. intros Hok.
  assert (Hc : f = ndjson -> container v = true).
  { unfold readable in Hok. cbn [fst snd] in Hok. apply andb_prop in Hok as [_ Hc].
    intros ->. exact Hc. }
  induction todo as [|c todo IH]; intros Hne st Hf; [congruence|].
  cbn [Debugger.pump_loop]. destruct todo as [|d todo].
  - (* the last byte of the frame *)
    cbn [Debugger.pump_loop]. unfold Debugger.pump_step.
    rewrite Hf, (sniff_frame prefix f v Hok).
    assert (Hlen : exists n, List.length (encode f v) = S n).
    { rewrite <- Hf, length_app. cbn [List.length]. exists (List.length (Debugger.buf st)).
      lia. }
    destruct Hlen as (n & Hlen). rewrite Hlen. cbn [Debugger.if_consumed].
    rewrite <- Hlen, skipn_all, sniff_nil. cbn [Debugger.if_consumed].
    rewrite app_nil_r. reflexivity.
  - (* a byte before the last *)
    assert (Hq : Debugger.sniff_and_summarize prefix (Debugger.buf st ++ [c]) = ([], None)).
    { replace (Debugger.buf st ++ [c])
        with (firstn (List.length (Debugger.buf st ++ [c])) (encode f v)).
      - apply sniff_prefix_quiet; [exact Hc|].
        rewrite <- Hf, !length_app. cbn [List.length]. lia.
      - rewrite <- Hf. change (c :: d :: todo) with ([c] ++ d :: todo).
        rewrite app_assoc, firstn_app, Nat.sub_diag, firstn_all. cbn [firstn].
        apply app_nil_r. }
    rewrite IH; [| discriminate |].
    + unfold Debugger.pump_step. rewrite Hq. cbn [Debugger.if_consumed].
      cbn [Debugger.dst Debugger.tap Debugger.buf Debugger.log].
      rewrite <- ?app_assoc, ?app_nil_r. reflexivity.
    + unfold Debugger.pump_step. rewrite Hq. cbn [Debugger.if_consumed Debugger.buf].
      rewrite <- app_assoc. exact Hf.
Qed.

Lemma encode_nonempty (f : framing) (v : json) : encode f v <> [].
Proof.
  destruct f; cbn [encode]; [unfold Server.ndjson_frame | rewrite lsp_frame_eq].
  - destruct (dumps v); discriminate.
  - unfold content_length_line. discriminate.
Qed.

(** X10. The proxy's log of a stream.  When the bytes of framed messages pass
    through [pump], one byte at a time as it reads them, the log holds for
    each message, in order, one detection under the framing of that
    message and one summary (method and id of an object); the buffer is
    empty at the end, and all bytes have been forwarded. *)
Theorem pump_logs_each_message (prefix : string) (msgs : list (framing * json))
  (dst0 : bytes) :
  forallb readable msgs = true ->
  Debugger.pump (wire msgs) dst0 prefix
  = {| Debugger.dst := dst0 ++ wire msgs;
       Debugger.tap := wire msgs;
       Debugger.buf := [];
       Debugger.log := flat_map (summary prefix) msgs |}.
Proof.
  intros Hok. unfold Debugger.pump.
  assert (G : forall st, Debugger.buf st = [] ->
            Debugger.pump_loop prefix (wire msgs) st
            = {| Debugger.dst := Debugger.dst st ++ wire msgs;
                 Debugger.tap := Debugger.tap st ++ wire msgs;
                 Debugger.buf := [];
                 Debugger.log := Debugger.log st ++ flat_map (summary prefix) msgs |}).
  { induction msgs as [|fv msgs IH]; intros st Hb.
    - cbn [wire map List.concat flat_map Debugger.pump_loop]. rewrite !app_nil_r.
      destruct st; cbn in *; subst; reflexivity.
    - cbn [forallb] in Hok. apply andb_prop in Hok as [Hfv Hok].
      unfold wire. cbn [map List.concat flat_map]. fold (wire msgs).
      rewrite pump_loop_app.
      rewrite (pump_loop_frame prefix fv _ Hfv (encode_nonempty _ _) st)
        by (rewrite Hb; reflexivity).
      rewrite (IH Hok) by reflexivity.
      cbn [Debugger.dst Debugger.tap Debugger.buf Debugger.log].
      rewrite <- !app_assoc. reflexivity. }
  rewrite G by reflexivity. reflexivity.
Qed.

Lemma pump_logs_each_message_witness :
  forallb readable [(lsp, ping_request 1); (ndjson, ping_request 2)] = true
  /\ Debugger.log (Debugger.pump mixed_input [] "C2S")
     = [("C2S"%string, Debugger.LspDetected 40);
        ("C2S"%string, Debugger.JsonSummary (B "'ping'") (B "1"));
        ("C2S"%string, Debugger.NdjsonDetected 40);
        ("C2S"%string, Debugger.JsonSummary (B "'ping'") (B "2"))].
Proof.
  split; [reflexivity|].
  exact (f_equal Debugger.log
           (pump_logs_each_message "C2S" [(lsp, ping_request 1); (ndjson, ping_request 2)]
              [] eq_refl)).
Defined.

Lemma try_parse_ndjson_bounds_witness :
  Debugger.try_parse_ndjson (B "ab" ++ CRLF ++ B "cd") = Some (B "ab", 4)
  /\ 1 <= 4 <= List.length (B "ab" ++ CRLF ++ B "cd").
Proof.
  split; [reflexivity|].
  apply (try_parse_ndjson_bounds (B "ab" ++ CRLF ++ B "cd") (B "ab") 4 eq_refl).
Defined.

Lemma try_parse_lsp_bounds_witness :
  Debugger.try_parse_lsp (encode lsp (JInt 5) ++ B "x") = Some (B "5", 22)
  /\ exists sep,
       find CRLFCRLF (encode lsp (JInt 5) ++ B "x") = Some sep
       /\ 22 = sep + 4 + 1
       /\ 1 <= 1
       /\ 22 <= List.length (encode lsp (JInt 5) ++ B "x")
       /\ firstn 22 (encode lsp (JInt 5) ++ B "x")
          = firstn sep (encode lsp (JInt 5) ++ B "x") ++ CRLFCRLF ++ B "5".
Proof.
  split; [reflexivity|].
  apply (try_parse_lsp_bounds (encode lsp (JInt 5) ++ B "x") (B "5") 22 eq_refl).
Defined.

(** * The buffer of the pump *)

Lemma if_consumed_bound (prefix : string) (b : bytes) (n : nat) :
  Debugger.if_consumed (snd (Debugger.sniff_and_summarize prefix b)) = Some n ->
  n <= List.length b.
Proof.
  pose proof (sniff_consumed_le prefix b) as H.
  destruct (Debugger.sniff_and_summarize prefix b) as [logs [c|]]; cbn [snd].
  - specialize (H logs c eq_refl). destruct c; cbn; intros E; inversion E; subst; lia.
  - discriminate.
Qed.

Lemma pump_step_buf (prefix : string) (c : ascii) (st : Debugger.pump_state) :
  exists n, n <= List.length (Debugger.buf st) + 1
            /\ Debugger.buf (Debugger.pump_step prefix c st)
               = skipn n (Debugger.buf st ++ [c]).
Proof.
  unfold Debugger.pump_step.
  pose proof (if_consumed_bound prefix (Debugger.buf st ++ [c])) as H1.
  destruct (Debugger.sniff_and_summarize prefix (Debugger.buf st ++ [c])) as [logs1 c1].
  cbn [snd] in H1.
  destruct (Debugger.if_consumed c1) as [n|].
  - specialize (H1 n eq_refl). rewrite length_app in H1. cbn [List.length] in H1.
    pose proof (if_consumed_bound prefix (skipn n (Debugger.buf st ++ [c]))) as H2.
    destruct (Debugger.sniff_and_summarize prefix (skipn n (Debugger.buf st ++ [c])))
      as [logs2 c2].
    cbn [snd] in H2.
    destruct (Debugger.if_consumed c2) as [n2|]; cbn [Debugger.buf].
    + specialize (H2 n2 eq_refl). rewrite length_skipn, length_app in H2.
      cbn [List.length] in H2.
      exists (n2 + n). split; [lia|]. rewrite skipn_skipn. reflexivity.
    + exists n. split; [lia | reflexivity].
  - exists 0. split; [lia | reflexivity].
Qed.

(** X11. The buffer in which the pump looks for messages is always the tail
    of what it has forwarded: bytes leave it only from the front, when a
    message has been found, and it never holds a byte that was not
    read. *)
Theorem pump_buffer_is_tail (prefix : string) (src dst0 : bytes) :
  exists k,
    k <= List.length src
    /\ Debugger.buf (Debugger.pump src dst0 prefix) = skipn k src.
Proof.
  unfold Debugger.pump.
  assert (G : forall todo seen st k,
             k <= List.length seen -> Debugger.buf st = skipn k seen ->
             exists k', k' <= List.length (seen ++ todo)
                        /\ Debugger.buf (Debugger.pump_loop prefix todo st)
                           = skipn k' (seen ++ todo)).
  { induction todo as [|c todo IH]; intros seen st k Hk Hb.
    - exists k. rewrite app_nil_r. auto.
    - cbn [Debugger.pump_loop].
      destruct (pump_step_buf prefix c st) as (n & Hn & Hs).
      destruct (IH (seen ++ [c]) (Debugger.pump_step prefix c st) (n + k)) as (k' & Hk' & E).
      + rewrite Hb, length_skipn in Hn. rewrite length_app. cbn [List.length]. lia.
      + rewrite Hs, Hb, <- skipn_skipn. f_equal.
        rewrite skipn_app. replace (k - List.length seen) with 0 by lia. reflexivity.
      + exists k'. rewrite <- app_assoc in *. cbn [app] in *. auto. }
  destruct (G src [] {| Debugger.dst := dst0; Debugger.tap := []; Debugger.buf := [];
                        Debugger.log := [] |} 0) as (k & Hk & E); [cbn; lia | reflexivity|].
  exists k. cbn [app] in *. auto.
Qed.

(** * Incomplete and decorated lsp frames *)

Lemma readline_no_lf (b : bytes) :
  forallb (fun c => negb (Ascii.eqb LF c)) b = true -> readline b = (b, []).
Proof. intros H. unfold readline. rewrite (find_none LF [] b H). reflexivity. Qed.

Lemma content_length_line_no_lf (n : nat) :
  0 < n -> forallb (fun c => negb (Ascii.eqb LF c)) (content_length_line n) = true.
Proof.
  intros Hn. unfold content_length_line. rewrite forallb_app.
  destruct (str_nat_digits _ Hn) as (c & t & _ & Hd & _).
  rewrite (forallb_impl is_digit (fun c => negb (Ascii.eqb LF c)) (str_nat n)); auto.
  intros x. destruct x as [[] [] [] [] [] [] [] []]; intros H; try discriminate H;
    reflexivity.
Qed.

Lemma line_framing_content_length (n : nat) (k : nat) (X : bytes) :
  Server.line_framing (firstn k (content_length_line n ++ X)) = lsp.
Proof.
  unfold content_length_line. cbn [B list_ascii_of_string app].
  destruct k as [|[|k]]; reflexivity.
Qed.

Section Truncated.
Variable world : Type.
Variable UPNOTE_OK : bool.
Variable UpNoteClient : option (Server.client_class world).
Implicit Types st : Server.state world.

(** With no input left the header loop gives up, whatever it has. *)
Lemma read_lsp_from_eof (line : bytes) st :
  Server.stdin st = [] ->
  Server._read_lsp_from line st = (None, Server.set_stdin st []).
Proof. intros H. unfold Server._read_lsp_from. rewrite H. reflexivity. Qed.

Lemma read_lsp_from_cr (line : bytes) st :
  Server.stdin st = [CR] ->
  Server._read_lsp_from line st = (None, Server.set_stdin st []).
Proof. intros H. unfold Server._read_lsp_from. rewrite H. reflexivity. Qed.

(** The body is shorter than the header announces. *)
Lemma read_lsp_from_short (n : nat) (X : bytes) st :
  0 < n -> List.length X < n ->
  Server.stdin st = CRLF ++ X ->
  Server._read_lsp_from (content_length_line n ++ CRLF) st
  = (None, Server.add_log (Server.set_stdin (Server.set_stdin st X) [])
             Server.UnexpectedEOFBody).
Proof.
  intros Hn Hx Hin. unfold Server._read_lsp_from.
  rewrite not_blank_content_length. cbn [negb].
  rewrite (add_header_content_length _ Hn), Hin.
  assert (Hh : forall h fuel,
             Server.read_header_lines (S fuel) h (CRLF ++ X) = Some (h, X)) by reflexivity.
  rewrite Hh. cbn [header_get]. rewrite bytes_eqb_refl.
  destruct (str_nat_digits _ Hn) as (c & t & E & Hd & Hz).
  rewrite (py_int_digits (str_nat n) (Z.of_nat n)) by (try congruence; assumption).
  destruct (Z.of_nat n <=? 0)%Z eqn:Ez; [apply Z.leb_le in Ez; lia|].
  rewrite Nat2Z.id. unfold read. cbn [Server.stdin Server.set_stdin].
  rewrite firstn_all2, skipn_all2 by lia.
  destruct (List.length X =? n)%nat eqn:El; [apply Nat.eqb_eq in El; lia|].
  reflexivity.
Qed.

(** X12. A truncated lsp frame is never taken for a message.  Wherever the
    input ends inside a frame of the writers (in the header line, in the
    header terminator or in the body), [read_message] returns nothing, has
    read all there was, and the loop ends without a reply. *)
Theorem truncated_lsp_frame (v : json) (k : nat) st (fuel : nat) :
  k < List.length (Server.lsp_frame v) ->
  Server.stdin st = firstn k (Server.lsp_frame v) ->
  fst (Server.read_message st) = None
  /\ Server.stdin (snd (Server.read_message st)) = []
  /\ exists st',
       Server.main_loop UPNOTE_OK UpNoteClient (S fuel) st = Some (Server.Returned, st')
       /\ Server.stdout st' = Server.stdout st.
Proof.
  intros Hk Hin.
  assert (Hread : fst (Server.read_message st) = None
                  /\ Server.stdin (snd (Server.read_message st)) = []
                  /\ Server.stdout (snd (Server.read_message st)) = Server.stdout st).
  { rewrite lsp_frame_eq in Hk, Hin. set (n := List.length (dumps v)) in *.
    assert (Hn : 0 < n).
    { pose proof (dumps_nonempty v). unfold n. destruct (dumps v); [congruence|cbn; lia]. }
    set (L := content_length_line n) in *.
    pose proof (content_length_line_no_lf n Hn) as HL. fold L in HL.
    rewrite !length_app in Hk. change (List.length CRLFCRLF) with 4 in Hk.
    destruct k as [|k0].
    { (* nothing at all *)
      cbn [firstn] in Hin. unfold Server.read_message. rewrite Hin. cbn; repeat split; reflexivity. }
    remember (S k0) as k eqn:Ek.
    assert (Hne : firstn k (L ++ CRLFCRLF ++ dumps v) <> []).
    { subst k L. unfold content_length_line. cbn. discriminate. }
    destruct (Nat.le_gt_cases k (List.length L + 1)) as [H1|H1].
    { (* inside the first line, before its line feed *)
      assert (Hp : firstn k (L ++ CRLFCRLF ++ dumps v) = firstn k (L ++ [CR])).
      { change (L ++ CRLFCRLF ++ dumps v) with (L ++ [CR] ++ LF :: CR :: LF :: dumps v).
        rewrite (app_assoc L [CR]), firstn_app, length_app. cbn [List.length].
        replace (k - (List.length L + 1)) with 0 by lia. cbn [firstn]. apply app_nil_r. }
      assert (Hl : readline (Server.stdin st) = (firstn k (L ++ CRLFCRLF ++ dumps v), [])).
      { rewrite Hin. apply readline_no_lf. rewrite Hp. apply forallb_firstn.
        rewrite forallb_app, HL. reflexivity. }
      rewrite (read_message_unfold world st _ _ Hl Hne).
      assert (Hf : Server.line_framing (firstn k (L ++ CRLFCRLF ++ dumps v)) = lsp)
        by apply line_framing_content_length.
      rewrite Hf.
      rewrite read_lsp_from_eof by reflexivity. cbn; repeat split; reflexivity. }
    destruct (Nat.le_gt_cases k (List.length L + 3)) as [H2|H2].
    { (* inside the header terminator *)
      assert (Hp : firstn k (L ++ CRLFCRLF ++ dumps v)
                   = (L ++ CRLF) ++ firstn (k - (List.length L + 2)) [CR]).
      { change (L ++ CRLFCRLF ++ dumps v) with (L ++ CRLF ++ [CR] ++ LF :: dumps v).
        rewrite (app_assoc L CRLF), firstn_app, length_app.
        change (List.length CRLF) with 2.
        rewrite firstn_all2 by (rewrite length_app; change (List.length CRLF) with 2; lia).
        f_equal. rewrite firstn_app. cbn [List.length].
        replace (k - (List.length L + 2) - 1) with 0 by lia. cbn [firstn].
        apply app_nil_r. }
      assert (Hl : readline (Server.stdin st)
                   = (L ++ CRLF, firstn (k - (List.length L + 2)) [CR])).
      { rewrite Hin, Hp.
        change (L ++ CRLF) with (L ++ [CR] ++ [LF]). rewrite (app_assoc L [CR]).
        rewrite <- (app_assoc (L ++ [CR]) [LF]). cbn [app].
        apply readline_line. rewrite forallb_app, HL. reflexivity. }
      rewrite (read_message_unfold world st _ _ Hl)
        by (unfold L, content_length_line; discriminate).
      assert (Hf : Server.line_framing (L ++ CRLF) = lsp) by reflexivity.
      rewrite Hf.
      destruct (k - (List.length L + 2)) as [|j].
      - rewrite read_lsp_from_eof by reflexivity. cbn; repeat split; reflexivity.
      - assert (Hj : firstn (S j) [CR] = [CR]) by (destruct j; reflexivity).
        rewrite Hj, read_lsp_from_cr by reflexivity. cbn; repeat split; reflexivity. }
    (* inside the body *)
    assert (Hp : firstn k (L ++ CRLFCRLF ++ dumps v)
                 = (L ++ CRLF) ++ CRLF ++ firstn (k - (List.length L + 4)) (dumps v)).
    { rewrite (app_assoc L CRLFCRLF), firstn_app, length_app.
      change (List.length CRLFCRLF) with 4.
      rewrite firstn_all2
        by (rewrite length_app; change (List.length CRLFCRLF) with 4; lia).
      rewrite <- !app_assoc. reflexivity. }
    assert (Hl : readline (Server.stdin st)
                 = (L ++ CRLF, CRLF ++ firstn (k - (List.length L + 4)) (dumps v))).
    { rewrite Hin, Hp.
      change (L ++ CRLF) with (L ++ [CR] ++ [LF]). rewrite (app_assoc L [CR]).
      rewrite <- (app_assoc (L ++ [CR]) [LF]). cbn [app].
      apply readline_line. rewrite forallb_app, HL. reflexivity. }
    rewrite (read_message_unfold world st _ _ Hl)
      by (unfold L, content_length_line; discriminate).
    assert (Hf : Server.line_framing (L ++ CRLF) = lsp) by reflexivity.
    rewrite Hf. unfold L.
    rewrite (read_lsp_from_short n (firstn (k - (List.length L + 4)) (dumps v)));
      [cbn; repeat split; reflexivity | exact Hn | | reflexivity].
    rewrite length_firstn. fold n. lia. }
  destruct Hread as (Hnone & Hstdin & Hout).
  split; [exact Hnone|]. split; [exact Hstdin|].
  rewrite (main_loop_no_message world UPNOTE_OK UpNoteClient st fuel Hnone).
  eexists. split; [reflexivity|]. cbn [Server.stdout Server.add_log]. exact Hout.
Qed.

End Truncated.

Lemma truncated_lsp_frame_witness :
  fst (Server.read_message
         (Server.start (firstn 30 (Server.lsp_frame (ping_request 1))) tt)) = None.
Proof.
  apply (truncated_lsp_frame unit true no_client (ping_request 1) 30
           (Server.start (firstn 30 (Server.lsp_frame (ping_request 1))) tt) 0).
  - vm_compute. lia.
  - reflexivity.
Defined.

Lemma header_get_set_other (k k' v : bytes) (h : list (bytes * bytes)) :
  bytes_eqb k k' = false -> header_get k (header_set k' v h) = header_get k h.
Proof.
  intros Hk. induction h as [|[k1 v1] h IH]; cbn [header_set header_get].
  - rewrite Hk. reflexivity.
  - destruct (bytes_eqb k' k1) eqn:E1; cbn [header_get].
    + apply bytes_eqb_eq in E1. subst k1. rewrite Hk. reflexivity.
    + destruct (bytes_eqb k k1); [reflexivity | exact IH].
Qed.

(** A line that is not filed under a name leaves that name as it is. *)
Lemma add_header_keeps (k line : bytes) (h : list (bytes * bytes)) :
  header_get k (Server.add_header line []) = None ->
  header_get k (Server.add_header line h) = header_get k h.
Proof.
  unfold Server.add_header. destruct (Server.is_ascii line); [|reflexivity].
  destruct (split_once ":" line) as [[k' v']|]; [|reflexivity].
  cbn [header_set header_get].
  destruct (bytes_eqb k (lower (str_strip k'))) eqn:E; [discriminate|].
  intros _. apply header_get_set_other, E.
Qed.

Lemma readline_crlf (text more : bytes) :
  forallb (fun c => negb (Ascii.eqb LF c)) text = true ->
  readline ((text ++ CRLF) ++ more) = (text ++ CRLF, more).
Proof.
  intros H.
  replace ((text ++ CRLF) ++ more) with ((text ++ [CR]) ++ LF :: more)
    by (rewrite <- !app_assoc; reflexivity).
  rewrite readline_line by (rewrite forallb_app, H; reflexivity).
  rewrite <- app_assoc. reflexivity.
Qed.

Lemma not_blank_text (text : bytes) :
  text <> [] -> Server.is_blank_line (text ++ CRLF) = false.
Proof.
  intros Hne. unfold Server.is_blank_line.
  destruct (bytes_eqb (text ++ CRLF) CRLF) eqn:E1.
  { apply bytes_eqb_eq in E1. apply (f_equal (@List.length ascii)) in E1.
    rewrite length_app in E1. destruct text; [congruence | cbn in E1; lia]. }
  destruct (bytes_eqb (text ++ CRLF) [LF]) eqn:E2; [|reflexivity].
  apply bytes_eqb_eq in E2. apply (f_equal (@List.length ascii)) in E2.
  rewrite length_app in E2. cbn in E2. lia.
Qed.

(** The header loop over lines that are not the length, up to the blank
    line: the length found before is still what the dictionary holds. *)
Lemma read_header_lines_extras (extras : list bytes) (X x : bytes) :
  forallb other_header extras = true ->
  forall (fuel : nat) (h : list (bytes * bytes)),
    List.length (List.concat (map (fun text => text ++ CRLF) extras) ++ CRLF ++ X) < fuel ->
    header_get (B "content-length") h = Some x ->
    exists h',
      Server.read_header_lines fuel h
        (List.concat (map (fun text => text ++ CRLF) extras) ++ CRLF ++ X)
      = Some (h', X)
      /\ header_get (B "content-length") h' = Some x.
Proof.
  induction extras as [|text extras IH]; intros Hok fuel h Hfuel Hh.
  - cbn [map List.concat app] in *. destruct fuel as [|fuel]; [lia|].
    exists h. split; [reflexivity | exact Hh].
  - cbn [forallb] in Hok. apply andb_prop in Hok as [Ht Hok].
    unfold other_header in Ht. apply andb_prop in Ht as [Ht Hget].
    apply andb_prop in Ht as [Hne Hnl].
    assert (Hne' : text <> []).
    { intros ->. discriminate Hne. }
    cbn [map List.concat] in *. rewrite <- app_assoc in *.
    destruct fuel as [|fuel]; [lia|]. cbn [Server.read_header_lines].
    rewrite (readline_crlf text _ Hnl).
    rewrite (not_blank_text text Hne').
    destruct (text ++ CRLF) as [|c l] eqn:El.
    { destruct text; discriminate El. }
    rewrite <- El in *.
    apply IH; [exact Hok | |].
    + rewrite !length_app in Hfuel. rewrite !length_app.
      change (List.length CRLF) with 2 in *. lia.
    + rewrite add_header_keeps; [exact Hh|].
      destruct (header_get (B "content-length") (Server.add_header (text ++ CRLF) []));
        [discriminate Hget | reflexivity].
Qed.

Lemma lower_char_wordy (c : ascii) : wordy (lower_char c) = true -> wordy c = true.
Proof. destruct c as [[] [] [] [] [] [] [] []]; intros H; try discriminate H; reflexivity. Qed.

Lemma wordy_facts (c : ascii) :
  wordy c = true ->
  graphic c = true /\ Ascii.eqb c ":" = false /\ (code c <? 128)%N = true
  /\ Ascii.eqb LF c = false /\ is_space c = false
  /\ Ascii.eqb "{" c = false /\ Ascii.eqb "[" c = false
  /\ Ascii.eqb c CR = false /\ Ascii.eqb c LF = false.
Proof.
  destruct c as [[] [] [] [] [] [] [] []]; intros H; try discriminate H;
    repeat split; reflexivity.
Qed.

Lemma content_length_name (name : bytes) :
  lower name = B "content-length" ->
  name <> [] /\ forallb wordy name = true.
Proof.
  intros H. split.
  - intros ->. discriminate H.
  - assert (Hw : forallb wordy (lower name) = true) by (rewrite H; reflexivity).
    unfold lower in Hw. rewrite forallb_forall in *. intros c Hc.
    apply lower_char_wordy, Hw, in_map, Hc.
Qed.

Lemma split_once_app (sep : ascii) (k v : bytes) :
  forallb (fun c => negb (Ascii.eqb c sep)) k = true ->
  split_once sep (k ++ sep :: v) = Some (k, v).
Proof.
  induction k as [|c k IH]; intros H; cbn [app split_once].
  - rewrite Ascii.eqb_refl. reflexivity.
  - cbn [forallb] in H. apply andb_prop in H as [Hc Hk]. apply negb_true_iff in Hc.
    rewrite Hc, (IH Hk). reflexivity.
Qed.

(** Stripping a text that starts and ends with visible ASCII characters. *)
Lemma str_strip_graphic (b : bytes) :
  b <> [] -> forallb graphic b = true -> str_strip b = b.
Proof.
  intros Hne Hg. unfold str_strip.
  destruct b as [|c t]; [congruence|].
  pose proof Hg as Hg'. cbn [forallb] in Hg'. apply andb_prop in Hg' as [Hc _].
  rewrite (str_lstrip_graphic c t Hc).
  destruct (rev (c :: t)) as [|d r] eqn:Er.
  { apply (f_equal (@List.length ascii)) in Er. rewrite length_rev in Er. discriminate Er. }
  assert (Hd : graphic d = true).
  { rewrite forallb_forall in Hg. apply Hg. apply in_rev. rewrite Er. left. reflexivity. }
  rewrite (str_rstrip_fuel_graphic _ d r Hd), <- Er. apply rev_involutive.
Qed.

Section Decorated.
Variable world : Type.
Implicit Types st : Server.state world.

(** X13. The server reads lsp frames as clients write them, not only as it
    writes them itself: the name of the length header is matched whatever
    its letter case, header lines under other names (a content type, say)
    or without a colon are passed over, and the body is the bytes after
    the blank line, as many as the length says. *)
Theorem decorated_lsp_frame (name : bytes) (extras : list bytes) (v : json)
  (rest : bytes) st :
  wf_json v = true ->
  lower name = B "content-length" ->
  forallb other_header extras = true ->
  Server.stdin st = decorated_frame name extras (dumps v) ++ rest ->
  Server.read_message st
  = (Some v,
     Server.set_mode (Server.set_stdin st rest)
       (Server.mode_or (Server.TRANSPORT_MODE st) lsp)).
Proof.
  intros Hwf Hname Hextras Hin.
  set (n := List.length (dumps v)) in *.
  assert (Hn : 0 < n).
  { pose proof (dumps_nonempty v). unfold n. destruct (dumps v); [congruence|cbn; lia]. }
  destruct (content_length_name name Hname) as (Hne & Hw).
  destruct (str_nat_digits _ Hn) as (d0 & dt & Ed & Hd & Hz).
  set (text := name ++ B ": " ++ str_nat n).
  set (more := List.concat (map (fun t => t ++ CRLF) extras) ++ CRLF ++ dumps v ++ rest).
  assert (Hshape : Server.stdin st = (text ++ CRLF) ++ more).
  { rewrite Hin. unfold decorated_frame, text, more. fold n.
    rewrite <- !app_assoc. reflexivity. }
  assert (Hall : forall (p : ascii -> bool),
             (forall c, wordy c = true -> p c = true) ->
             (forall c, is_digit c = true -> p c = true) ->
             p ":" = true -> p " " = true -> forallb p text = true).
  { intros p Hpw Hpd Hc Hs. unfold text. rewrite !forallb_app. cbn [B list_ascii_of_string forallb].
    rewrite Hc, Hs.
    rewrite (forallb_impl wordy p name Hpw Hw), (forallb_impl is_digit p _ Hpd Hd).
    reflexivity. }
  assert (Hnl : forallb (fun c => negb (Ascii.eqb LF c)) text = true).
  { apply Hall; try reflexivity.
    - intros c Hc. destruct (wordy_facts c Hc) as (_ & _ & _ & H & _). rewrite H. reflexivity.
    - intros c. destruct c as [[] [] [] [] [] [] [] []]; intros H; try discriminate H;
        reflexivity. }
  assert (Hr : readline (Server.stdin st) = (text ++ CRLF, more)).
  { rewrite Hshape. apply readline_crlf, Hnl. }
  assert (Htext : exists c t, name = c :: t /\ wordy c = true).
  { destruct name as [|c t]; [congruence|]. cbn [forallb] in Hw.
    apply andb_prop in Hw as [Hc _]. eauto. }
  destruct Htext as (c & t & En & Hc).
  destruct (wordy_facts c Hc) as (_ & _ & _ & _ & Hsp & Hb1 & Hb2 & Hcr & Hlf).
  rewrite (read_message_unfold world st _ _ Hr)
    by (unfold text; rewrite En; discriminate).
  assert (Hf : Server.line_framing (text ++ CRLF) = lsp).
  { unfold Server.line_framing, lstrip, text. rewrite En. cbn [app lstrip_by].
    rewrite Hsp. cbn [startswith]. rewrite Hb1, Hb2. reflexivity. }
  rewrite Hf.
  assert (Hhead : Server.add_header (text ++ CRLF) [] = [(B "content-length", str_nat n)]).
  { unfold Server.add_header.
    assert (Ha : Server.is_ascii (text ++ CRLF) = true).
    { unfold Server.is_ascii. rewrite forallb_app. cbn [CRLF forallb].
      rewrite Hall; try reflexivity.
      - intros x Hx. destruct (wordy_facts x Hx) as (_ & _ & H & _). exact H.
      - intros x. destruct x as [[] [] [] [] [] [] [] []]; intros H; try discriminate H;
          reflexivity. }
    rewrite Ha.
    assert (Hs : split_once ":" (text ++ CRLF) = Some (name, " " :: str_nat n ++ CRLF)).
    { unfold text. rewrite <- !app_assoc. cbn [B list_ascii_of_string app].
      apply split_once_app.
      apply (forallb_impl wordy); [|exact Hw].
      intros x Hx. destruct (wordy_facts x Hx) as (_ & H & _). rewrite H. reflexivity. }
    rewrite Hs. cbn [header_set].
    rewrite (str_strip_graphic name Hne), Hname, (str_strip_value n Hn); [reflexivity|].
    apply (forallb_impl wordy); [|exact Hw].
    intros x Hx. apply (wordy_facts x Hx). }
  unfold Server._read_lsp_from.
  assert (Hnb : Server.is_blank_line (text ++ CRLF) = false).
  { apply not_blank_text. unfold text. rewrite En. discriminate. }
  rewrite Hnb, Hhead. cbn [negb Server.stdin Server.set_stdin Server.set_mode].
  destruct (read_header_lines_extras extras (dumps v ++ rest) (str_nat n) Hextras
              (S (List.length more)) [(B "content-length", str_nat n)])
    as (h' & Hh & Hget).
  { fold more. lia. }
  { cbn [header_get]. rewrite bytes_eqb_refl. reflexivity. }
  fold more in Hh. rewrite Hh, Hget.
  rewrite (py_int_digits (str_nat n) (Z.of_nat n)) by (try congruence; assumption).
  destruct (Z.of_nat n <=? 0)%Z eqn:Ez; [apply Z.leb_le in Ez; lia|].
  assert (Hfirst : firstn n (dumps v ++ rest) = dumps v).
  { unfold n. rewrite firstn_app, Nat.sub_diag, firstn_all. apply app_nil_r. }
  assert (Hskip : skipn n (dumps v ++ rest) = rest).
  { unfold n. rewrite skipn_app, Nat.sub_diag, skipn_all. reflexivity. }
  rewrite Nat2Z.id. unfold read. cbn [Server.stdin Server.set_stdin].
  rewrite Hfirst, Hskip. fold n. rewrite Nat.eqb_refl. cbn [negb].
  pose proof (decode_utf8_line v [] Hwf eq_refl) as Hu. rewrite app_nil_r in Hu.
  rewrite Hu, (loads_dumps v Hwf). reflexivity.
Qed.

End Decorated.

Lemma decorated_lsp_frame_witness :
  Server.read_message
    (Server.start
       (B "content-length: 40" ++ CRLF
          ++ B "Content-Type: application/vscode-jsonrpc; charset=utf-8" ++ CRLF
          ++ CRLF ++ dumps (ping_request 1) ++ ping_line 2) tt)
  = (Some (ping_request 1),
     Server.set_mode (Server.start (ping_line 2) tt) (Some lsp)).
Proof.
  apply (decorated_lsp_frame unit (B "content-length")
           [B "Content-Type: application/vscode-jsonrpc; charset=utf-8"]
           (ping_request 1) (ping_line 2)
           (Server.start _ tt) eq_refl eq_refl eq_refl eq_refl).
Defined.

(** * A blank line ahead of ndjson messages *)

Lemma ndjson_frame_not_blank (v : json) :
  Server.is_blank_line (Server.ndjson_frame v) = false.
Proof.
  unfold Server.is_blank_line, Server.ndjson_frame.
  destruct (dumps_head_graphic v) as (c & t & E & Hg). rewrite E.
  destruct (bytes_eqb ((c :: t) ++ [LF]) CRLF) eqn:E1.
  { apply bytes_eqb_eq in E1. injection E1 as -> _. discriminate Hg. }
  destruct (bytes_eqb ((c :: t) ++ [LF]) [LF]) eqn:E2; [|reflexivity].
  apply bytes_eqb_eq in E2. injection E2 as -> _. discriminate Hg.
Qed.

(** The header loop runs through ndjson lines to the end of the input. *)
Lemma read_header_lines_ndjson (msgs : list json) (fuel : nat)
  (h : list (bytes * bytes)) :
  Server.read_header_lines fuel h (List.concat (map Server.ndjson_frame msgs)) = None.
Proof.
  revert fuel h. induction msgs as [|v msgs IH]; intros [|fuel] h; try reflexivity.
  cbn [map List.concat Server.read_header_lines].
  rewrite readline_ndjson_frame, ndjson_frame_not_blank.
  destruct (Server.ndjson_frame v) eqn:E; [|apply IH].
  unfold Server.ndjson_frame in E. destruct (dumps v); discriminate E.
Qed.

Section BlankLine.
Variable world : Type.
Variable UPNOTE_OK : bool.
Variable UpNoteClient : option (Server.client_class world).
Implicit Types st : Server.state world.

(** X14. The framing is taken from the first line even when that line is
    empty.  A blank line ahead of ndjson messages selects the lsp reader,
    which takes every following line for a header and runs into the end
    of the input: no message is delivered, none is answered, all input is
    used up and the loop ends. *)
Theorem blank_line_swallows_ndjson (blank : bytes) (msgs : list json) st (fuel : nat) :
  blank = [LF] \/ blank = CRLF ->
  Server.stdin st = blank ++ List.concat (map Server.ndjson_frame msgs) ->
  Server.read_message st
  = (None,
     Server.set_stdin
       (Server.set_mode st (Server.mode_or (Server.TRANSPORT_MODE st) lsp)) [])
  /\ exists st',
       Server.main_loop UPNOTE_OK UpNoteClient (S fuel) st = Some (Server.Returned, st')
       /\ Server.stdout st' = Server.stdout st
       /\ Server.stdin st' = [].
Proof.
  intros Hb Hin.
  assert (Hr : readline (Server.stdin st)
               = (blank, List.concat (map Server.ndjson_frame msgs))).
  { rewrite Hin. destruct Hb as [-> | ->].
    - apply (readline_line [] _ eq_refl).
    - apply (readline_line [CR] _ eq_refl). }
  assert (Hread : Server.read_message st
                  = (None,
                     Server.set_stdin
                       (Server.set_mode st (Server.mode_or (Server.TRANSPORT_MODE st) lsp))
                       [])).
  { rewrite (read_message_unfold world st _ _ Hr) by (destruct Hb as [-> | ->]; discriminate).
    assert (Hf : Server.line_framing blank = lsp) by (destruct Hb as [-> | ->]; reflexivity).
    rewrite Hf. unfold Server._read_lsp_from.
    cbn [Server.stdin Server.set_stdin Server.set_mode].
    rewrite read_header_lines_ndjson. destruct st; reflexivity. }
  split; [exact Hread|].
  rewrite (main_loop_no_message world UPNOTE_OK UpNoteClient st fuel)
    by (rewrite Hread; reflexivity).
  rewrite Hread. eexists. split; [reflexivity|]. split; reflexivity.
Qed.

End BlankLine.

Lemma blank_line_swallows_ndjson_witness :
  exists st',
    Server.main_loop true no_client 1
      (Server.start ([LF] ++ ping_line 1 ++ ping_line 2) tt)
    = Some (Server.Returned, st')
    /\ Server.stdout st' = []
    /\ Server.stdin st' = [].
Proof.
  apply (blank_line_swallows_ndjson unit true no_client [LF]
           [ping_request 1; ping_request 2]
           (Server.start ([LF] ++ ping_line 1 ++ ping_line 2) tt) 0
           (or_introl eq_refl)).
  cbn [map List.concat Server.stdin Server.start]. rewrite app_nil_r. reflexivity.
Defined.

(** * The client is reached by [tools/call] only *)

Section Reach.
Variable world : Type.
Variable UPNOTE_OK : bool.
Variable UpNoteClient : option (Server.client_class world).
Implicit Types st : Server.state world.

Lemma write_message_env (payload : json) st :
  Server.env (Server.write_message payload st) = Server.env st.
Proof.
  unfold Server.write_message. destruct (Server.TRANSPORT_MODE st) as [[]|]; reflexivity.
Qed.

(** X15. Whatever a message asks for, the UpNote client is neither made nor
    called unless the message is a request (it has an id) of the method
    [tools/call]: after the round the world of the collaborator is as it
    was.  The same holds for a [tools/call] when the client class could
    not be imported. *)
Theorem only_tools_call_reaches_client (msg : option json) st :
  match msg with
  | Some (JObj req) =>
      Server.method_is (dict_get "method" req) "tools/call" = false
      \/ identifier (JObj req) = None
      \/ (if UPNOTE_OK then UpNoteClient else None) = None
  | _ => True
  end ->
  Server.env (after (Server.loop_body UPNOTE_OK UpNoteClient msg st)) = Server.env st.
Proof.
  destruct msg as [[| b | z | s | l | req]|]; try (intros _; reflexivity).
  intros H. unfold Server.loop_body.
  destruct (dict_get "id" req) as [i|] eqn:Hid; [|reflexivity].
  destruct i as [| b | z | s | l | o]; try reflexivity;
    (destruct H as [Hm | [Hn | Hc]];
     [ | cbn [identifier] in Hn; rewrite Hid in Hn; discriminate Hn | ]);
    unfold Server.handle_request;
    repeat match goal with
           | |- context [Server.method_is (dict_get "method" req) ?m] =>
               destruct (Server.method_is (dict_get "method" req) m) eqn:?
           end;
    try discriminate;
    repeat match goal with
           | |- context [Server.resp_initialize ?p] => destruct (Server.resp_initialize p)
           end;
    cbn [after fst snd];
    unfold Server.write_result, Server.write_error, Server.on_exception;
    rewrite ?write_message_env; try reflexivity;
    (* a [tools/call] without a client class *)
    unfold Server.call_tool;
    repeat match goal with
           | |- context [Server.py_get ?p ?k ?d] => destruct (Server.py_get p k d)
           end;
    rewrite ?Hc; cbn [after];
    unfold Server.write_result, Server.write_error, Server.on_exception;
    rewrite ?write_message_env; reflexivity.
Qed.

End Reach.

Lemma only_tools_call_reaches_client_witness :
  Server.env
    (after (Server.loop_body true (Some counting_client)
              (Some (JObj (initialize_request (JObj [])))) (Server.start [] 0)))
  = 0
  /\ Server.env
       (after (Server.loop_body true (Some counting_client)
                 (Some (JObj (tools_call_request open_upnote_params)))
                 (Server.start [] 0)))
     = 2.
Proof.
  split; [|reflexivity].
  apply (only_tools_call_reaches_client nat true (Some counting_client)
           (Some (JObj (initialize_request (JObj [])))) (Server.start [] 0)).
  left. reflexivity.
Defined.

(** * The server on a stream of requests *)

Section Stream.
Variable world : Type.
Variable UPNOTE_OK : bool.
Variable UpNoteClient : option (Server.client_class world).
Implicit Types st : Server.state world.

(** One round on a message that does not involve the client. *)
Lemma loop_body_stateless (msg : json) st :
  stateless msg = true ->
  exists st',
    Server.loop_body UPNOTE_OK UpNoteClient (Some msg) st = inr st'
    /\ Server.stdout st'
       = Server.stdout st ++ List.concat (map (frame (Server.TRANSPORT_MODE st))
                                            (replies_to msg))
    /\ Server.TRANSPORT_MODE st' = Server.TRANSPORT_MODE st
    /\ Server.stdin st' = Server.stdin st
    /\ Server.env st' = Server.env st.
Proof.
  assert (Hw : forall (reply : json) (s : Server.state world),
             Server.stdout (Server.write_message reply s)
             = Server.stdout s ++ List.concat (map (frame (Server.TRANSPORT_MODE s)) [reply])
             /\ Server.TRANSPORT_MODE (Server.write_message reply s) = Server.TRANSPORT_MODE s
             /\ Server.stdin (Server.write_message reply s) = Server.stdin s
             /\ Server.env (Server.write_message reply s) = Server.env s).
  { intros reply s. destruct (write_message_wrote world reply s) as (Ho & Hm & Hi).
    repeat split; try assumption.
    unfold Server.write_message. destruct (Server.TRANSPORT_MODE s) as [[]|]; reflexivity. }
  assert (Hq : exists st', inr st = (inr st' : (Server.exit_status * Server.state world)
                                                + Server.state world)
                           /\ Server.stdout st' = Server.stdout st ++ List.concat (map (frame (Server.TRANSPORT_MODE st)) [])
                           /\ Server.TRANSPORT_MODE st' = Server.TRANSPORT_MODE st
                           /\ Server.stdin st' = Server.stdin st
                           /\ Server.env st' = Server.env st).
  { exists st. cbn [map List.concat]. rewrite app_nil_r. auto. }
  destruct msg as [| b | z | s | l | req]; try discriminate. cbn [stateless].
  intros H. apply andb_prop in H as [Hc Hs].
  apply negb_true_iff in Hc. apply negb_true_iff in Hs.
  unfold replies_to. cbn [identifier].
  destruct (dict_get "id" req) as [i|] eqn:Hid.
  2: { unfold Server.loop_body. rewrite Hid. exact Hq. }
  destruct (json_is_null i) eqn:Hn.
  { destruct i; try discriminate Hn. unfold Server.loop_body. rewrite Hid. exact Hq. }
  assert (Hnn : i <> JNull) by (intros ->; discriminate Hn).
  rewrite (loop_body_handle world UPNOTE_OK UpNoteClient req i st Hid Hnn).
  unfold Server.handle_request, stateless_reply. rewrite Hc, Hs.
  destruct (Server.method_is (dict_get "method" req) "initialize").
  { destruct (Server.resp_initialize (Server.params_of req)) as [result|e].
    - eexists. split; [reflexivity|]. apply Hw.
    - eexists. split; [reflexivity|]. unfold Server.on_exception, Server.write_error.
      apply (Hw _ (Server.add_log st (Server.ErrorHandlingRequest e))). }
  destruct (Server.method_is (dict_get "method" req) "tools/list").
  { eexists. split; [reflexivity|]. apply Hw. }
  destruct (Server.method_is (dict_get "method" req) "ping").
  { eexists. split; [reflexivity|]. apply Hw. }
  eexists. split; [reflexivity|]. apply Hw.
Qed.

Lemma main_loop_stream (msgs : list (framing * json)) :
  forallb (fun fv => readable fv && stateless (snd fv)) msgs = true ->
  forall (fuel : nat) st,
    List.length msgs < fuel ->
    Server.stdin st = wire msgs ->
    exists st',
      Server.main_loop UPNOTE_OK UpNoteClient fuel st = Some (Server.Returned, st')
      /\ Server.stdout st'
         = Server.stdout st
             ++ List.concat
                  (map (frame (match Server.TRANSPORT_MODE st with
                               | Some g => Some g
                               | None => first_framing msgs
                               end))
                     (flat_map (fun fv => replies_to (snd fv)) msgs))
      /\ Server.env st' = Server.env st.
Proof.
  induction msgs as [|[f v] msgs IH]; intros Hok fuel st Hfuel Hin.
  - destruct fuel as [|fuel]; [cbn in Hfuel; lia|].
    cbn [wire map List.concat] in Hin.
    cbn [Server.main_loop]. unfold Server.read_message. rewrite Hin. cbn.
    eexists. split; [reflexivity|]. cbn. rewrite app_nil_r. auto.
  - cbn [forallb fst snd] in Hok. apply andb_prop in Hok as [Hv Hok].
    apply andb_prop in Hv as [Hr Hs].
    destruct fuel as [|fuel]; [cbn in Hfuel; lia|].
    unfold wire in Hin. cbn [map List.concat fst snd] in Hin. fold (wire msgs) in Hin.
    rewrite (main_loop_message world UPNOTE_OK UpNoteClient f v (wire msgs) st fuel Hr Hin).
    set (st1 := Server.set_mode (Server.set_stdin st (wire msgs))
                  (Server.mode_or (Server.TRANSPORT_MODE st) f)).
    destruct (loop_body_stateless v st1 Hs) as (st2 & Hbody & Ho & Hm & Hi & He).
    rewrite Hbody.
    destruct (IH Hok fuel st2 ltac:(cbn [List.length] in Hfuel; lia)
                ltac:(rewrite Hi; reflexivity)) as (st' & Hrun & Hout & Henv).
    exists st'. split; [exact Hrun|]. split.
    + rewrite Hout, Ho, Hm. cbn [flat_map snd first_framing fst].
      rewrite map_app, concat_app, app_assoc. unfold st1.
      cbn [Server.stdout Server.TRANSPORT_MODE Server.set_mode Server.set_stdin].
      destruct (Server.TRANSPORT_MODE st); reflexivity.
    + rewrite Henv, He. reflexivity.
Qed.

(** X16. End to end.  Fed a stream of framed messages none of which is a
    [tools/call] or a [shutdown], a fresh server writes exactly the
    replies the requests among them are owed, in their order and nothing
    for the notifications, every reply under the framing of the first
    message; it then returns at the end of the input, and the client has
    not been touched. *)
Theorem main_answers_stream (msgs : list (framing * json)) (w : world) :
  forallb (fun fv => readable fv && stateless (snd fv)) msgs = true ->
  exists st',
    Server.main UPNOTE_OK UpNoteClient (Server.start (wire msgs) w)
    = Some (Server.Returned, st')
    /\ Server.stdout st'
       = List.concat (map (frame (first_framing msgs))
                        (flat_map (fun fv => replies_to (snd fv)) msgs))
    /\ Server.env st' = w.
Proof.
  intros Hok. unfold Server.main.
  destruct (main_loop_stream msgs Hok
              (S (List.length (Server.stdin (Server.start (wire msgs) w))))
              (Server.add_log (Server.start (wire msgs) w) Server.Starting))
    as (st' & Hrun & Hout & Henv).
  - cbn [Server.stdin Server.start]. clear Hok.
    assert (H : List.length msgs <= List.length (wire msgs)).
    { induction msgs as [|[f v] msgs IH]; [cbn; lia|].
      unfold wire in *. cbn [map List.concat fst snd List.length]. rewrite length_app.
      pose proof (encode_nonempty_length f v). lia. }
    lia.
  - reflexivity.
  - exists st'. split; [exact Hrun|]. split; [exact Hout | exact Henv].
Qed.

End Stream.

Lemma main_answers_stream_witness :
  exists st',
    Server.main true (Some counting_client)
      (Server.start
         (wire [(lsp, JObj (initialize_request (JObj [])));
                (ndjson, JObj [("method", JStr "notifications/initialized")]%string);
                (ndjson, ping_request 2);
                (lsp, JObj frobnicate_request)]) 0)
    = Some (Server.Returned, st')
    /\ Server.stdout st'
       = encode lsp (Server.result_reply (JInt 0) (initialize_result "1.0.0"))
           ++ encode lsp (Server.result_reply (JInt 2) (JObj []))
           ++ encode lsp (Server.error_reply (JInt 9) (-32601) "Method not found: frobnicate")
    /\ Server.env st' = 0.
Proof.
  apply (main_answers_stream nat true (Some counting_client)
           [(lsp, JObj (initialize_request (JObj [])));
            (ndjson, JObj [("method", JStr "notifications/initialized")]%string);
            (ndjson, ping_request 2);
            (lsp, JObj frobnicate_request)] 0 eq_refl).
Defined.

(** * The URLs of the UpNote client *)

Lemma quote_byte_safe (c : ascii) :
  forallb (fun x => Client.always_safe x || Ascii.eqb x "%") (Client.quote_byte c) = true.
Proof. destruct c as [[] [] [] [] [] [] [] []]; reflexivity. Qed.

Lemma quote_safe (text : string) :
  forallb (fun x => Client.always_safe x || Ascii.eqb x "%") (Client.quote text) = true.
Proof.
  unfold Client.quote. induction (B text) as [|c b IH]; [reflexivity|].
  cbn [flat_map]. rewrite forallb_app, quote_byte_safe, IH. reflexivity.
Qed.

Lemma urlencode_pair_chars (p : ascii -> bool) (kv : string * json) :
  (forall x, Client.always_safe x || Ascii.eqb x "%" = true -> p x = true) ->
  p "=" = true ->
  forallb p (Client.quote (fst kv) ++ "=" :: Client.quote (py_str (snd kv))) = true.
Proof.
  intros Hp He. rewrite forallb_app. cbn [forallb]. rewrite He.
  rewrite !(forallb_impl _ p _ Hp (quote_safe _)). reflexivity.
Qed.

Lemma urlencode_chars (query : list (string * json)) :
  forallb url_char (Client.urlencode query) = true.
Proof.
  unfold Client.urlencode. apply forallb_join; [reflexivity|].
  apply Forall_map, Forall_forall. intros kv _. apply urlencode_pair_chars; [|reflexivity].
  intros x Hx. unfold url_char. apply orb_prop in Hx as [Hx|Hx].
  - rewrite Hx. reflexivity.
  - apply Ascii.eqb_eq in Hx. subst x. reflexivity.
Qed.

(** X17. The URLs are plain: whatever the names and values of the parameters
    hold (spaces, quotes, line feeds, markdown, text beyond ASCII), the URL
    is made of ASCII letters, digits, [_ . - ~] and the separators
    [% = & ? : /] only. *)
Theorem build_url_alphabet (action : string) (params : list (string * json)) :
  forallb action_char (B action) = true ->
  forallb url_char (Client._build_url action params) = true.
Proof.
  intros Ha. unfold Client._build_url.
  assert (Hu : forallb url_char (B Client.base_scheme ++ "/" :: B action) = true).
  { assert (Hi : forall x, action_char x = true -> url_char x = true).
    { intros x Hx. unfold url_char, action_char in *. apply orb_prop in Hx as [Hx|Hx].
      - rewrite Hx. reflexivity.
      - apply Ascii.eqb_eq in Hx. subst x. reflexivity. }
    rewrite forallb_app. cbn [forallb].
    rewrite (forallb_impl action_char url_char _ Hi Ha). reflexivity. }
  pose proof (urlencode_chars (Client.clean_params params)) as Hq.
  destruct (Client.urlencode (Client.clean_params params)) as [|c q]; [exact Hu|].
  rewrite forallb_app, Hu. cbn [forallb] in *. exact Hq.
Qed.

Lemma build_url_alphabet_witness :
  forallb url_char
    (Client._build_url "note/new"
       [("title", JStr "a b&c=d?"); ("tags", JArr [JStr "x,y"; JInt 2]);
        ("pinned", JBool true); ("color", JNull)]%string) = true.
Proof.
  apply (build_url_alphabet "note/new"
           [("title", JStr "a b&c=d?"); ("tags", JArr [JStr "x,y"; JInt 2]);
            ("pinned", JBool true); ("color", JNull)]%string).
  reflexivity.
Defined.

(** ** [quote] loses nothing *)

Lemma quote_byte_head (c : ascii) :
  match Client.quote_byte c with
  | [x] => x = c /\ Client.always_safe c = true
  | [p; h; l] =>
      p = "%" /\ Client.always_safe c = false
      /\ hex_val h = Some (code c / 16)%N /\ hex_val l = Some (code c mod 16)%N
  | _ => False
  end.
Proof. destruct c as [[] [] [] [] [] [] [] []]; repeat split; reflexivity. Qed.

Lemma byte_of_nibbles (c d : ascii) :
  (code c / 16 = code d / 16)%N -> (code c mod 16 = code d mod 16)%N -> c = d.
Proof.
  intros H1 H2.
  assert (E : code c = code d).
  { rewrite (N.div_mod (code c) 16), (N.div_mod (code d) 16) by discriminate.
    rewrite H1, H2. reflexivity. }
  unfold code in E. rewrite <- (ascii_N_embedding c), <- (ascii_N_embedding d), E.
  reflexivity.
Qed.

Lemma quote_bytes_injective (a b : bytes) :
  flat_map Client.quote_byte a = flat_map Client.quote_byte b -> a = b.
Proof.
  revert b. induction a as [|c a IH]; intros [|d b] H.
  - reflexivity.
  - cbn [flat_map] in H. pose proof (quote_byte_head d) as Hd.
    destruct (Client.quote_byte d) as [|x [|y [|z [|]]]]; try contradiction; discriminate H.
  - cbn [flat_map] in H. pose proof (quote_byte_head c) as Hc.
    destruct (Client.quote_byte c) as [|x [|y [|z [|]]]]; try contradiction; discriminate H.
  - cbn [flat_map] in H.
    pose proof (quote_byte_head c) as Hc. pose proof (quote_byte_head d) as Hd.
    destruct (Client.quote_byte c) as [|x [|y [|z [|]]]]; try contradiction;
      destruct (Client.quote_byte d) as [|x' [|y' [|z' [|]]]]; try contradiction;
      cbn [app] in H.
    + destruct Hc as (-> & _), Hd as (-> & _). injection H as -> H.
      f_equal. apply IH, H.
    + destruct Hc as (-> & Hs), Hd as (-> & _). injection H as -> _.
      discriminate Hs.
    + destruct Hc as (-> & _), Hd as (-> & Hs). injection H as <- _.
      discriminate Hs.
    + destruct Hc as (_ & _ & Hh & Hl), Hd as (_ & _ & Hh' & Hl').
      injection H as _ -> -> H.
      rewrite Hh in Hh'. rewrite Hl in Hl'. injection Hh' as Hh'. injection Hl' as Hl'.
      f_equal; [apply byte_of_nibbles; assumption | apply IH, H].
Qed.

(** Two texts that [quote] writes alike are the same text. *)
Lemma quote_injective (s t : string) : Client.quote s = Client.quote t -> s = t.
Proof.
  unfold Client.quote, B. intros H. apply quote_bytes_injective in H.
  rewrite <- (string_of_list_ascii_of_string s), <- (string_of_list_ascii_of_string t), H.
  reflexivity.
Qed.

(** ** Separators *)

Lemma count_app (c : ascii) (a b : bytes) : count c (a ++ b) = count c a + count c b.
Proof. apply count_occ_app. Qed.

Lemma count_zero (p : ascii -> bool) (c : ascii) (b : bytes) :
  forallb p b = true -> p c = false -> count c b = 0.
Proof.
  intros Hb Hc. unfold count. apply count_occ_not_In. intros Hin.
  rewrite forallb_forall in Hb. rewrite (Hb c Hin) in Hc. discriminate Hc.
Qed.

Lemma list_sum_cons (a : nat) (l : list nat) : list_sum (a :: l) = a + list_sum l.
Proof. reflexivity. Qed.

Lemma count_join (c : ascii) (sep : bytes) (parts : list bytes) :
  count c (join sep parts)
  = list_sum (map (count c) parts) + (List.length parts - 1) * count c sep.
Proof.
  induction parts as [|p parts IH]; [reflexivity|].
  destruct parts as [|q parts].
  - cbn [join map List.length Nat.sub Nat.mul]. rewrite list_sum_cons. cbn [list_sum fold_right]. lia.
  - rewrite join_cons2, !count_app, IH.
    cbn [map List.length Nat.sub Nat.mul]. rewrite !list_sum_cons. lia.
Qed.

(** What [clean_params] keeps of one parameter. *)
Lemma clean_value_none (v : json) : Client.clean_value v = None <-> json_is_null v = true.
Proof. destruct v as [| [] | | | |]; cbn; split; intros H; congruence. Qed.

Lemma clean_params_acc (params acc : list (string * json)) :
  nodup_strings (map fst params) = true ->
  (forall k, mem_string k (map fst params) = true -> mem_string k (map fst acc) = false) ->
  fold_left (fun clean kv =>
               match Client.clean_value (snd kv) with
               | Some text => dict_set (fst kv) (JStr text) clean
               | None => clean
               end) params acc
  = acc ++ flat_map (fun kv => match Client.clean_value (snd kv) with
                               | Some text => [(fst kv, JStr text)]
                               | None => []
                               end) params.
Proof.
  revert acc. induction params as [|[k v] params IH]; intros acc Hnd Hfresh.
  - cbn. rewrite app_nil_r. reflexivity.
  - cbn [map fst nodup_strings] in Hnd. apply andb_prop in Hnd as [Hk Hnd].
    apply negb_true_iff in Hk.
    cbn [fold_left flat_map fst snd].
    assert (Hacc : mem_string k (map fst acc) = false).
    { apply Hfresh. cbn [map fst mem_string]. rewrite String.eqb_refl. reflexivity. }
    destruct (Client.clean_value v) as [text|].
    + rewrite (dict_set_fresh k (JStr text) acc Hacc), IH, <- app_assoc; [reflexivity|exact Hnd|].
      intros k' Hk'. rewrite map_app, mem_string_app. cbn [map fst mem_string].
      rewrite orb_false_r.
      rewrite Hfresh by (cbn [map fst mem_string]; rewrite Hk'; apply orb_true_r).
      cbn [orb]. destruct (String.eqb k' k) eqn:E; [|reflexivity].
      apply String.eqb_eq in E. subst k'. congruence.
    + rewrite IH; [reflexivity | exact Hnd |].
      intros k' Hk'. apply Hfresh. cbn [map fst mem_string]. rewrite Hk'. apply orb_true_r.
Qed.

Lemma clean_params_length (params : list (string * json)) :
  nodup_strings (map fst params) = true ->
  List.length (Client.clean_params params) = List.length (sent params).
Proof.
  intros Hnd. unfold Client.clean_params.
  rewrite (clean_params_acc params [] Hnd) by reflexivity. cbn [app].
  unfold sent. clear Hnd. induction params as [|[k v] params IH]; [reflexivity|].
  cbn [flat_map filter fst snd].
  pose proof (clean_value_none v) as Hn.
  destruct (Client.clean_value v) as [text|].
  - destruct (json_is_null v); [destruct Hn as [_ Hn]; discriminate (Hn eq_refl)|].
    cbn [negb app List.length]. rewrite IH. reflexivity.
  - destruct Hn as [Hn _]. rewrite (Hn eq_refl). cbn [negb app]. exact IH.
Qed.

Lemma urlencode_counts (query : list (string * json)) :
  count "=" (Client.urlencode query) = List.length query
  /\ count "&" (Client.urlencode query) = List.length query - 1
  /\ count "?" (Client.urlencode query) = 0.
Proof.
  unfold Client.urlencode. rewrite !count_join.
  assert (Hq : forall c text, Client.always_safe c || Ascii.eqb c "%" = false ->
                              count c (Client.quote text) = 0).
  { intros c text Hc.
    apply (count_zero (fun x => Client.always_safe x || Ascii.eqb x "%") c _ (quote_safe text) Hc). }
  assert (Hsum : forall c n,
             (forall kv, count c (Client.quote (fst kv) ++ "=" :: Client.quote (py_str (snd kv)))
                         = n) ->
             list_sum (map (count c)
                         (map (fun kv => Client.quote (fst kv)
                                           ++ "=" :: Client.quote (py_str (snd kv))) query))
             = n * List.length query).
  { intros c n Hn. induction query as [|kv query IH]; [cbn; lia|].
    cbn [map List.length]. rewrite list_sum_cons, Hn, IH. lia. }
  rewrite length_map.
  rewrite (Hsum "=" 1), (Hsum "&" 0), (Hsum "?" 0).
  - change (count "=" ["&"]) with 0. change (count "&" ["&"]) with 1.
    change (count "?" ["&"]) with 0. lia.
  - intros kv. change ("=" :: ?x) with (["="] ++ x). rewrite !count_app, !Hq by reflexivity.
    reflexivity.
  - intros kv. change ("=" :: ?x) with (["="] ++ x). rewrite !count_app, !Hq by reflexivity.
    reflexivity.
  - intros kv. change ("=" :: ?x) with (["="] ++ x). rewrite !count_app, !Hq by reflexivity.
    reflexivity.
Qed.

(** X18. Values cannot inject separators.  For a dict of parameters and an
    action of unreserved characters and slashes, the URL has exactly one
    [=] for each parameter that is not [None], one [&] between two of
    them, and one [?] if there is any, whatever the values hold. *)
Theorem build_url_separators (action : string) (params : list (string * json)) :
  nodup_strings (map fst params) = true ->
  forallb action_char (B action) = true ->
  count "=" (Client._build_url action params) = List.length (sent params)
  /\ count "&" (Client._build_url action params) = List.length (sent params) - 1
  /\ count "?" (Client._build_url action params) = Nat.min 1 (List.length (sent params)).
Proof.
  intros Hnd Ha. unfold Client._build_url. cbv zeta.
  rewrite <- (clean_params_length params Hnd).
  destruct (urlencode_counts (Client.clean_params params)) as (He & Ha' & Hq).
  assert (Hbase : forall c, action_char c = false ->
                            count c (B Client.base_scheme) = 0 ->
                            count c (B Client.base_scheme ++ "/" :: B action)
                            = if Ascii.eqb c "/" then 1 else 0).
  { intros c Hc Hb. change ("/" :: B action) with (["/"] ++ B action).
    rewrite !count_app, Hb, (count_zero action_char c _ Ha Hc).
    unfold action_char in Hc. apply orb_false_elim in Hc as [_ Hc]. rewrite Hc.
    unfold count. cbn [count_occ]. destruct (ascii_dec "/" c) as [E|E]; [|reflexivity].
    subst c. discriminate Hc. }
  destruct (Client.urlencode (Client.clean_params params)) as [|c q] eqn:Eq.
  - assert (Hl : List.length (Client.clean_params params) = 0).
    { rewrite <- He. reflexivity. }
    rewrite Hl, !Hbase by reflexivity. repeat split.
  - change ("?" :: c :: q) with (["?"] ++ c :: q).
    rewrite !(count_app _ (B Client.base_scheme ++ "/" :: B action)).
    rewrite !(count_app _ ["?"]), He, Ha', Hq, !Hbase by reflexivity.
    change (count "=" ["?"]) with 0. change (count "&" ["?"]) with 0.
    change (count "?" ["?"]) with 1.
    assert (Hl : 1 <= List.length (Client.clean_params params)).
    { destruct (Client.clean_params params); [discriminate Eq | cbn; lia]. }
    cbn [Ascii.eqb Bool.eqb]. repeat split; lia.
Qed.

Lemma build_url_separators_witness :
  count "&"
    (Client._build_url "note/new"
       [("title", JStr "a b&c=d?"); ("tags", JArr [JStr "x,y"; JInt 2]);
        ("pinned", JBool true); ("color", JNull)]%string) = 2.
Proof.
  apply (build_url_separators "note/new"
           [("title", JStr "a b&c=d?"); ("tags", JArr [JStr "x,y"; JInt 2]);
            ("pinned", JBool true); ("color", JNull)]%string eq_refl eq_refl).
Defined.

(** ** The URL determines the values *)

Lemma split_at_amp (a b X Y : list ascii) :
  forallb (fun c => negb (Ascii.eqb c "&")) a = true ->
  forallb (fun c => negb (Ascii.eqb c "&")) b = true ->
  a ++ "&" :: X = b ++ "&" :: Y -> a = b /\ X = Y.
Proof.
  revert b. induction a as [|x a IH]; intros [|y b] Ha Hb H; cbn [app forallb] in *.
  - injection H as ->. auto.
  - injection H as <- _. discriminate Hb.
  - injection H as -> _. discriminate Ha.
  - apply andb_prop in Ha as [_ Ha]. apply andb_prop in Hb as [_ Hb].
    injection H as -> H. destruct (IH b Ha Hb H) as [-> ->]. auto.
Qed.

Lemma no_amp_end (a b Y : list ascii) :
  forallb (fun c => negb (Ascii.eqb c "&")) a = true -> a = b ++ "&" :: Y -> False.
Proof.
  intros Ha ->. rewrite forallb_app in Ha. cbn [forallb] in Ha.
  rewrite andb_false_r in Ha. discriminate Ha.
Qed.

Lemma join_amp_injective (ps qs : list (list ascii)) :
  List.length ps = List.length qs ->
  Forall (fun p => forallb (fun c => negb (Ascii.eqb c "&")) p = true) ps ->
  Forall (fun p => forallb (fun c => negb (Ascii.eqb c "&")) p = true) qs ->
  join ["&"] ps = join ["&"] qs -> ps = qs.
Proof.
  revert qs. induction ps as [|p ps IH]; intros [|q qs] Hl Hp Hq H; try discriminate Hl.
  - reflexivity.
  - inversion Hp as [|? ? Hp1 Hp2]; subst. inversion Hq as [|? ? Hq1 Hq2]; subst.
    destruct ps as [|p' ps]; destruct qs as [|q' qs]; try discriminate Hl.
    + cbn [join] in H. subst. reflexivity.
    + change (join ["&"] (p :: p' :: ps)) with (p ++ "&" :: join ["&"] (p' :: ps)) in H.
      change (join ["&"] (q :: q' :: qs)) with (q ++ "&" :: join ["&"] (q' :: qs)) in H.
      destruct (split_at_amp _ _ _ _ Hp1 Hq1 H) as [-> Hj].
      f_equal. apply IH; auto.
Qed.

Lemma quote_no_amp (text : string) :
  forallb (fun c => negb (Ascii.eqb c "&")) (Client.quote text) = true.
Proof.
  apply (forallb_impl (fun x => Client.always_safe x || Ascii.eqb x "%")); [|apply quote_safe].
  intros x. destruct x as [[] [] [] [] [] [] [] []]; intros H; try discriminate H;
    reflexivity.
Qed.

Lemma clean_text_params (keys : list string) (texts : list string) :
  nodup_strings keys = true -> List.length texts = List.length keys ->
  Client.clean_params (combine keys (map JStr texts)) = combine keys (map JStr texts).
Proof.
  intros Hnd Hl. unfold Client.clean_params.
  assert (Hk : map fst (combine keys (map JStr texts)) = keys).
  { clear Hnd. revert texts Hl. induction keys as [|k keys IH]; intros [|t texts] Hl;
      try discriminate Hl; [reflexivity|].
    cbn [map combine fst]. f_equal. apply IH. injection Hl as Hl. exact Hl. }
  rewrite clean_params_acc by (rewrite ?Hk; auto). cbn [app].
  clear. induction (combine keys (map JStr texts)) as [|[k v] l IH] eqn:E in keys, texts |- *.
  - reflexivity.
  - destruct keys as [|k' keys]; [discriminate E|].
    destruct texts as [|t texts]; [discriminate E|].
    cbn [map combine] in E. injection E as <- <- E.
    cbn [flat_map fst snd Client.clean_value py_str app]. f_equal.
    apply (IH keys texts). exact E.
Qed.

(** X19. For given parameter names the URL determines the texts: two calls
    whose text parameters differ somewhere never give the same URL. *)
Theorem build_url_injective (action : string) (keys ss ts : list string) :
  nodup_strings keys = true ->
  List.length ss = List.length keys -> List.length ts = List.length keys ->
  Client._build_url action (combine keys (map JStr ss))
  = Client._build_url action (combine keys (map JStr ts)) ->
  ss = ts.
Proof.
  intros Hnd Hs Ht H. unfold Client._build_url in H. cbv zeta in H.
  rewrite !clean_text_params in H by assumption.
  set (url := B Client.base_scheme ++ "/" :: B action) in *.
  assert (Hq : Client.urlencode (combine keys (map JStr ss))
               = Client.urlencode (combine keys (map JStr ts))).
  { destruct (Client.urlencode (combine keys (map JStr ss))) as [|c q];
      destruct (Client.urlencode (combine keys (map JStr ts))) as [|c' q'].
    - reflexivity.
    - apply (f_equal (@List.length ascii)) in H. rewrite length_app in H. cbn in H. lia.
    - apply (f_equal (@List.length ascii)) in H. rewrite length_app in H. cbn in H. lia.
    - apply app_inv_head in H. injection H as -> ->. reflexivity. }
  clear H. unfold Client.urlencode in Hq.
  apply join_amp_injective in Hq.
  - clear Hnd. revert ss ts Hs Ht Hq.
    induction keys as [|k keys IH]; intros [|s ss] [|t ts] Hs Ht Hq;
      try discriminate Hs; try discriminate Ht; [reflexivity|].
    cbn [map combine fst snd py_str] in Hq. injection Hq as Hh Hq.
    apply app_inv_head in Hh. injection Hh as Hh. apply quote_injective in Hh. subst t.
    f_equal. apply IH; auto.
  - rewrite !length_map, !length_combine, !length_map. lia.
  - apply Forall_map, Forall_forall. intros kv _. rewrite forallb_app. cbn [forallb].
    rewrite !quote_no_amp. reflexivity.
  - apply Forall_map, Forall_forall. intros kv _. rewrite forallb_app. cbn [forallb].
    rewrite !quote_no_amp. reflexivity.
Qed.

Lemma build_url_injective_witness :
  ["a b"; "c"]%string = ["a b"; "c"]%string.
Proof.
  apply (build_url_injective "note/new" ["title"; "text"]%string
           ["a b"; "c"]%string ["a b"; "c"]%string eq_refl eq_refl eq_refl eq_refl).
Defined.

(** * Markdown tables *)







(** * The tool schemas against the signatures of the client *)

Lemma mem_string_In (k : string) (l : list string) : mem_string k l = true <-> In k l.
Proof.
  induction l as [|x l IH]; cbn [mem_string In]; [split; [discriminate | tauto]|].
  rewrite orb_true_iff, IH, String.eqb_eq. split; intros [H|H]; auto.
Qed.

(** A keyword that is no parameter makes the call fail. *)
Lemma unexpected_keyword (method k : string) (kwargs : list (string * json)) :
  mem_string k (map fst kwargs) = true ->
  mem_string k (map fst (Client.parameters method)) = false ->
  Client.accepts method kwargs = false.
Proof.
  intros Hk Hp. unfold Client.accepts.
  assert (H : forallb (fun kv => mem_string (fst kv) (map fst (Client.parameters method)))
                kwargs = false).
  { induction kwargs as [|[k' v] kwargs IH]; [discriminate Hk|].
    cbn [map fst mem_string] in Hk. cbn [forallb fst].
    destruct (String.eqb k k') eqn:E.
    - apply String.eqb_eq in E. subst k'. rewrite Hp. reflexivity.
    - rewrite (IH Hk). apply andb_false_r. }
  rewrite H. reflexivity.
Qed.

(** A dispatched call that the signature does not accept: the payload
    reports an error and the client has done nothing. *)
Lemma call_tool_rejected (world : Type) (cls : Server.client_class world) (n : string)
  (kwargs : list (string * json)) (st : Server.state world) (w : world) :
  follows_signatures cls ->
  mem_string n Server.dispatched_tools = true ->
  Client.accepts n kwargs = false ->
  Server.new_client cls (Server.env st) = (Server.Return tt, w) ->
  exists e,
    Server.call_tool true (Some cls)
      (JObj [("name", JStr n); ("arguments", JObj kwargs)]%string) st
    = (Server.Return (Server.tool_failure e),
       Server.set_env (Server.add_log st (Server.ToolsCall n)) w).
Proof.
  intros Hcls Hd Hacc Hnew.
  destruct (Hcls n kwargs w Hacc) as (e & He). exists e.
  unfold Server.call_tool.
  cbn [Server.py_get dict_get String.eqb Ascii.eqb Bool.eqb py_str
       Server.env Server.add_log].
  assert (Ht : (if truthy (JObj kwargs) then JObj kwargs else JObj []) = JObj kwargs)
    by (destruct kwargs; reflexivity).
  rewrite Ht, Hnew, Hd. cbn [Server.env Server.set_env]. rewrite He.
  destruct st; reflexivity.
Qed.

(** A parameter without a default that is not given makes the call fail. *)
Lemma missing_argument (method k : string) (kwargs : list (string * json)) :
  In (k, false) (Client.parameters method) ->
  mem_string k (map fst kwargs) = false ->
  Client.accepts method kwargs = false.
Proof.
  intros Hin Hk. unfold Client.accepts.
  assert (H : forallb (fun p => snd p || mem_string (fst p) (map fst kwargs))
                (Client.parameters method) = false).
  { induction (Client.parameters method) as [|p ps IH]; [contradiction|].
    cbn [forallb]. destruct Hin as [-> | Hin].
    - cbn [fst snd orb]. rewrite Hk. reflexivity.
    - rewrite (IH Hin). apply andb_false_r. }
  rewrite H. apply andb_false_r.
Qed.

(** X21. A [tools/call] for [import_note] or [export_note] cannot succeed
    with the arguments the server itself advertises.  The schema of
    [import_note] requires [path] and that of [export_note] requires
    [format] and [dest_path], while the client methods name their
    parameters [file_path], [format_type] and [destination]: whenever the
    required properties are given, the call raises before the method body
    runs, the payload has isError true, and the client does nothing. *)
Theorem import_export_always_rejected (world : Type)
  (cls : Server.client_class world) (n : string) (kwargs : list (string * json))
  (st : Server.state world) (w : world) :
  follows_signatures cls ->
  n = "import_note"%string \/ n = "export_note"%string ->
  gives_required n kwargs = true ->
  Server.new_client cls (Server.env st) = (Server.Return tt, w) ->
  Client.accepts n kwargs = false
  /\ exists e,
       Server.call_tool true (Some cls)
         (JObj [("name", JStr n); ("arguments", JObj kwargs)]%string) st
       = (Server.Return (Server.tool_failure e),
          Server.set_env (Server.add_log st (Server.ToolsCall n)) w).
Proof.
  intros Hcls Hn Hreq Hnew.
  assert (Hacc : Client.accepts n kwargs = false).
  { destruct Hn as [-> | ->]; unfold gives_required in Hreq;
      cbn [forallb] in Hreq;
      change (schema_required "import_note") with ["path"%string] in Hreq;
      change (schema_required "export_note")
        with ["note_id"; "format"; "dest_path"]%string in Hreq;
      cbn [forallb] in Hreq;
      repeat match goal with
             | H : (_ && _) = true |- _ => apply andb_prop in H as [? ?]
             end.
    - apply (unexpected_keyword "import_note" "path"); [assumption | reflexivity].
    - apply (unexpected_keyword "export_note" "format"); [assumption | reflexivity]. }
  split; [exact Hacc|].
  apply call_tool_rejected; try assumption.
  destruct Hn as [-> | ->]; reflexivity.
Qed.

Lemma strict_client_follows : follows_signatures strict_client.
Proof.
  intros n kwargs w H. exists "TypeError"%string. cbn [Server.call_method strict_client].
  rewrite H. reflexivity.
Qed.

Lemma import_export_always_rejected_witness :
  Client.accepts "import_note" [("path", JStr "/tmp/note.md")]%string = false.
Proof.
  apply (import_export_always_rejected unit strict_client "import_note"
           [("path", JStr "/tmp/note.md")]%string (Server.start [] tt) tt
           strict_client_follows (or_introl eq_refl) eq_refl eq_refl).
Defined.

Lemma mem_string_incl (k : string) (a b : list string) :
  (forall x, In x a -> In x b) -> mem_string k a = true -> mem_string k b = true.
Proof. rewrite !mem_string_In. auto. Qed.

(** X22. For seven of the advertised tools the schema and the signature
    agree: arguments that give every required property and none the
    schema does not list are accepted by the client method, so the call
    reaches its body. *)
Theorem consistent_tools_accepted (n : string) (kwargs : list (string * json)) :
  In n consistent_tools ->
  within_schema n kwargs = true ->
  Client.accepts n kwargs = true.
Proof.
  intros Hn Hw. unfold within_schema, gives_required in Hw.
  apply andb_prop in Hw as [Hreq Hprops].
  unfold Client.accepts.
  assert (Hkeys : forall props params,
             (forall x, In x props -> In x params) ->
             forallb (fun kv => mem_string (fst kv) props) kwargs = true ->
             forallb (fun kv => mem_string (fst kv) params) kwargs = true).
  { intros props params Hi. apply forallb_impl. intros kv. apply mem_string_incl, Hi. }
  cbv [consistent_tools In] in Hn.
  repeat (destruct Hn as [<-|Hn]; [
    apply andb_true_intro; split;
    [ eapply Hkeys; [|exact Hprops];
      cbv [schema_properties keys_of input_schema]; cbn; intros x Hx; intuition
    | cbv [schema_required strings_of input_schema] in Hreq; cbn in Hreq;
      cbn [Client.parameters String.eqb Ascii.eqb Bool.eqb Client.required
           Client.optional map app forallb fst snd orb];
      repeat match goal with
             | H : (_ && _) = true |- _ => apply andb_prop in H as [? ?]
             end;
      repeat match goal with
             | H : mem_string ?k _ = true |- context [mem_string ?k _] => rewrite H
             end;
      reflexivity ] |]).
  contradiction.
Qed.

Lemma consistent_tools_accepted_witness :
  Client.accepts "create_task_note"
    [("title", JStr "t"); ("tasks", JArr [JStr "a"]); ("priority", JStr "high")]%string
  = true.
Proof.
  apply (consistent_tools_accepted "create_task_note"
           [("title", JStr "t"); ("tasks", JArr [JStr "a"]); ("priority", JStr "high")]%string).
  - cbv [consistent_tools In]. tauto.
  - reflexivity.
Defined.

(** X23. Three more advertised tools do not match their methods.  The
    schemas of [create_meeting_note] and [create_project_note] require
    less than the methods do ([attendees] and [agenda], [milestones] and
    [team_members] have no default), and the schema of [search_notes]
    lists [notebook], [tags] and [limit], which the method does not take:
    a call that leaves out one of the former or gives one of the latter
    has isError true, and the client does nothing. *)
Theorem mismatched_tools_rejected (world : Type) (cls : Server.client_class world)
  (n k : string) (kwargs : list (string * json)) (st : Server.state world) (w : world) :
  follows_signatures cls ->
  (n = "create_meeting_note"%string /\ In k ["attendees"; "agenda"]%string
   /\ mem_string k (map fst kwargs) = false)
  \/ (n = "create_project_note"%string /\ In k ["milestones"; "team_members"]%string
      /\ mem_string k (map fst kwargs) = false)
  \/ (n = "search_notes"%string /\ In k ["notebook"; "tags"; "limit"]%string
      /\ mem_string k (map fst kwargs) = true) ->
  Server.new_client cls (Server.env st) = (Server.Return tt, w) ->
  In n (tool_names Server.list_tools)
  /\ ~ In k (schema_required n)
  /\ In k (schema_properties n)
  /\ Client.accepts n kwargs = false
  /\ exists e,
       Server.call_tool true (Some cls)
         (JObj [("name", JStr n); ("arguments", JObj kwargs)]%string) st
       = (Server.Return (Server.tool_failure e),
          Server.set_env (Server.add_log st (Server.ToolsCall n)) w).
Proof.
  intros Hcls Hcase Hnew.
  assert (Hfacts : In n (tool_names Server.list_tools)
                   /\ ~ In k (schema_required n) /\ In k (schema_properties n)
                   /\ mem_string n Server.dispatched_tools = true
                   /\ Client.accepts n kwargs = false).
  { destruct Hcase as [(-> & Hk & Hm) | [(-> & Hk & Hm) | (-> & Hk & Hm)]];
      cbv [In] in Hk; (repeat destruct Hk as [<- | Hk]; try contradiction);
      (split; [cbv [tool_names Server.list_tools Server.tool dict_get String.eqb
                    Ascii.eqb Bool.eqb flat_map app]; cbn [In]; tauto|]);
      (split; [cbv [schema_required strings_of input_schema]; cbn;
               intuition discriminate|]);
      (split; [cbv [schema_properties keys_of input_schema]; cbn; tauto|]);
      (split; [reflexivity|]);
      first [ eapply missing_argument; [|exact Hm]; cbn; tauto
            | eapply unexpected_keyword; [exact Hm | reflexivity] ]. }
  destruct Hfacts as (H1 & H2 & H3 & Hd & Hacc).
  repeat (split; [assumption|]).
  apply call_tool_rejected; assumption.
Qed.

Lemma mismatched_tools_rejected_witness :
  Client.accepts "create_meeting_note"
    [("title", JStr "Weekly"); ("date", JStr "2024-05-01")]%string = false.
Proof.
  apply (mismatched_tools_rejected unit strict_client "create_meeting_note" "agenda"
           [("title", JStr "Weekly"); ("date", JStr "2024-05-01")]%string
           (Server.start [] tt) tt strict_client_follows).
  - left. repeat split. cbn [In]. tauto.
  - reflexivity.
Defined.

(** * Searching *)

Lemma dict_set_keys (k : string) (v : json) (d : list (string * json)) :
  map fst (dict_set k v d)
  = if mem_string k (map fst d) then map fst d else map fst d ++ [k].
Proof.
  induction d as [|[k' v'] d IH]; [reflexivity|].
  cbn [dict_set map fst mem_string]. destruct (String.eqb k k'); [reflexivity|].
  cbn [map fst orb]. rewrite IH. destruct (mem_string k (map fst d)); reflexivity.
Qed.

Lemma nodup_strings_snoc (l : list string) (k : string) :
  nodup_strings l = true -> mem_string k l = false -> nodup_strings (l ++ [k]) = true.
Proof.
  induction l as [|x l IH]; intros Hn Hk; [reflexivity|].
  cbn [nodup_strings mem_string app] in *. apply andb_prop in Hn as [Hx Hn].
  apply orb_false_elim in Hk as [Hkx Hk].
  rewrite mem_string_app, (IH Hn Hk). cbn [mem_string].
  apply negb_true_iff in Hx. rewrite Hx, orb_false_r.
  rewrite String.eqb_sym, Hkx. reflexivity.
Qed.

Lemma nodup_dict_set (k : string) (v : json) (d : list (string * json)) :
  nodup_strings (map fst d) = true -> nodup_strings (map fst (dict_set k v d)) = true.
Proof.
  intros H. rewrite dict_set_keys. destruct (mem_string k (map fst d)) eqn:E; [exact H|].
  apply nodup_strings_snoc; assumption.
Qed.

Lemma nodup_set_if (k : string) (x : option string) (d : list (string * json)) :
  nodup_strings (map fst d) = true ->
  nodup_strings (map fst (Client.set_if k x d)) = true.
Proof.
  intros H. unfold Client.set_if. destruct x as [s|]; [|exact H].
  destruct (String.eqb s EmptyString); [exact H | apply nodup_dict_set, H].
Qed.

Lemma join_two (sep p q : list ascii) (l : list (list ascii)) :
  exists Y, join sep (p :: q :: l) = p ++ sep ++ q ++ Y.
Proof.
  destruct (join_head sep q l []) as (Y & HY). rewrite app_nil_r in HY.
  exists Y. rewrite <- HY. reflexivity.
Qed.

Section Search.
Variable world : Type.
Variable system : string.
Variable run : list bytes -> bool -> world -> Client.run_outcome * world.

(** X24. [search_notes] refuses a query that is empty or all whitespace
    before anything is run; any other query opens the search view with the
    query stripped and percent-encoded, right after the action,
    whichever optional arguments follow. *)
Theorem search_notes_query (query : string)
  (mode notebook_id tag_id filter_id space_id x_success x_error x_cancel : option string)
  (w : world) :
  if bytes_eqb (str_strip (B query)) [] then
    exists e,
      Client.search_notes world system run query mode notebook_id tag_id filter_id
        space_id x_success x_error x_cancel w
      = (Server.Raise e, w)
  else
    exists url,
      Client.search_notes world system run query mode notebook_id tag_id filter_id
        space_id x_success x_error x_cancel w
      = Client._open_url world system run url w
      /\ startswith
           (B "upnote://x-callback-url/view?action=search&query="
              ++ flat_map Client.quote_byte (str_strip (B query))) url = true.
Proof.
  unfold Client.search_notes.
  destruct (bytes_eqb (str_strip (B query)) []) eqn:Eb.
  { rewrite orb_true_r. eexists. reflexivity. }
  assert (Hq : String.eqb query EmptyString = false).
  { destruct query; [discriminate Eb | reflexivity]. }
  rewrite Hq. cbn [orb]. cbv zeta.
  set (q := string_of_list_ascii (str_strip (B query))).
  set (p0 := [("action"%string, JStr "search"); ("query"%string, JStr q)]).
  exists (Client._build_url "view"
            (Client.set_if "x-cancel" x_cancel
               (Client.set_if "x-error" x_error
                  (Client.set_if "x-success" x_success
                     (Client.set_if "spaceId" space_id
                        (Client.set_if "filterId" filter_id
                           (Client.set_if "tagId" tag_id
                              (Client.set_if "notebookId" notebook_id
                                 (Client.set_if "mode" mode p0))))))))).
  split; [reflexivity|].
  (* every [set_if] works behind the first two entries *)
  assert (Hshape : forall k x tail,
             String.eqb k "action" = false -> String.eqb k "query" = false ->
             exists tail',
               Client.set_if k x (("action"%string, JStr "search")
                                    :: ("query"%string, JStr q) :: tail)
               = ("action"%string, JStr "search") :: ("query"%string, JStr q) :: tail').
  { intros k x tail H1 H2. unfold Client.set_if. destruct x as [s|]; [|eauto].
    destruct (String.eqb s EmptyString); [eauto|].
    cbn [dict_set]. rewrite H1, H2. eauto. }
  destruct (Hshape "mode"%string mode [] eq_refl eq_refl) as (t1 & E1).
  destruct (Hshape "notebookId"%string notebook_id t1 eq_refl eq_refl) as (t2 & E2).
  destruct (Hshape "tagId"%string tag_id t2 eq_refl eq_refl) as (t3 & E3).
  destruct (Hshape "filterId"%string filter_id t3 eq_refl eq_refl) as (t4 & E4).
  destruct (Hshape "spaceId"%string space_id t4 eq_refl eq_refl) as (t5 & E5).
  destruct (Hshape "x-success"%string x_success t5 eq_refl eq_refl) as (t6 & E6).
  destruct (Hshape "x-error"%string x_error t6 eq_refl eq_refl) as (t7 & E7).
  destruct (Hshape "x-cancel"%string x_cancel t7 eq_refl eq_refl) as (t8 & E8).
  assert (Hnd : nodup_strings
                  (map fst
                     (Client.set_if "x-cancel" x_cancel
                        (Client.set_if "x-error" x_error
                           (Client.set_if "x-success" x_success
                              (Client.set_if "spaceId" space_id
                                 (Client.set_if "filterId" filter_id
                                    (Client.set_if "tagId" tag_id
                                       (Client.set_if "notebookId" notebook_id
                                          (Client.set_if "mode" mode p0))))))))) = true).
  { repeat apply nodup_set_if. reflexivity. }
  unfold p0 in *. rewrite E1, E2, E3, E4, E5, E6, E7, E8 in *.
  unfold Client._build_url, Client.clean_params. cbv zeta.
  rewrite (clean_params_acc _ [] Hnd) by reflexivity.
  cbn [app flat_map fst snd Client.clean_value py_str].
  unfold Client.urlencode. cbn [map fst snd py_str].
  match goal with
  | |- context [join ?sep (?a :: ?b :: ?l)] =>
      destruct (join_two sep a b l) as (Y & HY); rewrite HY
  end.
  assert (Hquote : Client.quote q = flat_map Client.quote_byte (str_strip (B query))).
  { unfold Client.quote, q, B. rewrite list_ascii_of_string_of_list_ascii. reflexivity. }
  rewrite Hquote.
  match goal with
  | |- startswith ?p match ?x with [] => _ | _ :: _ => ?u ++ "?" :: ?x end = true =>
      assert (Hx : exists Z, u ++ "?" :: x = p ++ Z)
  end.
  { eexists. cbn [Client.quote B list_ascii_of_string flat_map Client.quote_byte
                   Client.base_scheme app].
    cbn. rewrite <- ?app_assoc. cbn [app]. reflexivity. }
  destruct Hx as (Z & HZ).
  match goal with
  | |- startswith _ match ?x with [] => _ | _ :: _ => _ end = true =>
      destruct x eqn:Ex; [discriminate Ex|]
  end.
  rewrite HZ. apply startswith_app.
Qed.

End Search.

(** * Where server and proxy differ on lsp frames *)

Lemma str_strip_value_lf (n : nat) :
  0 < n -> str_strip (" " :: str_nat n ++ [LF]) = str_nat n.
Proof.
  intros Hn. destruct (str_nat_digits n Hn) as (c & t & E & Hd & _).
  change (str_strip (" " :: str_nat n ++ [LF])) with (str_strip (str_nat n ++ [LF])).
  apply str_strip_line.
  - exists c, t. split; [exact E|]. rewrite E in Hd. cbn [forallb] in Hd.
    apply andb_prop in Hd as [Hc _]. apply digit_graphic, Hc.
  - destruct (last_forallb is_digit (str_nat n)) as (t' & d & E' & Hd');
      [rewrite E; discriminate | exact Hd |].
    exists t', d. split; [exact E' | apply digit_graphic, Hd'].
  - left. reflexivity.
Qed.

Lemma add_header_content_length_lf (n : nat) :
  0 < n ->
  Server.add_header (content_length_line n ++ [LF]) [] = [(B "content-length", str_nat n)].
Proof.
  intros Hn. unfold Server.add_header.
  assert (Ha : Server.is_ascii (content_length_line n ++ [LF]) = true).
  { destruct (str_nat_digits n Hn) as (c & t & _ & Hd & _).
    unfold Server.is_ascii, content_length_line. rewrite !forallb_app.
    change (forallb (fun c0 => (code c0 <? 128)%N) (str_nat n))
      with (forallb is_ascii7 (str_nat n)).
    rewrite (forallb_impl is_digit is_ascii7 _ digit_ascii7 Hd). reflexivity. }
  rewrite Ha. unfold content_length_line.
  change (B "Content-Length: ") with (B "Content-Length" ++ [":"; " "]).
  rewrite <- !app_assoc.
  assert (Hs : split_once ":" (B "Content-Length" ++ [":"; " "] ++ str_nat n ++ [LF])
               = Some (B "Content-Length", " " :: str_nat n ++ [LF])) by reflexivity.
  rewrite Hs, (str_strip_value_lf n Hn). reflexivity.
Qed.

(** X25. An lsp frame whose header lines end in a bare line feed: the server
    reads it, since it takes its lines from [readline] and knows the blank
    line in both forms, while the proxy's sniffer, which looks for CR LF
    CR LF, never finds the message at any point of its arrival (it still
    forwards the bytes). *)
Theorem lf_only_lsp_frame (world : Type) (v : json) (rest : bytes)
  (st : Server.state world) (prefix : string) (k : nat) :
  wf_json v = true ->
  Server.stdin st
  = content_length_line (List.length (dumps v)) ++ [LF; LF] ++ dumps v ++ rest ->
  Server.read_message st
  = (Some v,
     Server.set_mode (Server.set_stdin st rest)
       (Server.mode_or (Server.TRANSPORT_MODE st) lsp))
  /\ Debugger.sniff_and_summarize prefix
       (firstn k (content_length_line (List.length (dumps v)) ++ [LF; LF] ++ dumps v))
     = ([], None).
Proof.
  intros Hwf Hin. set (n := List.length (dumps v)) in *.
  assert (Hn : 0 < n).
  { pose proof (dumps_nonempty v). unfold n. destruct (dumps v); [congruence|cbn; lia]. }
  split.
  - assert (Hr : readline (Server.stdin st)
                 = (content_length_line n ++ [LF], LF :: dumps v ++ rest)).
    { rewrite Hin. change ([LF; LF] ++ dumps v ++ rest) with (LF :: LF :: dumps v ++ rest).
      apply readline_line, content_length_line_no_lf, Hn. }
    rewrite (read_message_unfold world st _ _ Hr)
      by (unfold content_length_line; discriminate).
    assert (Hf : Server.line_framing (content_length_line n ++ [LF]) = lsp) by reflexivity.
    rewrite Hf. unfold Server._read_lsp_from.
    assert (Hnb : Server.is_blank_line (content_length_line n ++ [LF]) = false)
      by reflexivity.
    rewrite Hnb, (add_header_content_length_lf n Hn).
    cbn [negb Server.stdin Server.set_stdin Server.set_mode].
    assert (Hh : forall h fuel,
               Server.read_header_lines (S fuel) h (LF :: dumps v ++ rest)
               = Some (h, dumps v ++ rest)) by reflexivity.
    rewrite Hh. cbn [header_get]. rewrite bytes_eqb_refl.
    destruct (str_nat_digits _ Hn) as (c & t & E & Hd & Hz).
    rewrite (py_int_digits (str_nat n) (Z.of_nat n)) by (try congruence; assumption).
    destruct (Z.of_nat n <=? 0)%Z eqn:Ez; [apply Z.leb_le in Ez; lia|].
    assert (Hfirst : firstn n (dumps v ++ rest) = dumps v).
    { unfold n. rewrite firstn_app, Nat.sub_diag, firstn_all. apply app_nil_r. }
    assert (Hskip : skipn n (dumps v ++ rest) = rest).
    { unfold n. rewrite skipn_app, Nat.sub_diag, skipn_all. reflexivity. }
    rewrite Nat2Z.id. unfold read. cbn [Server.stdin Server.set_stdin].
    rewrite Hfirst, Hskip. fold n. rewrite Nat.eqb_refl. cbn [negb].
    pose proof (decode_utf8_line v [] Hwf eq_refl) as Hu. rewrite app_nil_r in Hu.
    rewrite Hu, (loads_dumps v Hwf). reflexivity.
  - assert (Hcr : forallb (fun c => negb (Ascii.eqb CR c))
                    (content_length_line n ++ [LF; LF] ++ dumps v) = true).
    { rewrite !forallb_app, (content_length_line_no_cr n Hn),
        (printable_not_cr _ (dumps_printable v)). reflexivity. }
    assert (Hnone : Debugger.try_parse_lsp
                      (firstn k (content_length_line n ++ [LF; LF] ++ dumps v)) = None).
    { unfold Debugger.try_parse_lsp.
      rewrite (find_none CR [LF; CR; LF]) by (apply forallb_firstn, Hcr). reflexivity. }
    assert (Hb : bytes_eqb
                   (slice (firstn k (content_length_line n ++ [LF; LF] ++ dumps v)) 0 1)
                   ["{"]
                 || bytes_eqb
                      (slice (firstn k (content_length_line n ++ [LF; LF] ++ dumps v)) 0 1)
                      ["["] = false).
    { unfold content_length_line. cbn [B list_ascii_of_string app].
      apply not_brace_prefix. }
    unfold Debugger.sniff_and_summarize. rewrite Hnone, Hb.
    match goal with |- (if ?c then _ else _) = _ => destruct c end; reflexivity.
Qed.

Lemma lf_only_lsp_frame_witness :
  Server.read_message
    (Server.start (B "Content-Length: 40" ++ [LF; LF] ++ dumps (ping_request 1)) tt)
  = (Some (ping_request 1), Server.set_mode (Server.start [] tt) (Some lsp)).
Proof.
  apply (lf_only_lsp_frame unit (ping_request 1) []
           (Server.start (B "Content-Length: 40" ++ [LF; LF] ++ dumps (ping_request 1)) tt)
           "C2S" 0 eq_refl).
  cbn [Server.stdin Server.start]. rewrite app_nil_r. reflexivity.
Defined.

(** * A line the proxy does not know *)

Lemma startswith_firstn (p b : bytes) (k : nat) :
  startswith p (firstn k b) = true -> startswith p b = true.
Proof.
  revert b k. induction p as [|x p IH]; intros b k H; [reflexivity|].
  destruct b as [|y b]; [destruct k; discriminate H|].
  destruct k as [|k]; [discriminate H|]. cbn [firstn startswith] in *.
  apply andb_prop in H as [Hx Hp]. rewrite Hx, (IH b k Hp). reflexivity.
Qed.

Lemma contains_firstn (sub b : bytes) (k : nat) :
  contains sub (firstn k b) = true -> contains sub b = true.
Proof.
  unfold contains. revert k. induction b as [|c b IH]; intros k H.
  - rewrite firstn_nil in H. exact H.
  - destruct k as [|k].
    + cbn [firstn find] in H. destruct (startswith sub []) eqn:Es; [|discriminate H].
      destruct sub; [reflexivity | discriminate Es].
    + cbn [firstn] in H. rewrite find_unfold in H. rewrite find_unfold.
      destruct (startswith sub (c :: firstn k b)) eqn:Es.
      * apply (startswith_firstn sub (c :: b) (S k)) in Es. rewrite Es. reflexivity.
      * destruct (startswith sub (c :: b)); [reflexivity|].
        specialize (IH k). destruct (find sub (firstn k b)); [|discriminate H].
        specialize (IH eq_refl). destruct (find sub b); [reflexivity | discriminate IH].
Qed.

(** No prefix of a stream that the sniffer does not know at its start is
    known to it. *)
Lemma sniff_unknown_prefix (prefix : string) (src : bytes) (k : nat) :
  starts_brace src = false -> lsp_looking src = false ->
  Debugger.sniff_and_summarize prefix (firstn k src) = ([], None).
Proof.
  intros Hb Hl. unfold lsp_looking in Hl. apply orb_false_elim in Hl as [Hs Hc].
  assert (Hs' : startswith (B "Content-Length:") (firstn k src) = false).
  { destruct (startswith (B "Content-Length:") (firstn k src)) eqn:E; [|reflexivity].
    apply startswith_firstn in E. congruence. }
  assert (Hc' : contains CRLFCRLF (slice (firstn k src) 0 128) = false).
  { destruct (contains CRLFCRLF (slice (firstn k src) 0 128)) eqn:E; [|reflexivity].
    unfold slice in E. cbn [skipn Nat.sub] in E. rewrite firstn_firstn in E.
    destruct (Nat.le_gt_cases 128 k) as [Hk|Hk].
    - rewrite Nat.min_l in E by exact Hk. congruence.
    - rewrite Nat.min_r in E by lia.
      replace (firstn k src) with (firstn k (firstn 128 src)) in E
        by (rewrite firstn_firstn, Nat.min_l by lia; reflexivity).
      apply contains_firstn in E. congruence. }
  assert (Hb' : bytes_eqb (slice (firstn k src) 0 1) ["{"]
                || bytes_eqb (slice (firstn k src) 0 1) ["["] = false).
  { destruct src as [|c src]; [destruct k; reflexivity|].
    destruct k as [|k]; [reflexivity|].
    unfold slice. cbn [skipn Nat.sub firstn]. cbn [starts_brace] in Hb.
    apply orb_false_elim in Hb as [H1 H2].
    unfold bytes_eqb.
    destruct (list_eq_dec ascii_dec [c] ["{"]) as [E|_];
      [injection E as ->; discriminate H1|].
    destruct (list_eq_dec ascii_dec [c] ["["]) as [E|_];
      [injection E as ->; discriminate H2 | reflexivity]. }
  unfold Debugger.sniff_and_summarize. rewrite Hs', Hc', Hb'. reflexivity.
Qed.

(** X26. One stray line blinds the summary.  When what the source delivers
    does not begin like a message (its first byte is neither a brace nor
    a bracket, it does not begin with Content-Length: and has no CR LF CR
    LF within its first 128 bytes), the pump never finds a message in it,
    however many well-formed messages follow: it logs nothing and keeps
    every byte in its buffer, while forwarding goes on. *)
Theorem pump_unknown_start (prefix : string) (src dst0 : bytes) :
  starts_brace src = false -> lsp_looking src = false ->
  Debugger.pump src dst0 prefix
  = {| Debugger.dst := dst0 ++ src; Debugger.tap := src;
       Debugger.buf := src; Debugger.log := [] |}.
Proof.
  intros Hb Hl. unfold Debugger.pump.
  assert (G : forall todo seen (st : Debugger.pump_state),
             seen ++ todo = src -> Debugger.buf st = seen ->
             Debugger.pump_loop prefix todo st
             = {| Debugger.dst := Debugger.dst st ++ todo;
                  Debugger.tap := Debugger.tap st ++ todo;
                  Debugger.buf := seen ++ todo;
                  Debugger.log := Debugger.log st |}).
  { induction todo as [|c todo IH]; intros seen st Hsrc Hbuf.
    - cbn [Debugger.pump_loop]. rewrite !app_nil_r. destruct st; cbn in *. subst.
      reflexivity.
    - cbn [Debugger.pump_loop].
      assert (Hq : Debugger.sniff_and_summarize prefix (seen ++ [c]) = ([], None)).
      { replace (seen ++ [c]) with (firstn (List.length (seen ++ [c])) src).
        - apply sniff_unknown_prefix; assumption.
        - rewrite <- Hsrc. change (c :: todo) with ([c] ++ todo).
          rewrite app_assoc, firstn_app, Nat.sub_diag, firstn_all. cbn [firstn].
          apply app_nil_r. }
      assert (Hstep : Debugger.pump_step prefix c st
                      = {| Debugger.dst := Debugger.dst st ++ [c];
                           Debugger.tap := Debugger.tap st ++ [c];
                           Debugger.buf := seen ++ [c];
                           Debugger.log := Debugger.log st |}).
      { unfold Debugger.pump_step. rewrite Hbuf, Hq. cbn [Debugger.if_consumed].
        rewrite app_nil_r. reflexivity. }
      rewrite Hstep, (IH (seen ++ [c])).
      + cbn [Debugger.dst Debugger.tap Debugger.log]. rewrite <- !app_assoc. reflexivity.
      + rewrite <- app_assoc. exact Hsrc.
      + reflexivity. }
  rewrite (G src []) by reflexivity. reflexivity.
Qed.

Lemma pump_unknown_start_witness :
  Debugger.log
    (Debugger.pump (B "starting up" ++ [LF] ++ ping_line 1 ++ ping_line 2) [] "S2C")
  = [].
Proof.
  exact (f_equal Debugger.log
           (pump_unknown_start "S2C" (B "starting up" ++ [LF] ++ ping_line 1 ++ ping_line 2)
              [] eq_refl eq_refl)).
Defined.

(** * Tripwire mode *)

Lemma sniff_lsp_trail (prefix : string) (v : json) (trail : bytes) :
  wf_json v = true ->
  Debugger.sniff_and_summarize prefix (Server.lsp_frame v ++ trail)
  = (summary prefix (lsp, v), Some (List.length (Server.lsp_frame v))).
Proof.
  intros Hwf.
  assert (Hl : startswith (B "Content-Length:") (Server.lsp_frame v ++ trail) = true)
    by reflexivity.
  unfold Debugger.sniff_and_summarize.
  rewrite Hl, (try_parse_lsp_frame v trail), (summarize_dumps _ _ Hwf). reflexivity.
Qed.

Lemma readline_lsp_frame (v : json) (rest : bytes) :
  readline (Server.lsp_frame v ++ rest)
  = (content_length_line (List.length (dumps v)) ++ CRLF, CRLF ++ dumps v ++ rest).
Proof.
  assert (Hn : 0 < List.length (dumps v)).
  { pose proof (dumps_nonempty v). destruct (dumps v); [congruence | simpl; lia]. }
  rewrite lsp_frame_eq.
  assert (Hshape : (content_length_line (List.length (dumps v)) ++ CRLFCRLF ++ dumps v)
                     ++ rest
                   = (content_length_line (List.length (dumps v)) ++ [CR])
                       ++ LF :: (CRLF ++ dumps v ++ rest)).
  { rewrite <- !app_assoc. reflexivity. }
  rewrite Hshape, readline_line
    by (rewrite forallb_app, (content_length_line_no_lf _ Hn); reflexivity).
  rewrite <- (app_assoc _ [CR] [LF]). reflexivity.
Qed.

(** What the tripwire holds of an lsp frame after its two reads, when the
    second brought [g] bytes, fewer than the frame still had. *)
Lemma lsp_frame_short (v : json) (rest : bytes) (g : nat) :
  g < 2 + List.length (dumps v) ->
  (content_length_line (List.length (dumps v)) ++ CRLF)
    ++ firstn g (CRLF ++ dumps v ++ rest)
  = firstn (List.length (content_length_line (List.length (dumps v))) + 2 + g)
      (Server.lsp_frame v).
Proof.
  intros Hg. rewrite lsp_frame_eq. set (cl := content_length_line _).
  assert (Hs : cl ++ CRLFCRLF ++ dumps v = (cl ++ CRLF) ++ (CRLF ++ dumps v))
    by (rewrite <- app_assoc; reflexivity).
  assert (Hl : List.length (cl ++ CRLF) = List.length cl + 2)
    by (rewrite length_app; reflexivity).
  assert (Hl' : List.length (CRLF ++ dumps v) = 2 + List.length (dumps v))
    by (rewrite length_app; reflexivity).
  assert (Hr : CRLF ++ dumps v ++ rest = (CRLF ++ dumps v) ++ rest)
    by (rewrite <- app_assoc; reflexivity).
  rewrite Hs, (firstn_app (List.length cl + 2 + g) (cl ++ CRLF)), Hl.
  rewrite (firstn_all2 (cl ++ CRLF)) by lia. f_equal.
  replace (List.length cl + 2 + g - (List.length cl + 2)) with g by lia.
  rewrite Hr, firstn_app, Hl'.
  replace (g - (2 + List.length (dumps v))) with 0 by lia.
  cbn [firstn]. apply app_nil_r.
Qed.

Lemma lsp_frame_long (v : json) (rest : bytes) (g : nat) :
  2 + List.length (dumps v) <= g ->
  (content_length_line (List.length (dumps v)) ++ CRLF)
    ++ firstn g (CRLF ++ dumps v ++ rest)
  = Server.lsp_frame v ++ firstn (g - (2 + List.length (dumps v))) rest.
Proof.
  intros Hg. rewrite lsp_frame_eq. set (cl := content_length_line _).
  assert (Hs : cl ++ CRLFCRLF ++ dumps v = (cl ++ CRLF) ++ (CRLF ++ dumps v))
    by (rewrite <- app_assoc; reflexivity).
  assert (Hl' : List.length (CRLF ++ dumps v) = 2 + List.length (dumps v))
    by (rewrite length_app; reflexivity).
  assert (Hr : CRLF ++ dumps v ++ rest = (CRLF ++ dumps v) ++ rest)
    by (rewrite <- app_assoc; reflexivity).
  rewrite Hs, Hr, firstn_app, Hl', (firstn_all2 (CRLF ++ dumps v)) by lia.
  rewrite <- !app_assoc. reflexivity.
Qed.

(** The three ways through [run_tripwire] once a first line is there. *)
Lemma run_tripwire_sniffed (granted : nat) (inp chunk rest : bytes)
  (logs : list Debugger.log_record) (consumed : nat) :
  readline inp = (chunk, rest) -> chunk <> [] ->
  Debugger.sniff_and_summarize "INPUT" chunk = (logs, Some consumed) ->
  Tripwire.run_tripwire granted inp
  = Tripwire.prelude ++ map Tripwire.Sniffed logs ++ [Tripwire.Captured].
Proof.
  intros Hr Hne Hs. unfold Tripwire.run_tripwire. rewrite Hr.
  destruct chunk as [|c t]; [congruence|]. rewrite Hs. reflexivity.
Qed.

Lemma run_tripwire_no_more (granted : nat) (inp chunk rest : bytes)
  (logs : list Debugger.log_record) :
  readline inp = (chunk, rest) -> chunk <> [] ->
  Debugger.sniff_and_summarize "INPUT" chunk = (logs, None) ->
  fst (Tripwire.read1 granted rest) = [] ->
  Tripwire.run_tripwire granted inp
  = Tripwire.prelude
      ++ (map Tripwire.Sniffed logs
            ++ [Tripwire.RawFirstBytes (List.length chunk) (slice chunk 0 256)])
      ++ [Tripwire.Captured].
Proof.
  intros Hr Hne Hs Hm. unfold Tripwire.run_tripwire. rewrite Hr.
  destruct chunk as [|c t]; [congruence|]. rewrite Hs.
  destruct (Tripwire.read1 granted rest) as [more rest']. cbn [fst] in Hm. subst more.
  reflexivity.
Qed.

Lemma run_tripwire_more (granted : nat) (inp chunk rest more : bytes)
  (logs : list Debugger.log_record) :
  readline inp = (chunk, rest) -> chunk <> [] ->
  Debugger.sniff_and_summarize "INPUT" chunk = (logs, None) ->
  fst (Tripwire.read1 granted rest) = more -> more <> [] ->
  Tripwire.run_tripwire granted inp
  = Tripwire.prelude
      ++ match Debugger.sniff_and_summarize "INPUT" (chunk ++ more) with
         | (logs2, Some _) => map Tripwire.Sniffed (logs ++ logs2)
         | (logs2, None) =>
             map Tripwire.Sniffed (logs ++ logs2)
               ++ [Tripwire.RawFirstBytes (List.length (chunk ++ more))
                     (slice (chunk ++ more) 0 256)]
         end
      ++ [Tripwire.Captured].
Proof.
  intros Hr Hne Hs Hm Hmne. unfold Tripwire.run_tripwire. rewrite Hr.
  destruct chunk as [|c t]; [congruence|]. rewrite Hs.
  destruct (Tripwire.read1 granted rest) as [more' rest']. cbn [fst] in Hm. subst more'.
  destruct more as [|c' t']; [congruence|].
  destruct (Debugger.sniff_and_summarize "INPUT" ((c :: t) ++ c' :: t')) as [logs2 [k|]];
    reflexivity.
Qed.

(** X27. In tripwire mode a first message framed as ndjson is always
    recognised and summarised.  A first message framed as lsp is
    recognised exactly when the one further read of at most 8192 bytes
    brings the rest of its frame, the blank line and the whole body;
    otherwise the tripwire logs the raw bytes it holds, a proper prefix of
    the frame.  What follows the frame in the input plays no part. *)
Theorem tripwire_first_message (f : framing) (v : json) (rest : bytes) (granted : nat) :
  readable (f, v) = true ->
  Tripwire.run_tripwire granted (encode f v ++ rest)
  = Tripwire.prelude
      ++ match f with
         | ndjson => map Tripwire.Sniffed (summary "INPUT" (f, v))
         | lsp =>
             let g := Nat.min granted Tripwire.read1_size in
             let k := List.length (content_length_line (List.length (dumps v))) + 2 + g in
             if (2 + List.length (dumps v) <=? g)%nat
             then map Tripwire.Sniffed (summary "INPUT" (f, v))
             else [Tripwire.RawFirstBytes k (slice (firstn k (encode f v)) 0 256)]
         end
      ++ [Tripwire.Captured].
Proof.
  intros Hok. pose proof Hok as Hok'. unfold readable in Hok'. cbn [fst snd] in Hok'.
  apply andb_prop in Hok' as [Hwf Hc].
  destruct f; cbn [encode].
  - assert (Hr : readline (Server.ndjson_frame v ++ rest) = (Server.ndjson_frame v, rest)).
    { unfold Server.ndjson_frame. rewrite <- app_assoc. cbn [app].
      apply readline_line, printable_not_lf, dumps_printable. }
    apply (run_tripwire_sniffed granted _ _ _ _
             (List.length (encode ndjson v)) Hr).
    + unfold Server.ndjson_frame. destruct (dumps v); discriminate.
    + apply (sniff_frame "INPUT" ndjson v Hok).
  - cbv zeta. set (n := List.length (dumps v)). set (cl := content_length_line n).
    set (g := Nat.min granted Tripwire.read1_size).
    assert (Hn : 0 < n).
    { pose proof (dumps_nonempty v). unfold n. destruct (dumps v); [congruence | simpl; lia]. }
    assert (Hlen : List.length (Server.lsp_frame v) = List.length cl + 4 + n).
    { rewrite lsp_frame_eq, !length_app. change (List.length CRLFCRLF) with 4.
      fold n cl. lia. }
    pose proof (readline_lsp_frame v rest) as Hr. fold n cl in Hr.
    assert (Hfirst : cl ++ CRLF = firstn (List.length cl + 2 + 0) (Server.lsp_frame v)).
    { unfold cl, n. rewrite <- (lsp_frame_short v [] 0) by lia. cbn [firstn].
      rewrite app_nil_r. reflexivity. }
    assert (Hq1 : Debugger.sniff_and_summarize "INPUT" (cl ++ CRLF) = ([], None)).
    { rewrite Hfirst. apply (sniff_prefix_quiet "INPUT" lsp v); [discriminate|].
      cbn [encode]. lia. }
    assert (Hcne : cl ++ CRLF <> []).
    { unfold cl, content_length_line. discriminate. }
    assert (Hm : fst (Tripwire.read1 granted (CRLF ++ dumps v ++ rest))
                 = firstn g (CRLF ++ dumps v ++ rest)) by reflexivity.
    destruct g as [|g'] eqn:Eg.
    + rewrite (run_tripwire_no_more granted _ _ _ _ Hr Hcne Hq1 Hm).
      replace (2 + n <=? 0)%nat with false by (symmetry; apply Nat.leb_gt; lia).
      cbn [map app]. rewrite Hfirst. rewrite length_firstn, Hlen.
      replace (Nat.min (List.length cl + 2 + 0) (List.length cl + 4 + n))
        with (List.length cl + 2 + 0) by lia.
      reflexivity.
    + rewrite <- Eg in *.
      assert (Hmne : firstn g (CRLF ++ dumps v ++ rest) <> []).
      { rewrite Eg. discriminate. }
      rewrite (run_tripwire_more granted _ _ _ _ _ Hr Hcne Hq1 Hm Hmne).
      destruct (2 + n <=? g)%nat eqn:El.
      * apply Nat.leb_le in El. unfold cl, n. rewrite (lsp_frame_long v rest g El).
        rewrite (sniff_lsp_trail "INPUT" v _ Hwf). reflexivity.
      * apply Nat.leb_gt in El. unfold cl, n. rewrite (lsp_frame_short v rest g El).
        fold n cl.
        rewrite (sniff_prefix_quiet "INPUT" lsp v) by (try discriminate; cbn [encode]; lia).
        cbn [map app]. rewrite length_firstn, Hlen.
        replace (Nat.min (List.length cl + 2 + g) (List.length cl + 4 + n))
          with (List.length cl + 2 + g) by lia.
        reflexivity.
Qed.

Lemma tripwire_first_message_witness :
  readable (lsp, JInt 5) = true
  /\ Tripwire.run_tripwire 2 (encode lsp (JInt 5) ++ B "{}")
     = Tripwire.prelude
         ++ [Tripwire.RawFirstBytes 21 (B "Content-Length: 1" ++ CRLF ++ CRLF)]
         ++ [Tripwire.Captured].
Proof.
  split; [reflexivity|].
  exact (tripwire_first_message lsp (JInt 5) (B "{}") 2 eq_refl).
Defined.
